(** * ViewMax API server: a shallow embedding of the Express route handlers

    The server (an ES module built on Express) answers every request by
    re-reading [data/movies.json] and [data/series.json], filtering the
    parsed arrays in memory and wrapping the outcome in a JSON envelope.
    This development embeds the route handlers as functions of the request
    and of the environment (the state of the two files, the clock and the
    engine's unspecified sort under a coin-flipping comparator) and proves
    the properties the specification states about them.

    Conventions of the embedding:
    - JavaScript strings are [string], read as sequences of code units
      below 256 (the Latin-1 range of UTF-16); [toLowerCase] folds the
      capital letters of that range, A to Z and U+00C0 to U+00DE.
    - [undefined] is [None]; a query parameter is an [option string].
    - An integral JavaScript number is a [Z], with [None] standing for NaN
      (what [parseInt] returns when no digit is found), which is exact for
      magnitudes up to 2^53; the double precision numbers of ratings are
      [spec_float] at precision 53.
    - The records of the data files are typed after section 3 of the
      specification: [name], [description] and [genre] are always strings,
      while [rating], [sources] and [episodes] may be missing, as the
      handlers themselves test for.
    - A value read through [||] or tested by [if] is present when it is
      truthy: a missing string and the empty string are both absent, and
      so are a missing rating, the number 0 and the empty rating.
    - The rate limiter and the other middleware in front of the routes are
      not part of the embedding. *)

From Stdlib Require Import List String Ascii ZArith Lia Bool Permutation Sorted.
From Stdlib Require Import SpecFloat DecimalString.
Import ListNotations.
Local Open Scope string_scope.
Local Open Scope Z_scope.

(** ** The fragment of the JavaScript runtime the handlers call *)

Module JS.

(** Truthiness of a possibly undefined string: [undefined] and the empty
    string are falsy. *)
Definition truthy (v : option string) : bool :=
  match v with
  | Some s => negb (s =? "")%string
  | None => false
  end.

(** [a || b] on possibly undefined strings. *)
Definition or_else (a b : option string) : option string :=
  if truthy a then a else b.

(** Lower case of one code unit below 256: the capitals are A to Z
    (65 to 90) and U+00C0 to U+00DE (192 to 222) but for the
    multiplication sign U+00D7 (215); each has its small letter 32 code
    units further. *)
Definition lower_code_unit (c : ascii) : ascii :=
  let n := nat_of_ascii c in
  if ((Nat.leb 65 n && Nat.leb n 90)
      || (Nat.leb 192 n && Nat.leb n 222 && negb (Nat.eqb n 215)))%bool
  then ascii_of_nat (n + 32) else c.

(** [String.prototype.toLowerCase]. *)
Fixpoint toLowerCase (s : string) : string :=
  match s with
  | EmptyString => EmptyString
  | String c s' => String (lower_code_unit c) (toLowerCase s')
  end.

(** [s.includes(sub)]: [sub] occurs in [s] at some position. *)
Fixpoint includes (s sub : string) : bool :=
  (String.prefix sub s ||
   match s with
   | EmptyString => false
   | String _ s' => includes s' sub
   end)%bool.

(** White space skipped by [parseInt], [parseFloat] and [trim]: the
    members of the class below 256, which are the space, the controls
    from tab to carriage return and the no-break space U+00A0. *)
Definition is_space (c : ascii) : bool :=
  let n := nat_of_ascii c in
  (Nat.eqb n 32 || (Nat.leb 9 n && Nat.leb n 13) || Nat.eqb n 160)%bool.

Fixpoint trimStart (s : string) : string :=
  match s with
  | String c s' => if is_space c then trimStart s' else s
  | EmptyString => EmptyString
  end.

(** Value of a digit in radix 10 or 16. *)
Definition digit_value (radix : Z) (c : ascii) : option Z :=
  let n := Z.of_nat (nat_of_ascii c) in
  if (48 <=? n) && (n <=? 57) then Some (n - 48)
  else if (radix =? 16) && (97 <=? n) && (n <=? 102) then Some (n - 87)
  else if (radix =? 16) && (65 <=? n) && (n <=? 70) then Some (n - 55)
  else None.

(** Longest run of digits at the head of [s], accumulated in [acc];
    [seen] records whether a digit was read. *)
Fixpoint read_digits (radix : Z) (s : string) (acc : Z) (seen : bool)
  : Z * bool * string :=
  match s with
  | String c s' =>
      match digit_value radix c with
      | Some d => read_digits radix s' (acc * radix + d) true
      | None => (acc, seen, s)
      end
  | EmptyString => (acc, seen, s)
  end.

Definition strip_sign (s : string) : bool * string :=
  match s with
  | String "-" s' => (true, s')
  | String "+" s' => (false, s')
  | _ => (false, s)
  end.

Definition strip_hex_prefix (s : string) : Z * string :=
  match s with
  | String "0" (String "x" s') => (16, s')
  | String "0" (String "X" s') => (16, s')
  | _ => (10, s)
  end.

(** [parseInt(s)] with no radix argument; [None] is NaN. *)
Definition parseInt (s : string) : option Z :=
  let '(neg, s1) := strip_sign (trimStart s) in
  let '(radix, s2) := strip_hex_prefix s1 in
  let '(n, seen, _) := read_digits radix s2 0 false in
  if seen then Some (if neg then - n else n) else None.

(** [parseInt(p)] where the destructuring default [dflt] (a number)
    replaces an undefined parameter. *)
Definition parseInt_default (dflt : Z) (p : option string) : option Z :=
  match p with
  | Some s => parseInt s
  | None => Some dflt
  end.

(** [a + b] on integral numbers: NaN is absorbing. *)
Definition add (a b : option Z) : option Z :=
  match a, b with
  | Some x, Some y => Some (x + y)
  | _, _ => None
  end.

(** [a < n]: false when [a] is NaN. *)
Definition lt (a : option Z) (n : Z) : bool :=
  match a with
  | Some x => x <? n
  | None => false
  end.

(** [a === b] between a stored integer and a parsed one. *)
Definition strict_eq (a : Z) (b : option Z) : bool :=
  match b with
  | Some y => a =? y
  | None => false
  end.

(** [n / 2] as an array index: the quotient is truncated toward zero by
    the [ToIntegerOrInfinity] of [slice]. *)
Definition half (n : option Z) : option Z :=
  option_map (fun x => Z.quot x 2) n.

(** [ToIntegerOrInfinity]: NaN becomes 0. *)
Definition toIntegerOrInfinity (n : option Z) : Z :=
  match n with
  | Some x => x
  | None => 0
  end.

(** A relative index of [slice]: negative indices count from the end,
    and the result is clamped to [0 .. len]. *)
Definition relative_index (len i : Z) : Z :=
  if i <? 0 then Z.max (len + i) 0 else Z.min i len.

(** [l.slice(start, end)] for two numbers; NaN counts as 0. *)
Definition slice {A : Type} (l : list A) (start end_ : option Z) : list A :=
  let len := Z.of_nat (List.length l) in
  let k := relative_index len (toIntegerOrInfinity start) in
  let final := relative_index len (toIntegerOrInfinity end_) in
  firstn (Z.to_nat (final - k)) (skipn (Z.to_nat k) l).

(** *** Arrays: sorting and sets

    [l.find(p)] and [l.filter(p)] are [List.find] and [List.filter]. *)

(** Stable insertion of [x] before the first element it need not
    follow; [after x y] says that [x] must come after [y]. *)
Fixpoint insert_by {A : Type} (after : A -> A -> bool) (x : A) (l : list A)
  : list A :=
  match l with
  | [] => [x]
  | y :: l' => if after x y then y :: insert_by after x l' else x :: l
  end.

Fixpoint sort_by {A : Type} (after : A -> A -> bool) (l : list A) : list A :=
  match l with
  | [] => []
  | x :: l' => insert_by after x (sort_by after l')
  end.

(** [l.sort()] on strings: ascending order of code units. *)
Definition sort_strings (l : list string) : list string :=
  sort_by (fun a b => String.ltb b a) l.

(** [[...new Set(l)]]: the distinct elements in order of first
    occurrence. *)
Definition Set_values (l : list string) : list string :=
  fold_left
    (fun seen x => if existsb (String.eqb x) seen then seen else seen ++ [x])%list
    l [].

(** *** Strings: splitting and trimming *)

(** [s.split(',')]. *)
Fixpoint split_comma (s : string) : list string :=
  match s with
  | EmptyString => [""]
  | String c s' =>
      if (c =? ",")%char then "" :: split_comma s'
      else match split_comma s' with
           | h :: t => String c h :: t
           | [] => [String c ""]
           end
  end.

Fixpoint trimEnd (s : string) : string :=
  match s with
  | EmptyString => EmptyString
  | String c s' =>
      let t := trimEnd s' in
      if (is_space c && (t =? "")%string)%bool then "" else String c t
  end.

Definition trim (s : string) : string := trimEnd (trimStart s).

Definition strlen (s : string) : Z := Z.of_nat (String.length s).

(** Decimal digits of a natural number. *)
Definition decimal (n : Z) : string :=
  NilZero.string_of_uint (N.to_uint (Z.to_N n)).

(** *** Numbers: IEEE 754 binary64 *)

Definition prec : Z := 53.
Definition emax : Z := 1024.
Definition Number : Type := spec_float.
Definition NaN : Number := S754_nan.
Definition of_Z (n : Z) : Number := binary_normalize prec emax n 0 false.
Definition fadd : Number -> Number -> Number := SFadd prec emax.
Definition fsub : Number -> Number -> Number := SFsub prec emax.
Definition fdiv : Number -> Number -> Number := SFdiv prec emax.

(** [0 < x]; false for NaN. *)
Definition positive (x : Number) : bool := SFltb (S754_zero false) x.

(** [l.sort(cmp)] for a comparator returning a number: [a] moves after
    [b] when [cmp(a, b) > 0]; a zero or NaN answer keeps the order of
    arrival (the sort is stable).  Under a consistent comparator this is
    the one arrangement a stable sort may produce, whatever its
    algorithm; when some answers are NaN and the comparator is not
    consistent, the arrangement depends on the algorithm of the engine,
    and this is the one that insertion from the right produces. *)
Definition sort {A : Type} (cmp : A -> A -> Number) (l : list A) : list A :=
  sort_by (fun a b => positive (cmp a b)) l.

(** The double nearest to [m * 10^k] (ties to even), signed by [neg]. *)
Definition of_decimal (neg : bool) (m k : Z) : Number :=
  match m with
  | Z0 => S754_zero neg
  | Zneg _ => S754_nan
  | Zpos _ =>
      if 0 <=? k then
        binary_normalize prec emax
          (if neg then - (m * 10 ^ k) else m * 10 ^ k) 0 false
      else
        let '(q, e, l) := SFdiv_core_binary prec emax m 0 (10 ^ (- k)) 0 in
        binary_round_aux prec emax neg q e l
  end.

(** Exponent part of a decimal literal: [e] or [E], an optional sign
    and digits; 0 when there is none. *)
Definition read_exponent (s : string) : Z :=
  match s with
  | String c s' =>
      if ((c =? "e") || (c =? "E"))%char then
        let '(neg, s1) := strip_sign s' in
        let '(n, seen, _) := read_digits 10 s1 0 false in
        if seen then (if neg then - n else n) else 0
      else 0
  | EmptyString => 0
  end.

(** [parseFloat(s)] on a string: the longest prefix that is a decimal
    literal, after leading white space; NaN when there is none. *)
Definition parseFloat (s : string) : Number :=
  let '(neg, s1) := strip_sign (trimStart s) in
  if String.prefix "Infinity" s1 then S754_infinity neg else
  let '(int_part, seen1, s2) := read_digits 10 s1 0 false in
  let '(mant, seen2, s3) :=
    match s2 with
    | String "." s2' =>
        let '(m, seen, rest) := read_digits 10 s2' int_part false in
        if (seen1 || seen)%bool then (m, seen, rest) else (int_part, false, s2)
    | _ => (int_part, false, s2)
    end in
  let frac_len :=
    match s2 with
    | String "." s2' => if seen2 then strlen s2' - strlen s3 else 0
    | _ => 0
    end in
  if (seen1 || seen2)%bool then of_decimal neg mant (read_exponent s3 - frac_len)
  else NaN.

(** [parseFloat(x)] on a number: [x] is printed and read back, which
    returns [x] itself, the sign of zero apart. *)
Definition parseFloat_number (x : Number) : Number :=
  match x with
  | S754_zero _ => S754_zero false
  | _ => x
  end.

(** Does the decimal integer [cand] denote the same double as [N]? *)
Definition same_double (N cand : Z) : bool := SFeqb (of_Z cand) (of_Z N).

Fixpoint strip_trailing_zeros (fuel : nat) (n : Z) : Z :=
  match fuel with
  | O => n
  | S fuel' =>
      if (n mod 10 =? 0) && negb (n =? 0)
      then strip_trailing_zeros fuel' (n / 10) else n
  end.

(** The least count [k] of significant digits, and the digits [s], such
    that [s * 10^(n-k)] reads back as the double [N] of [n] digits. *)
Fixpoint shortest_digits (fuel : nat) (N n k : Z) : Z * Z :=
  match fuel with
  | O => (N, n)
  | S fuel' =>
      let p := 10 ^ (n - k) in
      let lo := N / p in
      let hi := lo + 1 in
      match same_double N (lo * p), same_double N (hi * p) with
      | true, true =>
          let dlo := N - lo * p in
          let dhi := hi * p - N in
          if dlo <? dhi then (lo, k)
          else if dhi <? dlo then (hi, k)
          else if Z.even lo then (lo, k) else (hi, k)
      | true, false => (lo, k)
      | false, true => (hi, k)
      | false, false => shortest_digits fuel' N n (k + 1)
      end
  end.

(** [Number::toString] of an integral double [N >= 10^21]: exponential
    notation with the shortest digits that read back as [N]. *)
Definition toString_large (N : Z) : string :=
  let n := strlen (decimal N) in
  let '(s, k) := shortest_digits 17 N n 1 in
  let e10 := strlen (decimal s) + (n - k) - 1 in
  match decimal (strip_trailing_zeros 40 s) with
  | String d EmptyString => String d ("e+" ++ decimal e10)
  | String d rest => String d ("." ++ rest ++ "e+" ++ decimal e10)
  | EmptyString => EmptyString
  end.

(** [x.toFixed(1)]: the integer [n] nearest to [10 * x] (the larger one
    on a tie) printed with one fractional digit; NaN, the infinities and
    magnitudes from [10^21] are printed as [toString] does. *)
Definition toFixed1 (x : Number) : string :=
  match x with
  | S754_nan => "NaN"
  | S754_infinity s => if s then "-Infinity" else "Infinity"
  | S754_zero _ => "0.0"
  | S754_finite s m e =>
      let sign := if s then "-" else "" in
      if (0 <=? e) && (10 ^ 21 <=? Zpos m * 2 ^ e)
      then sign ++ toString_large (Zpos m * 2 ^ e)
      else
        let n := if 0 <=? e then 10 * Zpos m * 2 ^ e
                 else (2 * 10 * Zpos m + 2 ^ (- e)) / (2 * 2 ^ (- e)) in
        sign ++ decimal (n / 10) ++ "." ++ decimal (n mod 10)
  end.

End JS.

(** ** The records of the data files *)

(** A [sources] object: slot name to URL, in the order of the keys. *)
Definition Sources : Type := list (string * string).

(** [sources[key]]. *)
Fixpoint get (sources : Sources) (key : string) : option string :=
  match sources with
  | [] => None
  | (k, v) :: rest => if (k =? key)%string then Some v else get rest key
  end.

(** [Object.keys(sources)]. *)
Definition Object_keys (sources : Sources) : list string := map fst sources.

(** A [rating] as JSON stores it: a number or a string. *)
Inductive Rating : Type :=
| RNum (x : JS.Number)
| RStr (s : string).

Module Episode.
Record t : Type := mk {
  season : Z;
  episode : Z;
  title : string;
  sources : option Sources
}.
End Episode.

Module Title.
Record t : Type := mk {
  name : string;
  description : string;
  genre : string;
  rating : option Rating;
  releaseDate : string;
  image : string;
  sources : option Sources;
  episodes : option (list Episode.t)
}.
End Title.

(** [{ ...record, type: tag }]: a search or trending result. *)
Record Tagged : Type := tagged {
  record : Title.t;
  type : string
}.

(** Truthiness of a possibly missing rating: 0, NaN and the empty string
    are falsy. *)
Definition rating_truthy (r : option Rating) : bool :=
  match r with
  | None => false
  | Some (RNum (S754_zero _)) => false
  | Some (RNum S754_nan) => false
  | Some (RNum _) => true
  | Some (RStr s) => negb (s =? "")%string
  end.

(** [parseFloat(r)] for a possibly missing rating; [parseFloat(undefined)]
    is NaN. *)
Definition parseFloat_rating (r : option Rating) : JS.Number :=
  match r with
  | None => JS.NaN
  | Some (RNum x) => JS.parseFloat_number x
  | Some (RStr s) => JS.parseFloat s
  end.

(** [parseFloat(r || 0)]. *)
Definition parseFloat_rating_or_0 (r : option Rating) : JS.Number :=
  if rating_truthy r then parseFloat_rating r else JS.parseFloat_number (JS.of_Z 0).

(** ** The environment and the effects of a handler *)

(** What reading and parsing a data file comes to: [fs.readFile] rejects,
    [JSON.parse] throws, or the text is an array of records. *)
Inductive FileState : Type :=
| Unreadable (error : string)
| Malformed (error : string)
| Holds (records : list Title.t).

(** The environment of a request: the data directory, the outcome of
    sorting under the comparator [() => Math.random() - 0.5] (neither the
    engine's algorithm nor the coin flips are fixed by the program), and
    [new Date().toISOString()]. *)
Record Env : Type := {
  data : string -> FileState;
  sort_random : list Tagged -> list Tagged;
  Date_toISOString : string
}.

Inductive Outcome (A : Type) : Type :=
| Returned (a : A)
| Thrown (message : string).
Arguments Returned {A} a.
Arguments Thrown {A} message.

(** A computation reads the environment, appends the names of the files
    it reads to a log, and returns or throws. *)
Definition Eff (A : Type) : Type := Env -> list string -> Outcome A * list string.

Definition ret {A : Type} (a : A) : Eff A := fun _ log => (Returned a, log).

Definition throw {A : Type} (message : string) : Eff A :=
  fun _ log => (Thrown message, log).

Definition bind {A B : Type} (c : Eff A) (k : A -> Eff B) : Eff B :=
  fun env log =>
    match c env log with
    | (Returned a, log') => k a env log'
    | (Thrown e, log') => (Thrown e, log')
    end.

(** [try { c } catch (error) { handler(error.message) }]. *)
Definition try_catch {A : Type} (c : Eff A) (handler : string -> Eff A) : Eff A :=
  fun env log =>
    match c env log with
    | (Returned a, log') => (Returned a, log')
    | (Thrown e, log') => handler e env log'
    end.

Definition ask : Eff Env := fun env log => (Returned env, log).

Declare Scope eff_scope.
Delimit Scope eff_scope with eff.
Notation "x <- c ;; k" := (bind c (fun x => k))
  (at level 61, c at next level, right associativity) : eff_scope.

(** [await fs.readFile(join(__dirname, 'data', filename), 'utf8')] followed
    by [JSON.parse]: either step may throw. *)
Definition readFile_parse (filename : string) : Eff (list Title.t) :=
  fun env log =>
    (match data env filename with
     | Unreadable e => Thrown e
     | Malformed e => Thrown e
     | Holds records => Returned records
     end, (log ++ [filename])%list).

Definition readJSONFile (filename : string) : Eff (list Title.t) :=
  try_catch (readFile_parse filename) (fun _ => ret []).

(** Running a handler from an empty log. *)
Definition run {A : Type} (c : Eff A) (env : Env) : Outcome A * list string :=
  c env [].

(** ** Responses *)

Module SeriesInfo.
Record t : Type := mk {
  name : string;
  description : string;
  genre : string;
  rating : option Rating;
  releaseDate : string;
  image : string
}.
End SeriesInfo.

(** The JSON bodies the handlers send, one constructor per shape. *)
Inductive Body : Type :=
| Page (data : list Title.t) (total : nat) (limit offset : option Z)
       (hasMore : bool)
| SearchPage (data : list Tagged) (total : nat) (limit offset : option Z)
             (hasMore : bool) (query : string)
| One (data : Title.t)
| Episodes (data : list Episode.t) (seriesInfo : SeriesInfo.t)
| Iframe (title type : string) (season episode : option Z)
         (episodeTitle : option string) (iframe : option string)
         (availableSources : list string)
| Trending (data : list Tagged)
| Stats (totalMovies totalSeries totalEpisodes totalGenres : nat)
        (genres : list string)
        (averageMovieRating averageSeriesRating : string)
| Genres (data : list string)
| Health (message timestamp version : string)
| Failure (error : string) (message : option string)
| Catalog (error : string) (availableEndpoints : list string).

Record Response : Type := json {
  status : Z;
  success : bool;
  body : Body
}.

(** ** The route handlers *)

Local Open Scope eff_scope.

(** The predicate of the search filter, on a lower-cased term. *)
Definition matches_search (searchTerm : string) (movie : Title.t) : bool :=
  (JS.includes (JS.toLowerCase (Title.name movie)) searchTerm
   || JS.includes (JS.toLowerCase (Title.description movie)) searchTerm
   || JS.includes (JS.toLowerCase (Title.genre movie)) searchTerm)%bool.

(** The predicate of the genre filter. *)
Definition matches_genre (genre : string) (movie : Title.t) : bool :=
  JS.includes (JS.toLowerCase (Title.genre movie)) (JS.toLowerCase genre).

(** [if (search) { movies = movies.filter(...) }]. *)
Definition search_filter (search : option string) (movies : list Title.t)
  : list Title.t :=
  match search with
  | Some s =>
      if JS.truthy search
      then filter (matches_search (JS.toLowerCase s)) movies
      else movies
  | None => movies
  end.

(** [if (genre && genre !== 'all') { items = items.filter(...) }]. *)
Definition genre_filter {A : Type} (title_of : A -> Title.t)
  (genre : option string) (items : list A) : list A :=
  match genre with
  | Some g =>
      if (JS.truthy genre && negb (g =? "all")%string)%bool
      then filter (fun item => matches_genre g (title_of item)) items
      else items
  | None => items
  end.

(** [GET /api/movies] and [GET /api/series]: the two handlers differ in
    the file they read and in the text of their failure message. *)
Definition list_titles (filename failure : string)
  (search genre limit offset : option string) : Eff Response :=
  try_catch
    (movies <- readJSONFile filename ;;
     let movies := search_filter search movies in
     let movies := genre_filter (fun m => m) genre movies in
     let startIndex := JS.parseInt_default 0 offset in
     let endIndex := JS.add startIndex (JS.parseInt_default 20 limit) in
     let paginatedMovies := JS.slice movies startIndex endIndex in
     ret (json 200 true
            (Page paginatedMovies (List.length movies)
               (JS.parseInt_default 20 limit) (JS.parseInt_default 0 offset)
               (JS.lt endIndex (Z.of_nat (List.length movies))))))
    (fun message => ret (json 500 false (Failure failure (Some message)))).

Definition get_api_movies : option string -> option string -> option string ->
                            option string -> Eff Response :=
  list_titles "movies.json" "Failed to fetch movies".

Definition get_api_series : option string -> option string -> option string ->
                            option string -> Eff Response :=
  list_titles "series.json" "Failed to fetch series".

(** [m.name.toLowerCase() === title.toLowerCase()]. *)
Definition same_name (title : string) (m : Title.t) : bool :=
  (JS.toLowerCase (Title.name m) =? JS.toLowerCase title)%string.

(** [GET /api/movies/:name] and [GET /api/series/:name]. *)
Definition one_title (filename missing failure name : string) : Eff Response :=
  try_catch
    (movies <- readJSONFile filename ;;
     match find (same_name name) movies with
     | None => ret (json 404 false (Failure missing None))
     | Some movie => ret (json 200 true (One movie))
     end)
    (fun message => ret (json 500 false (Failure failure (Some message)))).

Definition get_api_movies_name : string -> Eff Response :=
  one_title "movies.json" "Movie not found" "Failed to fetch movie".

Definition get_api_series_name : string -> Eff Response :=
  one_title "series.json" "Series not found" "Failed to fetch series".

(** [parseInt(p)] of a query parameter; [parseInt(undefined)] is NaN. *)
Definition parseInt_param (p : option string) : option Z :=
  match p with
  | Some s => JS.parseInt s
  | None => None
  end.

(** [GET /api/series/:name/episodes]. *)
Definition get_api_series_name_episodes (name : string)
  (season episode : option string) : Eff Response :=
  try_catch
    (series <- readJSONFile "series.json" ;;
     match find (same_name name) series with
     | None => ret (json 404 false (Failure "Series not found" None))
     | Some show =>
         let episodes :=
           match Title.episodes show with Some eps => eps | None => [] end in
         let episodes :=
           if JS.truthy season
           then filter (fun ep => JS.strict_eq (Episode.season ep)
                                    (parseInt_param season)) episodes
           else episodes in
         let episodes :=
           if JS.truthy episode
           then filter (fun ep => JS.strict_eq (Episode.episode ep)
                                    (parseInt_param episode)) episodes
           else episodes in
         ret (json 200 true
                (Episodes episodes
                   (SeriesInfo.mk (Title.name show) (Title.description show)
                      (Title.genre show) (Title.rating show)
                      (Title.releaseDate show) (Title.image show))))
     end)
    (fun message =>
       ret (json 500 false (Failure "Failed to fetch episodes" (Some message)))).

(** [!type || type === kind || type === 'all']. *)
Definition selects (type : option string) (kind : string) : bool :=
  match type with
  | Some t => (negb (JS.truthy type) || (t =? kind)%string || (t =? "all")%string)%bool
  | None => true
  end.

(** The matches of one collection in the universal search, tagged. *)
Definition search_collection (filename kind searchTerm : string)
  (type : option string) (results : list Tagged) : Eff (list Tagged) :=
  if selects type kind then
    movies <- readJSONFile filename ;;
    let movieResults :=
      map (fun movie => tagged movie kind)
          (filter (matches_search searchTerm) movies) in
    ret (results ++ movieResults)%list
  else ret results.

(** [GET /api/search]. *)
Definition get_api_search (q type genre limit offset : option string)
  : Eff Response :=
  try_catch
    (match q with
     | Some qs =>
         if JS.truthy q then
           let searchTerm := JS.toLowerCase qs in
           results <- search_collection "movies.json" "movie" searchTerm type [] ;;
           results <- search_collection "series.json" "series" searchTerm type results ;;
           let results := genre_filter record genre results in
           let startIndex := JS.parseInt_default 0 offset in
           let endIndex := JS.add startIndex (JS.parseInt_default 20 limit) in
           let paginatedResults := JS.slice results startIndex endIndex in
           ret (json 200 true
                  (SearchPage paginatedResults (List.length results)
                     (JS.parseInt_default 20 limit)
                     (JS.parseInt_default 0 offset)
                     (JS.lt endIndex (Z.of_nat (List.length results)))
                     qs))
         else ret (json 400 false (Failure "Search query is required" None))
     | None => ret (json 400 false (Failure "Search query is required" None))
     end)
    (fun message => ret (json 500 false (Failure "Search failed" (Some message)))).

(** The slot a [source] selector names. *)
Definition sourceKey (source : string) : string :=
  if (source =? "primary")%string then "source1"
  else if (source =? "secondary")%string then "source2"
  else if (source =? "tertiary")%string then "source3"
  else "source1".

(** [sources[sourceKey] || sources.source1]. *)
Definition iframe_of (sources : Sources) (source : string) : option string :=
  JS.or_else (get sources (sourceKey source)) (get sources "source1").

Definition content_not_found : Response :=
  json 404 false (Failure "Content not found" None).

(** The last resort of the series branch: the first stored episode.  Its
    [sources] are read without a test, so an episode that has none makes
    the property access throw a [TypeError] (the message is the one of
    V8). *)
Definition iframe_first_episode (show : Title.t) (source : string)
  : Eff Response :=
  match Title.episodes show with
  | Some (firstEp :: _) =>
      match Episode.sources firstEp with
      | Some sources =>
          ret (json 200 true
                 (Iframe (Title.name show) "series"
                    (Some (Episode.season firstEp))
                    (Some (Episode.episode firstEp))
                    (Some (Episode.title firstEp))
                    (iframe_of sources source)
                    (Object_keys sources)))
      | None =>
          throw ("Cannot read properties of undefined (reading '"
                   ++ sourceKey source ++ "')")
      end
  | _ => ret content_not_found
  end.

(** [show.episodes?.find(e => e.season === parseInt(season) &&
    e.episode === parseInt(episode))]. *)
Definition find_episode (show : Title.t) (season episode : option string)
  : option Episode.t :=
  match Title.episodes show with
  | Some episodes =>
      find (fun e => (JS.strict_eq (Episode.season e) (parseInt_param season)
                      && JS.strict_eq (Episode.episode e) (parseInt_param episode))%bool)
           episodes
  | None => None
  end.

(** The series branch of the resolver. *)
Definition iframe_series (title source : string) (season episode : option string)
  : Eff Response :=
  series <- readJSONFile "series.json" ;;
  match find (same_name title) series with
  | Some show =>
      let ep :=
        if (JS.truthy season && JS.truthy episode)%bool
        then find_episode show season episode
        else None in
      match ep with
      | Some ep =>
          match Episode.sources ep with
          | Some sources =>
              ret (json 200 true
                     (Iframe (Title.name show) "series"
                        (Some (Episode.season ep))
                        (Some (Episode.episode ep))
                        (Some (Episode.title ep))
                        (iframe_of sources source)
                        (Object_keys sources)))
          | None => iframe_first_episode show source
          end
      | None => iframe_first_episode show source
      end
  | None => ret content_not_found
  end.

(** The destructuring default [source = 'primary']. *)
Definition or_primary (source : option string) : string :=
  match source with
  | Some s => s
  | None => "primary"
  end.

(** The [catch] clause of the resolver. *)
Definition iframe_failed (message : string) : Eff Response :=
  ret (json 500 false (Failure "Failed to get iframe source" (Some message))).

(** [GET /api/iframe]. *)
Definition get_api_iframe (title source season episode : option string)
  : Eff Response :=
  let source := or_primary source in
  try_catch
    (match title with
     | Some t =>
         if JS.truthy title then
           movies <- readJSONFile "movies.json" ;;
           match find (same_name t) movies with
           | Some movie =>
               match Title.sources movie with
               | Some sources =>
                   ret (json 200 true
                          (Iframe (Title.name movie) "movie" None None None
                             (iframe_of sources source)
                             (Object_keys sources)))
               | None => iframe_series t source season episode
               end
           | None => iframe_series t source season episode
           end
         else ret (json 400 false (Failure "Title is required" None))
     | None => ret (json 400 false (Failure "Title is required" None))
     end)
    iframe_failed.

(** [(a, b) => parseFloat(b.rating) - parseFloat(a.rating)]. *)
Definition by_rating_desc (a b : Title.t) : JS.Number :=
  JS.fsub (parseFloat_rating (Title.rating b)) (parseFloat_rating (Title.rating a)).

(** The best rated half-page of one collection, tagged. *)
Definition trending_collection (filename kind : string)
  (type limit : option string) (trending : list Tagged) : Eff (list Tagged) :=
  if selects type kind then
    movies <- readJSONFile filename ;;
    let trendingMovies :=
      map (fun movie => tagged movie kind)
          (JS.slice (JS.sort by_rating_desc movies) (Some 0)
                    (JS.half (JS.parseInt_default 20 limit))) in
    ret (trending ++ trendingMovies)%list
  else ret trending.

(** [GET /api/trending]. *)
Definition get_api_trending (type limit : option string) : Eff Response :=
  try_catch
    (trending <- trending_collection "movies.json" "movie" type limit [] ;;
     trending <- trending_collection "series.json" "series" type limit trending ;;
     env <- ask ;;
     let trending :=
       JS.slice (sort_random env trending) (Some 0) (JS.parseInt_default 20 limit) in
     ret (json 200 true (Trending trending)))
    (fun message =>
       ret (json 500 false
              (Failure "Failed to fetch trending content" (Some message)))).

(** [movies.flatMap(m => m.genre.split(',').map(g => g.trim()))]. *)
Definition genre_tags (movies : list Title.t) : list string :=
  flat_map (fun m => map JS.trim (JS.split_comma (Title.genre m))) movies.

(** [(movies.reduce((sum, m) => sum + parseFloat(m.rating || 0), 0)
    / movies.length).toFixed(1)]. *)
Definition average_rating (movies : list Title.t) : string :=
  JS.toFixed1
    (JS.fdiv
       (fold_left (fun sum m => JS.fadd sum (parseFloat_rating_or_0 (Title.rating m)))
                  movies (JS.of_Z 0))
       (JS.of_Z (Z.of_nat (List.length movies)))).

(** [GET /api/stats]. *)
Definition get_api_stats : Eff Response :=
  try_catch
    (movies <- readJSONFile "movies.json" ;;
     series <- readJSONFile "series.json" ;;
     let totalEpisodes :=
       fold_left
         (fun total show =>
            (total + match Title.episodes show with
                     | Some episodes => List.length episodes
                     | None => 0
                     end)%nat)
         series 0%nat in
     let movieGenres := genre_tags movies in
     let seriesGenres := genre_tags series in
     let allGenres := JS.Set_values (movieGenres ++ seriesGenres)%list in
     ret (json 200 true
            (Stats (List.length movies) (List.length series) totalEpisodes
               (List.length allGenres) allGenres
               (average_rating movies) (average_rating series))))
    (fun message =>
       ret (json 500 false (Failure "Failed to fetch statistics" (Some message)))).

(** [GET /api/genres]. *)
Definition get_api_genres : Eff Response :=
  try_catch
    (movies <- readJSONFile "movies.json" ;;
     series <- readJSONFile "series.json" ;;
     let movieGenres := genre_tags movies in
     let seriesGenres := genre_tags series in
     let allGenres :=
       JS.sort_strings (JS.Set_values (movieGenres ++ seriesGenres)%list) in
     ret (json 200 true (Genres allGenres)))
    (fun message =>
       ret (json 500 false (Failure "Failed to fetch genres" (Some message)))).

(** [GET /api/health]. *)
Definition get_api_health : Eff Response :=
  env <- ask ;;
  ret (json 200 true
         (Health "ViewMax API is running" (Date_toISOString env) "1.0.0")).

(** The handler of [/api/*] for the paths no route matches. *)
Definition api_not_found : Eff Response :=
  ret (json 404 false
         (Catalog "API endpoint not found"
            ["GET /api/movies"; "GET /api/movies/:name"; "GET /api/series";
             "GET /api/series/:name"; "GET /api/series/:name/episodes";
             "GET /api/search"; "GET /api/iframe"; "GET /api/trending";
             "GET /api/stats"; "GET /api/genres"; "GET /api/health"])).

(** A request under [/api], after Express has matched its path and parsed
    its query string. *)
Inductive Request : Type :=
| GET_movies (search genre limit offset : option string)
| GET_movies_name (name : string)
| GET_series (search genre limit offset : option string)
| GET_series_name (name : string)
| GET_series_name_episodes (name : string) (season episode : option string)
| GET_search (q type genre limit offset : option string)
| GET_iframe (title source season episode : option string)
| GET_trending (type limit : option string)
| GET_stats
| GET_genres
| GET_health
| GET_api_other.

(** The routing table. *)
Definition app (req : Request) : Eff Response :=
  match req with
  | GET_movies search genre limit offset => get_api_movies search genre limit offset
  | GET_movies_name name => get_api_movies_name name
  | GET_series search genre limit offset => get_api_series search genre limit offset
  | GET_series_name name => get_api_series_name name
  | GET_series_name_episodes name season episode =>
      get_api_series_name_episodes name season episode
  | GET_search q type genre limit offset => get_api_search q type genre limit offset
  | GET_iframe title source season episode =>
      get_api_iframe title source season episode
  | GET_trending type limit => get_api_trending type limit
  | GET_stats => get_api_stats
  | GET_genres => get_api_genres
  | GET_health => get_api_health
  | GET_api_other => api_not_found
  end.

(** ** Notions used to state the properties *)

(** The array [readJSONFile] resolves to: the parsed records, or the
    empty array when the file cannot be read or parsed. *)
Definition collection (env : Env) (filename : string) : list Title.t :=
  match data env filename with
  | Holds records => records
  | Unreadable _ | Malformed _ => []
  end.

(** The environment in which one data file is in another state. *)
Definition with_file (env : Env) (filename : string) (state : FileState) : Env :=
  {| data := fun f => if (f =? filename)%string then state else data env f;
     sort_random := sort_random env;
     Date_toISOString := Date_toISOString env |}.

(** Reading or parsing the file fails. *)
Definition read_fails (env : Env) (filename : string) : Prop :=
  exists error,
    data env filename = Unreadable error \/ data env filename = Malformed error.

(** The specification's [collection[offset : offset+limit]], for natural
    [offset] and [limit]. *)
Definition page_of {A : Type} (items : list A) (offset limit : nat) : list A :=
  firstn limit (skipn offset items).

(** The pagination contract of the specification: the page is the
    filtered collection from [offset] to [offset + limit], [total] is the
    length of the filtered collection, and [hasMore] tells whether
    [offset + limit] stays below that total. *)
Definition paginated {A : Type} (filtered : list A) (offset limit : Z)
  (page : list A) (total : nat) (hasMore : bool) : Prop :=
  page = page_of filtered (Z.to_nat offset) (Z.to_nat limit)
  /\ Z.of_nat (List.length page) <= limit
  /\ total = List.length filtered
  /\ (hasMore = true <-> offset + limit < Z.of_nat (List.length filtered)).

(** The filtered collection of [GET /api/movies] and [GET /api/series]. *)
Definition filtered_titles (env : Env) (filename : string)
  (search genre : option string) : list Title.t :=
  genre_filter (fun m => m) genre (search_filter search (collection env filename)).

(** The matches of one collection in the universal search. *)
Definition search_matches (env : Env) (filename kind searchTerm : string)
  (type : option string) : list Tagged :=
  if selects type kind
  then map (fun movie => tagged movie kind)
           (filter (matches_search searchTerm) (collection env filename))
  else [].

(** The filtered collection of [GET /api/search]. *)
Definition filtered_results (env : Env) (q : string) (type genre : option string)
  : list Tagged :=
  genre_filter record genre
    (search_matches env "movies.json" "movie" (JS.toLowerCase q) type
     ++ search_matches env "series.json" "series" (JS.toLowerCase q) type)%list.

(** [sources] is the [sources] object of a stored movie, or of a stored
    episode of a series. *)
Definition stored_sources (env : Env) (sources : Sources) : Prop :=
  (exists movie,
      In movie (collection env "movies.json")
      /\ Title.sources movie = Some sources)
  \/ (exists show episodes ep,
         In show (collection env "series.json")
         /\ Title.episodes show = Some episodes
         /\ In ep episodes
         /\ Episode.sources ep = Some sources).

(** The answer of the resolver for an episode [ep] of [show]. *)
Definition episode_answer (show : Title.t) (ep : Episode.t) (sources : Sources)
  (source : string) : Response :=
  json 200 true
    (Iframe (Title.name show) "series"
       (Some (Episode.season ep)) (Some (Episode.episode ep))
       (Some (Episode.title ep))
       (iframe_of sources source) (Object_keys sources)).

(** The answer of the resolver for a movie. *)
Definition movie_answer (movie : Title.t) (sources : Sources) (source : string)
  : Response :=
  json 200 true
    (Iframe (Title.name movie) "movie" None None None
       (iframe_of sources source) (Object_keys sources)).

(** The files a handler reads when it goes through both collections
    under a [type] selector. *)
Definition files_for (type : option string) : list string :=
  ((if selects type "movie" then ["movies.json"] else [])
   ++ (if selects type "series" then ["series.json"] else []))%list.

(** What a rating counts for in an average, in the words of the
    specification: the rating parsed as a float, an absent one counting
    as 0.  A text is parsed by [parseFloat]; a number is its own value;
    a rating is absent when the record has none, and also when it is the
    empty text or a number that is zero or NaN. *)
Definition rating_value (r : option Rating) : JS.Number :=
  match r with
  | None => S754_zero false
  | Some (RStr EmptyString) => S754_zero false
  | Some (RStr s) => JS.parseFloat s
  | Some (RNum (S754_zero _)) => S754_zero false
  | Some (RNum S754_nan) => S754_zero false
  | Some (RNum x) => x
  end.

(** A sum of numbers accumulated from the left, starting at [acc]. *)
Fixpoint sum_from (acc : JS.Number) (ratings : list JS.Number) : JS.Number :=
  match ratings with
  | [] => acc
  | r :: rest => sum_from (JS.fadd acc r) rest
  end.

(** The sum of the ratings of a collection, in the words of the
    specification: each rating counts for its [rating_value]. *)
Definition sum_of_ratings (movies : list Title.t) : JS.Number :=
  sum_from (S754_zero false)
           (map (fun m => rating_value (Title.rating m)) movies).

(** A number of the double precision format: NaN apart, a value whose
    mantissa and exponent are those the format gives it. *)
Definition is_double (x : JS.Number) : bool :=
  match x with
  | S754_nan => false
  | _ => valid_binary JS.prec JS.emax x
  end.

(** The record is rated: its rating is a number, or a text in which
    [parseFloat] reads a number. *)
Definition rated (m : Title.t) : bool :=
  match Title.rating m with
  | Some (RStr s) => is_double (JS.parseFloat s)
  | Some (RNum x) => is_double x
  | None => false
  end.

(** [b] is rated above [a]: the rating of [a] is below the rating of
    [b], in the order of the numbers. *)
Definition rated_above (b a : Title.t) : bool :=
  SFltb (rating_value (Title.rating a)) (rating_value (Title.rating b)).

(** ** Sample data *)

Module Sample.

Definition pilot : Episode.t :=
  Episode.mk 1 1 "Pilot" (Some [("source1", "https://cdn.example/s1e1")]).

Definition second : Episode.t :=
  Episode.mk 1 2 "Second"
    (Some [("source1", "https://cdn.example/s1e2");
           ("source2", "https://mirror.example/s1e2")]).

(** An episode whose record carries no [sources]. *)
Definition teaser : Episode.t := Episode.mk 0 0 "Teaser" None.

Definition incendies : Title.t :=
  Title.mk "Incendies" "Twins travel to uncover a family secret" "Drama, War"
    (Some (RStr "8.3")) "2010" "incendies.jpg"
    (Some [("source1", "https://cdn.example/incendies");
           ("source2", "https://mirror.example/incendies")])
    None.

(** A movie whose record carries no [sources]. *)
Definition alpha_movie : Title.t :=
  Title.mk "Alpha" "A boy and a wolf" "Adventure"
    (Some (RNum (JS.of_Z 9))) "2018" "alpha.jpg" None None.

Definition alpha_show : Title.t :=
  Title.mk "Alpha" "A show of the same name" "Drama"
    (Some (RNum (JS.of_Z 7))) "2020" "alpha-show.jpg" None
    (Some [pilot; second]).

(** A series whose first stored episode has no [sources]. *)
Definition beta_show : Title.t :=
  Title.mk "Beta" "Behind the scenes" "Comedy" None "2021" "beta.jpg" None
    (Some [teaser; second]).

Definition gamma_show : Title.t :=
  Title.mk "Gamma" "Rays of a distant star" "Sci-Fi, Drama"
    (Some (RStr "6.5")) "2022" "gamma.jpg" None
    (Some [pilot; second]).

Definition directory (movies series : FileState) (f : string) : FileState :=
  if (f =? "movies.json")%string then movies
  else if (f =? "series.json")%string then series
  else Unreadable "ENOENT".

(** Both files parse; the coin-flipping sort happens to reverse. *)
Definition env : Env :=
  {| data := directory (Holds [incendies; alpha_movie])
                       (Holds [alpha_show; beta_show; gamma_show]);
     sort_random := @rev Tagged;
     Date_toISOString := "2024-01-01T00:00:00.000Z" |}.

(** [movies.json] is missing and [series.json] is not valid JSON. *)
Definition broken_env : Env :=
  {| data := directory (Unreadable "ENOENT")
                       (Malformed "Unexpected end of JSON input");
     sort_random := fun l => l;
     Date_toISOString := "2024-01-01T00:00:00.000Z" |}.

(** One movie rated 9 and one series rated 7. *)
Definition rated_env : Env :=
  {| data := directory (Holds [alpha_movie]) (Holds [alpha_show]);
     sort_random := fun l => l;
     Date_toISOString := "2024-01-01T00:00:00.000Z" |}.

(** A movie whose second slot holds the empty string. *)
Definition blank_slot : Sources :=
  [("source1", "https://cdn.example/a"); ("source2", "")].

(** A series whose second stored episode has no [sources]. *)
Definition delta_show : Title.t :=
  Title.mk "Delta" "Where the river ends" "Documentary" (Some (RStr "7.9"))
    "2023" "delta.jpg" None (Some [pilot; teaser]).

(** A movie rated below the two others. *)
Definition zeta_movie : Title.t :=
  Title.mk "Zeta" "The last letter" "Drama" (Some (RStr "5.1")) "2015"
    "zeta.jpg" None None.

(** Three rated movies, the lowest rated first, and the three series, of
    which Beta has no rating. *)
Definition trending_env : Env :=
  {| data := directory (Holds [zeta_movie; incendies; alpha_movie])
                       (Holds [alpha_show; beta_show; gamma_show]);
     sort_random := @rev Tagged;
     Date_toISOString := "2024-01-01T00:00:00.000Z" |}.

(** No movie, and the series [delta_show] alone. *)
Definition delta_env : Env :=
  {| data := directory (Holds []) (Holds [delta_show]);
     sort_random := fun l => l;
     Date_toISOString := "2024-01-01T00:00:00.000Z" |}.

(** Three rated movies and three rated series, neither file in the
    order of the ratings. *)
Definition ranked_env : Env :=
  {| data := directory (Holds [zeta_movie; incendies; alpha_movie])
                       (Holds [gamma_show; delta_show; alpha_show]);
     sort_random := @rev Tagged;
     Date_toISOString := "2024-01-01T00:00:00.000Z" |}.

End Sample.

(** ** Notions used to state the further properties *)

(** [show.episodes || []]. *)
Definition stored_episodes (show : Title.t) : list Episode.t :=
  match Title.episodes show with
  | Some episodes => episodes
  | None => []
  end.

(** The movie branch of the resolver does not answer: no movie has the
    name, or the first that has it carries no [sources]. *)
Definition movie_branch_passes (env : Env) (title : string) : Prop :=
  match find (same_name title) (collection env "movies.json") with
  | Some movie => Title.sources movie = None
  | None => True
  end.

(** The two lookups by name, with the file each reads and the text of its
    404 answer. *)
Definition lookups : list ((string -> Request) * string * string) :=
  [(GET_movies_name, "movies.json", "Movie not found");
   (GET_series_name, "series.json", "Series not found")].

(** The two listings, with the file each reads. *)
Definition listings
  : list ((option string -> option string -> option string -> option string
           -> Request) * string) :=
  [(GET_movies, "movies.json"); (GET_series, "series.json")].

(** The two kinds of content, with the file of each. *)
Definition kinds : list (string * string) :=
  [("movie", "movies.json"); ("series", "series.json")].

(** The genre filter is active. *)
Definition genre_active (genre : option string) : bool :=
  match genre with
  | Some g => (JS.truthy genre && negb (g =? "all")%string)%bool
  | None => false
  end.

(** A title passes the filters of a listing. *)
Definition passes (search genre : option string) (m : Title.t) : Prop :=
  (forall s, search = Some s -> JS.truthy search = true ->
             matches_search (JS.toLowerCase s) m = true)
  /\ (forall g, genre = Some g -> genre_active genre = true ->
                matches_genre g m = true).

(** The trimmed genre tags of a title. *)
Definition tags_of (m : Title.t) : list string :=
  map JS.trim (JS.split_comma (Title.genre m)).

(** The number of stored episodes of a series. *)
Definition episode_count (show : Title.t) : nat :=
  match Title.episodes show with
  | Some episodes => List.length episodes
  | None => 0%nat
  end.

(** The envelope agrees with the status: [success] is true exactly on a
    200. *)
Definition coherent (r : Response) : Prop :=
  success r = true <-> status r = 200.

(** [l] is [l'] with some elements left out: the elements of [l] are
    elements of [l'], in the order in which [l'] has them. *)
Inductive subsequence {A : Type} : list A -> list A -> Prop :=
| subsequence_nil : subsequence [] []
| subsequence_skip (x : A) (l l' : list A) :
    subsequence l l' -> subsequence l (x :: l')
| subsequence_keep (x : A) (l l' : list A) :
    subsequence l l' -> subsequence (x :: l) (x :: l').

(** The part of the trending pool that one collection contributes. *)
Definition half_page (env : Env) (filename kind : string)
  (type limit : option string) : list Tagged :=
  if selects type kind
  then map (fun movie => tagged movie kind)
           (JS.slice (JS.sort by_rating_desc (collection env filename)) (Some 0)
                     (JS.half (JS.parseInt_default 20 limit)))
  else [].

(** The [data] of a listing answer. *)
Definition listed (answer : Outcome Response * list string) : list Title.t :=
  match fst answer with
  | Returned (json _ _ (Page data _ _ _ _)) => data
  | _ => []
  end.

(** ** The runtime fragment: slicing, filtering, sorting *)

Section Runtime.

Context {A : Type}.

(** For natural bounds, [slice] is the page of the specification. *)
Lemma slice_page (l : list A) (o n : Z) :
  0 <= o -> 0 <= n ->
  JS.slice l (Some o) (Some (o + n)) = page_of l (Z.to_nat o) (Z.to_nat n).
Proof.
  intros Ho Hn. unfold JS.slice, page_of, JS.relative_index, JS.toIntegerOrInfinity.
  destruct (Z.ltb_spec o 0) as [|_]; [lia|].
  destruct (Z.ltb_spec (o + n) 0) as [|_]; [lia|].
  set (len := Z.of_nat (List.length l)).
  destruct (Z.le_gt_cases len o) as [Hge|Hlt].
  - rewrite (Z.min_r o len) by lia.
    rewrite (Z.min_r (o + n) len) by lia.
    replace (Z.to_nat (len - len)) with 0%nat by lia.
    rewrite (skipn_all2 l (n := Z.to_nat o)) by (subst len; lia).
    now rewrite firstn_nil.
  - rewrite (Z.min_l o len) by lia.
    destruct (Z.le_gt_cases (o + n) len) as [Hin|Hout].
    + rewrite (Z.min_l (o + n) len) by lia. f_equal. lia.
    + rewrite (Z.min_r (o + n) len) by lia.
      assert (Hlen : List.length (skipn (Z.to_nat o) l) = Z.to_nat (len - o))
        by (rewrite length_skipn; subst len; lia).
      rewrite <- Hlen, firstn_all.
      symmetry. apply firstn_all2. rewrite Hlen. lia.
Qed.

Lemma page_of_length (l : list A) (o n : nat) :
  (List.length (page_of l o n) <= n)%nat.
Proof. unfold page_of. rewrite length_firstn. lia. Qed.

(** A slice from the start that is at least as long as the list. *)
Lemma slice_whole (l : list A) (n : Z) :
  Z.of_nat (List.length l) <= n -> JS.slice l (Some 0) (Some n) = l.
Proof.
  intros Hn. replace n with (0 + n) by lia.
  rewrite slice_page by lia. unfold page_of. cbn [Z.to_nat skipn].
  apply firstn_all2. lia.
Qed.

Lemma slice_nil (start end_ : option Z) : JS.slice (@nil A) start end_ = [].
Proof. unfold JS.slice. now rewrite skipn_nil, firstn_nil. Qed.

Lemma slice_prefix (l : list A) (n : Z) :
  0 <= n -> JS.slice l (Some 0) (Some n) = firstn (Z.to_nat n) l.
Proof.
  intros Hn. replace n with (0 + n) at 1 by lia.
  now rewrite slice_page by lia.
Qed.

Lemma filter_comm (p q : A -> bool) (l : list A) :
  filter p (filter q l) = filter q (filter p l).
Proof.
  induction l as [|x l IH]; [reflexivity|]. cbn.
  destruct (q x) eqn:Hq, (p x) eqn:Hp; cbn; rewrite ?Hq, ?Hp, IH; reflexivity.
Qed.

Lemma insert_by_perm (after : A -> A -> bool) (x : A) (l : list A) :
  Permutation (x :: l) (JS.insert_by after x l).
Proof.
  induction l as [|y l IH]; cbn; [apply Permutation_refl|].
  destruct (after x y); [|apply Permutation_refl].
  eapply Permutation_trans; [apply perm_swap|]. now apply perm_skip.
Qed.

Lemma sort_by_perm (after : A -> A -> bool) (l : list A) :
  Permutation l (JS.sort_by after l).
Proof.
  induction l as [|x l IH]; cbn; [constructor|].
  eapply Permutation_trans; [apply perm_skip, IH|apply insert_by_perm].
Qed.

(** A stable insertion sort leaves no element before one it had to
    follow, as soon as the comparator never asks two elements to follow
    each other. *)
Lemma insert_by_sorted (after : A -> A -> bool) (x : A) (l : list A) :
  (forall a b, after a b = true -> after b a = false) ->
  Sorted (fun a b => after a b = false) l ->
  Sorted (fun a b => after a b = false) (JS.insert_by after x l).
Proof.
  intros Hanti. induction l as [|y l IH]; intros Hs; cbn.
  - repeat constructor.
  - destruct (after x y) eqn:Hxy.
    + inversion Hs as [|? ? Hs' Hhd]; subst. constructor; [now apply IH|].
      destruct l as [|z l]; cbn.
      * constructor. now apply Hanti.
      * destruct (after x z); constructor.
        -- now inversion Hhd.
        -- now apply Hanti.
    + constructor; [assumption|]. now constructor.
Qed.

Lemma sort_by_sorted (after : A -> A -> bool) (l : list A) :
  (forall a b, after a b = true -> after b a = false) ->
  Sorted (fun a b => after a b = false) (JS.sort_by after l).
Proof.
  intros Hanti. induction l as [|x l IH]; cbn; [constructor|].
  now apply insert_by_sorted.
Qed.

(** A stable insertion sort puts every element before those that are not
    above it, on a domain [P] where the comparator follows a transitive
    relation [R]. *)
Lemma insert_by_strongly_sorted (P : A -> Prop) (R : A -> A -> Prop)
  (after : A -> A -> bool) (x : A) (l : list A) :
  (forall a b, P a -> P b -> after a b = false -> R a b) ->
  (forall a b, P a -> P b -> after a b = true -> R b a) ->
  (forall a b c, P a -> P b -> P c -> R a b -> R b c -> R a c) ->
  P x -> Forall P l -> StronglySorted R l ->
  StronglySorted R (JS.insert_by after x l).
Proof.
  intros Hkeep Hmove Htrans Hx. induction l as [|y l IH]; intros HP Hs; cbn.
  - repeat constructor.
  - inversion HP as [|? ? Hy HPl]; subst.
    inversion Hs as [|? ? Hs' Hall]; subst.
    destruct (after x y) eqn:Hxy.
    + constructor; [now apply IH|].
      apply Forall_forall. intros z Hz.
      apply (Permutation_in _ (Permutation_sym (insert_by_perm after x l))) in Hz.
      destruct Hz as [<-|Hz]; [now apply Hmove|].
      now apply (proj1 (Forall_forall _ _) Hall).
    + constructor; [assumption|]. constructor; [now apply Hkeep|].
      apply Forall_forall. intros z Hz.
      apply (Htrans x y z); try assumption.
      * now apply (proj1 (Forall_forall _ _) HPl).
      * now apply Hkeep.
      * now apply (proj1 (Forall_forall _ _) Hall).
Qed.

Lemma sort_by_strongly_sorted (P : A -> Prop) (R : A -> A -> Prop)
  (after : A -> A -> bool) (l : list A) :
  (forall a b, P a -> P b -> after a b = false -> R a b) ->
  (forall a b, P a -> P b -> after a b = true -> R b a) ->
  (forall a b c, P a -> P b -> P c -> R a b -> R b c -> R a c) ->
  Forall P l -> StronglySorted R (JS.sort_by after l).
Proof.
  intros Hkeep Hmove Htrans. induction l as [|x l IH]; intros HP; cbn.
  - constructor.
  - inversion HP as [|? ? Hx HPl]; subst.
    apply (insert_by_strongly_sorted P); try assumption; [|now apply IH].
    apply Forall_forall. intros z Hz.
    apply (Permutation_in _ (Permutation_sym (sort_by_perm after l))) in Hz.
    now apply (proj1 (Forall_forall _ _) HPl).
Qed.

(** In a list sorted by [R], what a prefix holds is related to what is
    left of the list. *)
Lemma strongly_sorted_split (R : A -> A -> Prop) (l : list A) (n : nat) :
  StronglySorted R l ->
  forall x y, In x (firstn n l) -> In y (skipn n l) -> R x y.
Proof.
  intros Hs. revert n. induction Hs as [|a l Hs IH Hall]; intros n x y Hx Hy.
  - rewrite firstn_nil in Hx. contradiction.
  - destruct n as [|n]; cbn in Hx, Hy; [contradiction|].
    destruct Hx as [<-|Hx].
    + apply (proj1 (Forall_forall _ _) Hall).
      revert Hy. clear. revert n. induction l as [|z l IHl]; intros [|n] Hy;
        cbn in Hy; try contradiction; try assumption.
      right. now apply (IHl n).
    + now apply (IH n).
Qed.

End Runtime.

(** *** The order of the doubles and the sign of a difference *)

Lemma positive_round_negative (m : positive) (e : Z) :
  JS.positive (binary_round JS.prec JS.emax true m e) = false.
Proof.
  unfold binary_round, binary_round_aux.
  destruct (shl_align m e _) as [mz ez].
  destruct (shr_fexp _ _ _ _ _) as [mrs' e'].
  destruct (shr_fexp _ _ _ _ _) as [mrs'' e''].
  destruct (shr_m mrs''); [reflexivity| |reflexivity].
  destruct (Z.leb _ _); reflexivity.
Qed.

Lemma positive_normalize (d e : Z) :
  JS.positive (binary_normalize JS.prec JS.emax d e false) = true -> 0 < d.
Proof.
  destruct d as [|p|p]; cbn [binary_normalize].
  - discriminate.
  - lia.
  - now rewrite positive_round_negative.
Qed.

Lemma normalize_negative (d e : Z) :
  d < 0 -> JS.positive (binary_normalize JS.prec JS.emax d e false) = false.
Proof.
  destruct d as [|p|p]; try lia. intros _. apply positive_round_negative.
Qed.

(** [x - y > 0] and [y - x > 0] never hold together. *)
Lemma fsub_antisym (x y : JS.Number) :
  JS.positive (JS.fsub x y) = true -> JS.positive (JS.fsub y x) = false.
Proof.
  unfold JS.fsub.
  destruct x as [sx|sx| |sx mx ex], y as [sy|sy| |sy my ey];
    try (destruct sx, sy; cbn; congruence);
    try (destruct sx; cbn; congruence);
    try (destruct sy; cbn; congruence);
    try (cbn; congruence).
  cbn [SFsub]. intros H. apply positive_normalize in H.
  apply normalize_negative. rewrite (Z.min_comm ey ex). lia.
Qed.

(** A mantissa of [d] binary digits lies between [2^(d-1)] and [2^d]. *)
Lemma digits2_pos_bounds (m : positive) :
  2 ^ (Zpos (digits2_pos m) - 1) <= Zpos m < 2 ^ Zpos (digits2_pos m).
Proof.
  induction m as [p IH|p IH|]; cbn [digits2_pos].
  - rewrite Pos2Z.inj_succ.
    replace (Z.succ (Zpos (digits2_pos p)) - 1)
      with (Z.succ (Zpos (digits2_pos p) - 1)) by lia.
    rewrite !Z.pow_succ_r by lia. lia.
  - rewrite Pos2Z.inj_succ.
    replace (Z.succ (Zpos (digits2_pos p)) - 1)
      with (Z.succ (Zpos (digits2_pos p) - 1)) by lia.
    rewrite !Z.pow_succ_r by lia. lia.
  - cbn. lia.
Qed.

(** Shifting a mantissa to the right halves it. *)
Lemma shr_1_m (r : shr_record) :
  0 <= shr_m r -> shr_m (shr_1 r) = shr_m r / 2.
Proof.
  destruct r as [m b s]. cbn [shr_m shr_1]. intros Hm.
  destruct m as [|[p|p|]|p]; cbn [shr_m]; try lia.
  - reflexivity.
  - rewrite Pos2Z.inj_xI. apply Z.div_unique with (r := 1); lia.
  - rewrite Pos2Z.inj_xO. apply Z.div_unique with (r := 0); lia.
  - reflexivity.
Qed.

Lemma iter_pos_shr_m (n : positive) (r : shr_record) :
  0 <= shr_m r ->
  0 <= shr_m (iter_pos shr_1 n r)
  /\ shr_m (iter_pos shr_1 n r) = shr_m r / 2 ^ Zpos n.
Proof.
  assert (Hpow : forall k, 0 < 2 ^ Zpos k)
    by (intros k; apply Z.pow_pos_nonneg; lia).
  revert r. induction n as [n IH|n IH|]; intros r Hr; cbn [iter_pos].
  - assert (H1 : 0 <= shr_m (shr_1 r))
      by (rewrite shr_1_m by assumption; apply Z.div_pos; lia).
    destruct (IH _ H1) as [H2 E2]. destruct (IH _ H2) as [H3 E3].
    split; [assumption|].
    rewrite E3, E2, shr_1_m by assumption.
    pose proof (Hpow n).
    rewrite !Z.div_div by lia.
    f_equal.
    replace (Zpos n~1) with (1 + Zpos n + Zpos n) by lia.
    rewrite !Z.pow_add_r by lia. change (2 ^ 1) with 2. lia.
  - destruct (IH _ Hr) as [H2 E2]. destruct (IH _ H2) as [H3 E3].
    split; [assumption|].
    rewrite E3, E2. pose proof (Hpow n).
    rewrite !Z.div_div by lia.
    f_equal.
    replace (Zpos n~0) with (Zpos n + Zpos n) by lia.
    rewrite !Z.pow_add_r by lia. lia.
  - rewrite shr_1_m by assumption. split; [apply Z.div_pos; lia|reflexivity].
Qed.

Lemma shr_record_of_loc_m (m : Z) (l : location) :
  shr_m (shr_record_of_loc m l) = m.
Proof. destruct l as [|[| |]]; reflexivity. Qed.

(** Bringing a positive mantissa to the exponent of the format leaves it
    positive, from the least exponent on. *)
Lemma shr_fexp_positive (m : positive) (e : Z) (l : location) :
  emin JS.prec JS.emax <= e ->
  0 < shr_m (fst (shr_fexp JS.prec JS.emax (Zpos m) e l))
  /\ emin JS.prec JS.emax <= snd (shr_fexp JS.prec JS.emax (Zpos m) e l).
Proof.
  intros He. unfold shr_fexp, shr. cbn [Zdigits2].
  pose proof (digits2_pos_bounds m) as [Hlo Hhi].
  set (d := Zpos (digits2_pos m)) in *.
  destruct (fexp JS.prec JS.emax (d + e) - e) as [|n|n] eqn:Hn; cbn [fst snd];
    rewrite ?shr_record_of_loc_m; try (split; [lia|assumption]).
  assert (Hd : Zpos n = d - JS.prec).
  { unfold fexp in Hn. lia. }
  split.
  - pose proof (iter_pos_shr_m n (shr_record_of_loc (Zpos m) l)) as Hit.
    rewrite shr_record_of_loc_m in Hit.
    destruct Hit as [_ ->]; [lia|].
    apply Z.div_str_pos. split; [apply Z.pow_pos_nonneg; lia|].
    eapply Z.le_trans; [|exact Hlo].
    apply Z.pow_le_mono_r; [lia|]. rewrite Hd. unfold JS.prec. lia.
  - unfold fexp in Hn. lia.
Qed.

Lemma round_nearest_even_ge (m : Z) (l : location) :
  m <= round_nearest_even m l.
Proof.
  unfold round_nearest_even. destruct l as [|[| |]]; try lia.
  destruct (Z.even m); lia.
Qed.

Lemma binary_round_aux_positive (m : positive) (e : Z) (l : location) :
  emin JS.prec JS.emax <= e ->
  JS.positive (binary_round_aux JS.prec JS.emax false (Zpos m) e l) = true.
Proof.
  intros He. unfold binary_round_aux.
  pose proof (shr_fexp_positive m e l He) as [Hm1 He1].
  destruct (shr_fexp JS.prec JS.emax (Zpos m) e l) as [mrs' e'].
  cbn [fst snd] in *.
  pose proof (round_nearest_even_ge (shr_m mrs') (loc_of_shr_record mrs')) as Hge.
  destruct (round_nearest_even (shr_m mrs') (loc_of_shr_record mrs')) as [|m'|m'];
    try lia.
  pose proof (shr_fexp_positive m' e' loc_Exact He1) as [Hm2 _].
  destruct (shr_fexp JS.prec JS.emax (Zpos m') e' loc_Exact) as [mrs'' e''].
  cbn [fst snd] in *.
  destruct (shr_m mrs''); try lia.
  destruct (Z.leb _ _); reflexivity.
Qed.

(** A positive integer at an exponent of the format rounds to a positive
    double: no difference of two doubles underflows to zero. *)
Lemma binary_normalize_positive (d e : Z) :
  0 < d -> emin JS.prec JS.emax <= e ->
  JS.positive (binary_normalize JS.prec JS.emax d e false) = true.
Proof.
  intros Hd He. destruct d as [|m|m]; try lia.
  cbn [binary_normalize]. unfold binary_round, shl_align.
  set (e' := fexp JS.prec JS.emax (Zpos (digits2_pos m) + e)).
  assert (He' : emin JS.prec JS.emax <= e') by (unfold e', fexp; lia).
  destruct (e' - e); now apply binary_round_aux_positive.
Qed.

Lemma shl_align_value (m : positive) (e ez : Z) :
  ez <= e -> Zpos (fst (shl_align m e ez)) = Zpos m * 2 ^ (e - ez).
Proof.
  intros H. unfold shl_align. destruct (ez - e) as [|d|d] eqn:Hd; try lia.
  - replace (e - ez) with 0 by lia. cbn [fst]. lia.
  - cbn [fst]. replace (e - ez) with (Zpos d) by lia.
    change (Pos.iter xO m d) with (shift_pos d m).
    rewrite shift_pos_correct, Z.pow_pos_fold. lia.
Qed.

Lemma canonical_bounds (m : positive) (e : Z) :
  bounded JS.prec JS.emax m e = true ->
  emin JS.prec JS.emax <= e
  /\ Zpos m < 2 ^ JS.prec
  /\ (emin JS.prec JS.emax < e -> 2 ^ (JS.prec - 1) <= Zpos m).
Proof.
  unfold bounded, canonical_mantissa. intros H.
  apply andb_true_iff in H. destruct H as [H _]. apply Z.eqb_eq in H.
  pose proof (digits2_pos_bounds m) as [Hlo Hhi].
  set (d := Zpos (digits2_pos m)) in *.
  unfold fexp in H. unfold emin, JS.prec, JS.emax in *.
  assert (Hd : d <= 53) by lia.
  split; [lia|]. split.
  - eapply Z.lt_le_trans; [exact Hhi|]. apply Z.pow_le_mono_r; lia.
  - intros He. assert (d = 53) by lia. subst d.
    replace (53 - 1) with (Zpos (digits2_pos m) - 1) by lia. exact Hlo.
Qed.

(** Of two doubles of the same sign, the one with the larger exponent is
    the larger in magnitude. *)
Lemma canonical_exponent_order (m1 m2 : positive) (e1 e2 : Z) :
  bounded JS.prec JS.emax m1 e1 = true ->
  bounded JS.prec JS.emax m2 e2 = true ->
  e1 < e2 ->
  Zpos m1 < Zpos m2 * 2 ^ (e2 - e1).
Proof.
  intros H1 H2 He.
  destruct (canonical_bounds m1 e1 H1) as (Hmin1 & Hhi1 & _).
  destruct (canonical_bounds m2 e2 H2) as (_ & _ & Hlo2).
  specialize (Hlo2 ltac:(lia)).
  assert (Hpow : 2 ^ 1 <= 2 ^ (e2 - e1)) by (apply Z.pow_le_mono_r; lia).
  change (2 ^ 1) with 2 in Hpow.
  unfold JS.prec in *. change (2 ^ 53) with (2 * 2 ^ (53 - 1)) in Hhi1.
  nia.
Qed.

(** A double that is below another is subtracted from it with a positive
    difference. *)
Lemma ltb_fsub_positive (x y : JS.Number) :
  valid_binary JS.prec JS.emax x = true ->
  valid_binary JS.prec JS.emax y = true ->
  SFltb x y = true ->
  JS.positive (JS.fsub y x) = true.
Proof.
  unfold JS.fsub, SFltb.
  destruct x as [sx|sx| |sx mx ex], y as [sy|sy| |sy my ey];
    cbn [SFcompare SFsub valid_binary]; intros Hx Hy Hlt;
    try discriminate;
    try (destruct sx; try discriminate);
    try (destruct sy; try discriminate);
    try reflexivity.
  all: destruct (canonical_bounds mx ex Hx) as (Hminx & _ & _).
  all: destruct (canonical_bounds my ey Hy) as (Hminy & _ & _).
  all: apply binary_normalize_positive; [|lia].
  all: rewrite !shl_align_value by lia; cbn [cond_Zopp].
  - destruct (Z.compare_spec ex ey) as [He|He|He]; try discriminate.
    + subst ey. rewrite Z.min_id, Z.sub_diag. change (2 ^ 0) with 1.
      change (Pos.compare_cont Eq mx my) with (Pos.compare mx my) in Hlt.
      destruct (Pos.compare_spec mx my); try discriminate. lia.
    + rewrite Z.min_l by lia. rewrite Z.sub_diag. change (2 ^ 0) with 1.
      pose proof (canonical_exponent_order my mx ey ex Hy Hx He). lia.
  - assert (0 < 2 ^ (ey - Z.min ey ex)) by (apply Z.pow_pos_nonneg; lia).
    assert (0 < 2 ^ (ex - Z.min ey ex)) by (apply Z.pow_pos_nonneg; lia).
    nia.
  - destruct (Z.compare_spec ex ey) as [He|He|He]; try discriminate.
    + subst ey. rewrite Z.min_id, Z.sub_diag. change (2 ^ 0) with 1.
      change (Pos.compare_cont Eq mx my) with (Pos.compare mx my) in Hlt.
      destruct (Pos.compare_spec mx my); try discriminate. lia.
    + rewrite Z.min_r by lia. rewrite Z.sub_diag. change (2 ^ 0) with 1.
      pose proof (canonical_exponent_order mx my ex ey Hx Hy He). lia.
Qed.

(** Among numbers, not to be below is transitive. *)
Lemma not_below_trans (a b c : JS.Number) :
  is_double a = true -> is_double b = true -> is_double c = true ->
  SFltb a b = false -> SFltb b c = false -> SFltb a c = false.
Proof.
  unfold SFltb, is_double.
  destruct a as [sa|sa| |sa ma ea], b as [sb|sb| |sb mb eb],
    c as [sc|sc| |sc mc ec]; cbn [SFcompare];
    intros Ha Hb Hc; try discriminate Ha; try discriminate Hb;
    try discriminate Hc; clear Ha Hb Hc;
    try (destruct sa); try (destruct sb); try (destruct sc);
    try (intros Hab Hbc; first [discriminate Hab|discriminate Hbc|reflexivity]).
  all: change (Pos.compare_cont Eq) with Pos.compare;
    repeat match goal with
    | |- context [Z.compare ?x ?y] => destruct (Z.compare_spec x y)
    | |- context [Pos.compare ?x ?y] => destruct (Pos.compare_spec x y)
    end; cbn [CompOpp];
    intros Hab Hbc; first [discriminate Hab|discriminate Hbc|reflexivity|lia].
Qed.

(** On a rated record the two readings of the rating agree, and give a
    double. *)
Lemma rated_value (m : Title.t) :
  rated m = true ->
  parseFloat_rating (Title.rating m) = rating_value (Title.rating m)
  /\ is_double (rating_value (Title.rating m)) = true
  /\ valid_binary JS.prec JS.emax (rating_value (Title.rating m)) = true.
Proof.
  unfold rated, is_double. destruct (Title.rating m) as [[x|s]|];
    [|destruct s as [|c s]|]; try discriminate; cbn [parseFloat_rating rating_value].
  - destruct x; try discriminate; intros H; repeat split; assumption.
  - destruct (JS.parseFloat (String c s)); try discriminate;
      intros H; repeat split; assumption.
Qed.

(** On rated records, the trending sort leaves no record before one that
    is rated above it, however far apart. *)
Lemma sort_by_rating_desc (movies : list Title.t) :
  Forall (fun m => rated m = true) movies ->
  StronglySorted (fun a b => rated_above b a = false)
                 (JS.sort by_rating_desc movies).
Proof.
  unfold JS.sort.
  apply (sort_by_strongly_sorted (fun m => rated m = true)).
  - intros a b Ha Hb Hab. unfold rated_above.
    destruct (rated_value a Ha) as (Ea & _ & Va).
    destruct (rated_value b Hb) as (Eb & _ & Vb).
    unfold by_rating_desc in Hab. rewrite Ea, Eb in Hab.
    destruct (SFltb _ _) eqn:Hlt; [|reflexivity].
    now rewrite (ltb_fsub_positive _ _ Va Vb Hlt) in Hab.
  - intros a b Ha Hb Hab. unfold rated_above.
    destruct (rated_value a Ha) as (Ea & _ & Va).
    destruct (rated_value b Hb) as (Eb & _ & Vb).
    unfold by_rating_desc in Hab. rewrite Ea, Eb in Hab.
    apply fsub_antisym in Hab.
    destruct (SFltb _ _) eqn:Hlt; [|reflexivity].
    now rewrite (ltb_fsub_positive _ _ Vb Va Hlt) in Hab.
  - intros a b c Ha Hb Hc. unfold rated_above.
    destruct (rated_value a Ha) as (_ & Da & _).
    destruct (rated_value b Hb) as (_ & Db & _).
    destruct (rated_value c Hc) as (_ & Dc & _).
    now apply not_below_trans.
Qed.

(** ** What the handlers compute *)

Lemma readJSONFile_eq (env : Env) (filename : string) (log : list string) :
  readJSONFile filename env log
  = (Returned (collection env filename), (log ++ [filename])%list).
Proof.
  unfold readJSONFile, try_catch, readFile_parse, collection, ret.
  destruct (data env filename); reflexivity.
Qed.

(** Unfolds the plumbing of a handler down to its reads. *)
Ltac eff_unfold :=
  unfold try_catch, bind, ask, ret, throw; rewrite ?readJSONFile_eq.

Lemma list_titles_eq env filename failure search genre limit offset log :
  list_titles filename failure search genre limit offset env log
  = (Returned
       (json 200 true
          (Page
             (JS.slice (filtered_titles env filename search genre)
                (JS.parseInt_default 0 offset)
                (JS.add (JS.parseInt_default 0 offset) (JS.parseInt_default 20 limit)))
             (List.length (filtered_titles env filename search genre))
             (JS.parseInt_default 20 limit) (JS.parseInt_default 0 offset)
             (JS.lt (JS.add (JS.parseInt_default 0 offset)
                            (JS.parseInt_default 20 limit))
                    (Z.of_nat (List.length (filtered_titles env filename search genre)))))),
     (log ++ [filename])%list).
Proof. unfold list_titles. eff_unfold. reflexivity. Qed.

Lemma one_title_eq env filename missing failure name log :
  one_title filename missing failure name env log
  = (Returned
       match find (same_name name) (collection env filename) with
       | None => json 404 false (Failure missing None)
       | Some movie => json 200 true (One movie)
       end,
     (log ++ [filename])%list).
Proof.
  unfold one_title. eff_unfold.
  destruct (find (same_name name) (collection env filename)); reflexivity.
Qed.

Lemma search_collection_eq env filename kind searchTerm type results log :
  search_collection filename kind searchTerm type results env log
  = (Returned (results ++ search_matches env filename kind searchTerm type)%list,
     (log ++ if selects type kind then [filename] else [])%list).
Proof.
  unfold search_collection, search_matches.
  destruct (selects type kind); eff_unfold.
  - reflexivity.
  - now rewrite !app_nil_r.
Qed.

Lemma get_api_search_eq env q type genre limit offset log :
  JS.truthy (Some q) = true ->
  get_api_search (Some q) type genre limit offset env log
  = (Returned
       (json 200 true
          (SearchPage
             (JS.slice (filtered_results env q type genre)
                (JS.parseInt_default 0 offset)
                (JS.add (JS.parseInt_default 0 offset) (JS.parseInt_default 20 limit)))
             (List.length (filtered_results env q type genre))
             (JS.parseInt_default 20 limit) (JS.parseInt_default 0 offset)
             (JS.lt (JS.add (JS.parseInt_default 0 offset)
                            (JS.parseInt_default 20 limit))
                    (Z.of_nat (List.length (filtered_results env q type genre))))
             q)),
     (log ++ files_for type)%list).
Proof.
  intros Hq. unfold get_api_search. rewrite Hq.
  unfold try_catch, bind. rewrite !search_collection_eq.
  unfold ret, filtered_results, files_for. cbn [List.app].
  now rewrite app_assoc.
Qed.

Lemma get_api_search_missing env q type genre limit offset log :
  JS.truthy q = false ->
  get_api_search q type genre limit offset env log
  = (Returned (json 400 false (Failure "Search query is required" None)), log).
Proof.
  intros Hq. unfold get_api_search. destruct q; [rewrite Hq|]; reflexivity.
Qed.

(** What one collection adds to the trending pool, and the answer of the
    handler in terms of the two contributions. *)
Lemma trending_collection_gen env filename kind type limit trending log :
  trending_collection filename kind type limit trending env log
  = (Returned (trending ++ half_page env filename kind type limit)%list,
     (log ++ if selects type kind then [filename] else [])%list).
Proof.
  unfold trending_collection, half_page.
  destruct (selects type kind); eff_unfold; [reflexivity|].
  now rewrite !app_nil_r.
Qed.

Lemma get_api_trending_gen env type limit log :
  get_api_trending type limit env log
  = (Returned
       (json 200 true
          (Trending
             (JS.slice
                (sort_random env
                   (half_page env "movies.json" "movie" type limit
                    ++ half_page env "series.json" "series" type limit)%list)
                (Some 0) (JS.parseInt_default 20 limit)))),
     (log ++ files_for type)%list).
Proof.
  unfold get_api_trending, try_catch, bind.
  rewrite !trending_collection_gen. unfold ask, ret, files_for.
  cbn [List.app]. now rewrite app_assoc.
Qed.

Lemma fold_ratings_eq (movies : list Title.t) (acc : JS.Number) :
  fold_left (fun sum m => JS.fadd sum (parseFloat_rating_or_0 (Title.rating m)))
            movies acc
  = sum_from acc (map (fun m => parseFloat_rating_or_0 (Title.rating m)) movies).
Proof.
  revert acc. induction movies as [|m movies IH]; intros acc; cbn; [reflexivity|].
  apply IH.
Qed.

Lemma get_api_stats_eq env log :
  get_api_stats env log
  = (Returned
       (json 200 true
          (Stats (List.length (collection env "movies.json"))
             (List.length (collection env "series.json"))
             (fold_left
                (fun total show =>
                   (total + match Title.episodes show with
                            | Some episodes => List.length episodes
                            | None => 0
                            end)%nat)
                (collection env "series.json") 0%nat)
             (List.length
                (JS.Set_values (genre_tags (collection env "movies.json")
                                ++ genre_tags (collection env "series.json"))%list))
             (JS.Set_values (genre_tags (collection env "movies.json")
                             ++ genre_tags (collection env "series.json"))%list)
             (average_rating (collection env "movies.json"))
             (average_rating (collection env "series.json")))),
     (log ++ ["movies.json"; "series.json"])%list).
Proof.
  unfold get_api_stats. eff_unfold.
  rewrite <- app_assoc. reflexivity.
Qed.

Lemma get_api_genres_eq env log :
  get_api_genres env log
  = (Returned
       (json 200 true
          (Genres
             (JS.sort_strings
                (JS.Set_values (genre_tags (collection env "movies.json")
                                ++ genre_tags (collection env "series.json"))%list)))),
     (log ++ ["movies.json"; "series.json"])%list).
Proof.
  unfold get_api_genres. eff_unfold.
  rewrite <- app_assoc. reflexivity.
Qed.

Lemma get_api_series_name_episodes_eq env name season episode log :
  get_api_series_name_episodes name season episode env log
  = (Returned
       match find (same_name name) (collection env "series.json") with
       | None => json 404 false (Failure "Series not found" None)
       | Some show =>
           json 200 true
             (Episodes
                (let episodes :=
                   match Title.episodes show with Some eps => eps | None => [] end in
                 let episodes :=
                   if JS.truthy season
                   then filter (fun ep => JS.strict_eq (Episode.season ep)
                                            (parseInt_param season)) episodes
                   else episodes in
                 if JS.truthy episode
                 then filter (fun ep => JS.strict_eq (Episode.episode ep)
                                          (parseInt_param episode)) episodes
                 else episodes)
                (SeriesInfo.mk (Title.name show) (Title.description show)
                   (Title.genre show) (Title.rating show)
                   (Title.releaseDate show) (Title.image show)))
       end,
     (log ++ ["series.json"])%list).
Proof.
  unfold get_api_series_name_episodes. eff_unfold.
  destruct (find (same_name name) (collection env "series.json")); reflexivity.
Qed.

(** The first-episode fallback consults neither the files nor the rest of
    the environment. *)
Lemma iframe_first_episode_env show source env env' log :
  iframe_first_episode show source env log
  = iframe_first_episode show source env' log.
Proof.
  unfold iframe_first_episode.
  destruct (Title.episodes show) as [[|firstEp rest]|]; try reflexivity.
  destruct (Episode.sources firstEp); reflexivity.
Qed.

(** ** Environments that agree on what the handlers can observe *)

Section Agreement.

Variables env env' : Env.
Hypothesis same_collections :
  forall filename, collection env filename = collection env' filename.
Hypothesis same_sort : sort_random env = sort_random env'.
Hypothesis same_clock : Date_toISOString env = Date_toISOString env'.

Lemma readJSONFile_agree filename log :
  readJSONFile filename env log = readJSONFile filename env' log.
Proof. now rewrite !readJSONFile_eq, same_collections. Qed.

Lemma iframe_series_agree title source season episode log :
  iframe_series title source season episode env log
  = iframe_series title source season episode env' log.
Proof.
  unfold iframe_series, bind. rewrite !readJSONFile_eq, same_collections.
  destruct (find (same_name title) (collection env' "series.json")) as [show|];
    [|reflexivity].
  destruct (if (JS.truthy season && JS.truthy episode)%bool
            then find_episode show season episode else None) as [ep|].
  - destruct (Episode.sources ep); [reflexivity|].
    apply iframe_first_episode_env.
  - apply iframe_first_episode_env.
Qed.

Lemma get_api_iframe_agree title source season episode log :
  get_api_iframe title source season episode env log
  = get_api_iframe title source season episode env' log.
Proof.
  unfold get_api_iframe, try_catch.
  destruct title as [t|]; [|reflexivity].
  destruct (JS.truthy (Some t)); [|reflexivity].
  unfold bind. rewrite !readJSONFile_eq, same_collections.
  destruct (find (same_name t) (collection env' "movies.json")) as [movie|].
  - destruct (Title.sources movie); [reflexivity|].
    now rewrite iframe_series_agree.
  - now rewrite iframe_series_agree.
Qed.

Lemma trending_collection_agree filename kind type limit trending log :
  trending_collection filename kind type limit trending env log
  = trending_collection filename kind type limit trending env' log.
Proof.
  unfold trending_collection. destruct (selects type kind); [|reflexivity].
  unfold bind. now rewrite !readJSONFile_eq, same_collections.
Qed.

Lemma get_api_trending_agree type limit log :
  get_api_trending type limit env log = get_api_trending type limit env' log.
Proof.
  unfold get_api_trending, try_catch, bind.
  rewrite (trending_collection_agree "movies.json").
  destruct (trending_collection "movies.json" "movie" type limit [] env' log)
    as [[movies|e] log1]; [|reflexivity].
  rewrite (trending_collection_agree "series.json").
  destruct (trending_collection "series.json" "series" type limit movies env' log1)
    as [[both|e] log2]; [|reflexivity].
  unfold ask, ret. now rewrite same_sort.
Qed.

(** Every route answers alike, and reads alike, in the two
    environments. *)
Lemma app_agree req log : app req env log = app req env' log.
Proof.
  destruct req; cbn [app].
  - unfold get_api_movies. rewrite !list_titles_eq.
    unfold filtered_titles. now rewrite same_collections.
  - unfold get_api_movies_name. rewrite !one_title_eq.
    now rewrite same_collections.
  - unfold get_api_series. rewrite !list_titles_eq.
    unfold filtered_titles. now rewrite same_collections.
  - unfold get_api_series_name. rewrite !one_title_eq.
    now rewrite same_collections.
  - rewrite !get_api_series_name_episodes_eq. now rewrite same_collections.
  - destruct (JS.truthy q) eqn:Hq.
    + destruct q as [qs|]; [|discriminate].
      rewrite !get_api_search_eq by assumption.
      unfold filtered_results, search_matches. now rewrite !same_collections.
    + now rewrite !get_api_search_missing.
  - apply get_api_iframe_agree.
  - apply get_api_trending_agree.
  - rewrite !get_api_stats_eq. now rewrite !same_collections.
  - rewrite !get_api_genres_eq. now rewrite !same_collections.
  - unfold get_api_health, bind, ask, ret. now rewrite same_clock.
  - reflexivity.
Qed.

End Agreement.

(** ** The properties of the specification *)

(** A slice at natural bounds meets the pagination contract. *)
Lemma slice_paginated {A : Type} (filtered : list A) (o l : Z) :
  0 <= o -> 0 <= l ->
  paginated filtered o l
    (JS.slice filtered (Some o) (Some (o + l)))
    (List.length filtered)
    (JS.lt (Some (o + l)) (Z.of_nat (List.length filtered))).
Proof.
  intros Ho Hl. unfold paginated. rewrite slice_page by assumption.
  repeat split.
  - pose proof (page_of_length filtered (Z.to_nat o) (Z.to_nat l)). lia.
  - cbn [JS.lt]. intros H. now apply Z.ltb_lt.
  - cbn [JS.lt]. intros H. now apply Z.ltb_lt.
Qed.

(** C2: for every state of the data files, every search and genre
    parameter and every [limit] and [offset] that parse to natural
    numbers, [GET /api/movies], [GET /api/series] and [GET /api/search]
    answer 200 with a page equal to the filtered collection from [offset]
    to [offset + limit] (of length at most [limit]), with [total] the
    length of the filtered collection, and with [hasMore] true exactly
    when [offset + limit] is below that total. *)
Theorem list_endpoints_paginate
  (env : Env) (search genre limit offset : option string) (l o : Z) :
  JS.parseInt_default 20 limit = Some l ->
  JS.parseInt_default 0 offset = Some o ->
  0 <= l -> 0 <= o ->
  (exists page total hasMore,
      fst (run (app (GET_movies search genre limit offset)) env)
      = Returned (json 200 true (Page page total (Some l) (Some o) hasMore))
      /\ paginated (filtered_titles env "movies.json" search genre)
                   o l page total hasMore)
  /\ (exists page total hasMore,
         fst (run (app (GET_series search genre limit offset)) env)
         = Returned (json 200 true (Page page total (Some l) (Some o) hasMore))
         /\ paginated (filtered_titles env "series.json" search genre)
                      o l page total hasMore)
  /\ (forall q type,
         JS.truthy (Some q) = true ->
         exists page total hasMore,
           fst (run (app (GET_search (Some q) type genre limit offset)) env)
           = Returned (json 200 true
                         (SearchPage page total (Some l) (Some o) hasMore q))
           /\ paginated (filtered_results env q type genre)
                        o l page total hasMore).
Proof.
  intros Hl Ho Hl0 Ho0. unfold run. cbn [app].
  unfold get_api_movies, get_api_series.
  split; [|split]; [| |intros q type Hq].
  1,2: rewrite list_titles_eq, Hl, Ho; cbn [JS.add fst];
       do 3 eexists; split; [reflexivity|now apply slice_paginated].
  rewrite get_api_search_eq, Hl, Ho by assumption. cbn [JS.add fst].
  do 3 eexists; split; [reflexivity|now apply slice_paginated].
Qed.

Lemma list_endpoints_paginate_witness :
  JS.parseInt_default 20 (Some "1") = Some 1
  /\ JS.parseInt_default 0 None = Some 0
  /\ 0 <= 1 /\ 0 <= 0
  /\ exists page total hasMore,
      fst (run (app (GET_movies (Some "a") None (Some "1") None)) Sample.env)
      = Returned (json 200 true (Page page total (Some 1) (Some 0) hasMore))
      /\ paginated (filtered_titles Sample.env "movies.json" (Some "a") None)
                   0 1 page total hasMore.
Proof.
  split; [reflexivity|]. split; [reflexivity|].
  split; [lia|]. split; [lia|].
  apply (list_endpoints_paginate Sample.env (Some "a") None (Some "1") None 1 0);
    [reflexivity|reflexivity|lia|lia].
Defined.

(** C5: on every collection and for every search and genre parameter,
    the search filter followed by the genre filter keeps the same records,
    in the same order, as the genre filter followed by the search filter;
    this holds for the two filters as the handlers gate them and for the
    bare predicates on any two terms. *)
Theorem search_and_genre_filters_commute
  (movies : list Title.t) (search genre : option string) (s g : string) :
  genre_filter (fun m => m) genre (search_filter search movies)
  = search_filter search (genre_filter (fun m => m) genre movies)
  /\ filter (matches_genre g) (filter (matches_search (JS.toLowerCase s)) movies)
     = filter (matches_search (JS.toLowerCase s)) (filter (matches_genre g) movies).
Proof.
  split; [|apply filter_comm].
  unfold genre_filter, search_filter.
  destruct genre as [g'|], search as [s'|]; try reflexivity.
  destruct (JS.truthy (Some g') && negb (g' =? "all")%string)%bool,
           (JS.truthy (Some s')); try reflexivity.
  apply filter_comm.
Qed.

(** C8: a request to [/api/search] without [q], and a request to
    [/api/iframe] without [title], is answered with status 400 and an
    envelope whose [success] is false, and no data file is read. *)
Theorem missing_parameter_is_rejected_unread
  (env : Env) (type genre limit offset source season episode : option string) :
  run (app (GET_search None type genre limit offset)) env
  = (Returned (json 400 false (Failure "Search query is required" None)), [])
  /\ run (app (GET_iframe None source season episode)) env
     = (Returned (json 400 false (Failure "Title is required" None)), []).
Proof. split; reflexivity. Qed.

(** C10: on every state of the data files and for every other parameter,
    the genre value ['all'] leaves [/api/movies], [/api/series] and
    [/api/search] with the answer they give without a genre parameter:
    the genre filter is not applied at all. *)
Theorem genre_all_is_no_filter
  (env : Env) (search q type limit offset : option string) :
  (forall (A : Type) (title_of : A -> Title.t) (items : list A),
      genre_filter title_of (Some "all") items = items)
  /\ run (app (GET_movies search (Some "all") limit offset)) env
     = run (app (GET_movies search None limit offset)) env
  /\ run (app (GET_series search (Some "all") limit offset)) env
     = run (app (GET_series search None limit offset)) env
  /\ run (app (GET_search q type (Some "all") limit offset)) env
     = run (app (GET_search q type None limit offset)) env.
Proof. repeat split; reflexivity. Qed.

(** C7: when reading or parsing a data file fails, [readJSONFile] returns
    the empty array instead of throwing, and every route answers exactly
    as it does when that file holds an empty array; the listing of that
    file, in particular, is a 200 with no record. *)
Theorem read_failure_is_empty_collection (env : Env) (filename : string) :
  read_fails env filename ->
  (forall log,
      readJSONFile filename env log = (Returned [], (log ++ [filename])%list))
  /\ (forall req log,
         app req env log = app req (with_file env filename (Holds [])) log)
  /\ (forall failure search genre limit offset,
         exists limit' offset' hasMore,
           run (list_titles filename failure search genre limit offset) env
           = (Returned (json 200 true (Page [] 0 limit' offset' hasMore)),
              [filename])).
Proof.
  intros Hfail.
  assert (Hempty : collection env filename = []).
  { unfold collection. destruct Hfail as [e [H|H]]; now rewrite H. }
  split; [|split].
  - intros log. now rewrite readJSONFile_eq, Hempty.
  - intros req log. apply app_agree; try reflexivity.
    intros f. unfold collection at 2, with_file. cbn [data].
    destruct (String.eqb_spec f filename) as [->|Hne]; [assumption|reflexivity].
  - intros failure search genre limit offset. unfold run.
    rewrite list_titles_eq.
    assert (Hnone : filtered_titles env filename search genre = []).
    { unfold filtered_titles. rewrite Hempty.
      unfold search_filter, genre_filter.
      destruct search as [s|]; [destruct (JS.truthy (Some s))|];
        (destruct genre as [g|];
         [destruct (JS.truthy (Some g) && negb (g =? "all")%string)%bool|]);
        reflexivity. }
    rewrite Hnone, slice_nil. do 3 eexists. reflexivity.
Qed.

Lemma read_failure_is_empty_collection_witness :
  read_fails Sample.broken_env "series.json"
  /\ run (app GET_stats) Sample.broken_env
     = run (app GET_stats) (with_file Sample.broken_env "series.json" (Holds [])).
Proof.
  split.
  - exists "Unexpected end of JSON input". right. reflexivity.
  - apply (read_failure_is_empty_collection Sample.broken_env "series.json").
    exists "Unexpected end of JSON input". right. reflexivity.
Defined.

(** For a limit that parses to a natural number, a collection that the
    [type] selects contributes the first [limit/2] records of its sorted
    copy. *)
Lemma half_page_eq env filename kind type limit n :
  selects type kind = true ->
  JS.parseInt_default 20 limit = Some n ->
  0 <= n ->
  half_page env filename kind type limit
  = map (fun movie => tagged movie kind)
        (firstn (Z.to_nat (n / 2))
                (JS.sort by_rating_desc (collection env filename))).
Proof.
  intros Hsel Hn Hpos. unfold half_page. rewrite Hsel, Hn.
  cbn [JS.half option_map].
  rewrite slice_prefix by (apply Z.quot_pos; lia).
  now rewrite Z.quot_div_nonneg by lia.
Qed.

(** C9, at an input where the code departs from it: the movie file
    holds Zeta rated ["5.1"], Incendies rated ["8.3"] and Alpha rated 9,
    and the series file holds Alpha rated 7, Beta with no rating and Gamma
    rated ["6.5"], in this order.  With [type] absent and a limit of 4 the
    two highest-rated movies are Alpha and Incendies and the two
    highest-rated series are Alpha and Gamma.  Whatever permutation the
    coin-flipping sort produces, the answer holds the two movies, and
    leaves Zeta out, but of the series it holds Alpha and Beta, and leaves
    Gamma out.  The comparator of the sort parses the two ratings without
    the default that the statistics give to a missing one, so that every
    comparison with Beta is NaN and Beta stays where the file has it,
    ahead of Gamma. *)
Theorem trending_returns_an_unrated_series_over_a_rated_one (env : Env) :
  collection env "movies.json"
  = [Sample.zeta_movie; Sample.incendies; Sample.alpha_movie] ->
  collection env "series.json"
  = [Sample.alpha_show; Sample.beta_show; Sample.gamma_show] ->
  (forall l, Permutation l (sort_random env l)) ->
  map Title.rating (collection env "movies.json")
  = [Some (RStr "5.1"); Some (RStr "8.3"); Some (RNum (JS.of_Z 9))]
  /\ map Title.rating (collection env "series.json")
     = [Some (RNum (JS.of_Z 7)); None; Some (RStr "6.5")]
  /\ exists items,
      run (app (GET_trending None (Some "4"))) env
      = (Returned (json 200 true (Trending items)),
         ["movies.json"; "series.json"])
      /\ Permutation items
           [tagged Sample.alpha_movie "movie"; tagged Sample.incendies "movie";
            tagged Sample.alpha_show "series"; tagged Sample.beta_show "series"]
      /\ ~ In (tagged Sample.zeta_movie "movie") items
      /\ In (tagged Sample.beta_show "series") items
      /\ ~ In (tagged Sample.gamma_show "series") items.
Proof.
  intros Hmovies Hseries Hshuffle.
  split; [now rewrite Hmovies|]. split; [now rewrite Hseries|].
  set (pool := [tagged Sample.alpha_movie "movie"; tagged Sample.incendies "movie";
                tagged Sample.alpha_show "series"; tagged Sample.beta_show "series"]).
  assert (Hpool :
    (half_page env "movies.json" "movie" None (Some "4")
     ++ half_page env "series.json" "series" None (Some "4"))%list = pool).
  { rewrite !(half_page_eq env _ _ None (Some "4") 4) by (reflexivity || lia).
    rewrite Hmovies, Hseries. vm_compute. reflexivity. }
  pose proof (Hshuffle pool) as Hperm.
  assert (Hout : forall item, In item (sort_random env pool) -> In item pool)
    by (intros item; apply Permutation_in, Permutation_sym, Hperm).
  exists (sort_random env pool). split; [|split; [|split; [|split]]].
  - unfold run. cbn [app]. rewrite get_api_trending_gen, Hpool.
    change (JS.parseInt_default 20 (Some "4")) with (Some 4).
    rewrite slice_whole; [reflexivity|].
    rewrite <- (Permutation_length Hperm). cbn. lia.
  - now apply Permutation_sym.
  - intros Hin. apply Hout in Hin.
    destruct Hin as [H|[H|[H|[H|[]]]]]; discriminate H.
  - apply (Permutation_in _ Hperm). cbn. tauto.
  - intros Hin. apply Hout in Hin.
    destruct Hin as [H|[H|[H|[H|[]]]]]; discriminate H.
Qed.

Lemma trending_returns_an_unrated_series_over_a_rated_one_witness :
  collection Sample.trending_env "movies.json"
  = [Sample.zeta_movie; Sample.incendies; Sample.alpha_movie]
  /\ collection Sample.trending_env "series.json"
     = [Sample.alpha_show; Sample.beta_show; Sample.gamma_show]
  /\ (forall l, Permutation l (sort_random Sample.trending_env l))
  /\ exists items,
      run (app (GET_trending None (Some "4"))) Sample.trending_env
      = (Returned (json 200 true (Trending items)),
         ["movies.json"; "series.json"])
      /\ Permutation items
           [tagged Sample.alpha_movie "movie"; tagged Sample.incendies "movie";
            tagged Sample.alpha_show "series"; tagged Sample.beta_show "series"]
      /\ ~ In (tagged Sample.zeta_movie "movie") items
      /\ In (tagged Sample.beta_show "series") items
      /\ ~ In (tagged Sample.gamma_show "series") items.
Proof.
  split; [reflexivity|]. split; [reflexivity|].
  split; [intros l; apply Permutation_rev|].
  apply (trending_returns_an_unrated_series_over_a_rated_one Sample.trending_env);
    [reflexivity|reflexivity|intros l; apply Permutation_rev].
Defined.

(** The trending answer on that input, when the coin-flipping sort
    happens to reverse. *)
Example trending_of_four :
  run (app (GET_trending None (Some "4"))) Sample.trending_env
  = (Returned
       (json 200 true
          (Trending [tagged Sample.beta_show "series";
                     tagged Sample.alpha_show "series";
                     tagged Sample.incendies "movie";
                     tagged Sample.alpha_movie "movie"])),
     ["movies.json"; "series.json"]).
Proof. vm_compute. reflexivity. Qed.

(** *** The resolver *)

(** The series branch, once the series file has been read. *)
Lemma iframe_series_eq env title source season episode log :
  iframe_series title source season episode env log
  = match find (same_name title) (collection env "series.json") with
    | Some show =>
        match (if (JS.truthy season && JS.truthy episode)%bool
               then find_episode show season episode else None) with
        | Some ep =>
            match Episode.sources ep with
            | Some sources =>
                (Returned (episode_answer show ep sources source),
                 (log ++ ["series.json"])%list)
            | None =>
                iframe_first_episode show source env (log ++ ["series.json"])%list
            end
        | None => iframe_first_episode show source env (log ++ ["series.json"])%list
        end
    | None => (Returned content_not_found, (log ++ ["series.json"])%list)
    end.
Proof.
  unfold iframe_series, bind. rewrite readJSONFile_eq.
  destruct (find (same_name title) (collection env "series.json")) as [show|];
    [|reflexivity].
  destruct (if (JS.truthy season && JS.truthy episode)%bool
            then find_episode show season episode else None) as [ep|];
    [|reflexivity].
  destruct (Episode.sources ep); reflexivity.
Qed.

(** The resolver on a non-empty title, once the movie file has been
    read. *)
Lemma get_api_iframe_eq env title source season episode log :
  JS.truthy (Some title) = true ->
  get_api_iframe (Some title) source season episode env log
  = match find (same_name title) (collection env "movies.json") with
    | Some movie =>
        match Title.sources movie with
        | Some sources =>
            (Returned (movie_answer movie sources (or_primary source)),
             (log ++ ["movies.json"])%list)
        | None =>
            try_catch (iframe_series title (or_primary source) season episode)
                      iframe_failed env (log ++ ["movies.json"])%list
        end
    | None =>
        try_catch (iframe_series title (or_primary source) season episode)
                  iframe_failed env (log ++ ["movies.json"])%list
    end.
Proof.
  intros Htitle. unfold get_api_iframe. rewrite Htitle.
  unfold try_catch at 1. unfold bind at 1. rewrite readJSONFile_eq.
  destruct (find (same_name title) (collection env "movies.json")) as [movie|];
    [|reflexivity].
  destruct (Title.sources movie); reflexivity.
Qed.

Lemma iframe_first_episode_log show source env log :
  snd (iframe_first_episode show source env log) = log.
Proof.
  unfold iframe_first_episode.
  destruct (Title.episodes show) as [[|firstEp rest]|]; try reflexivity.
  destruct (Episode.sources firstEp); reflexivity.
Qed.

(** The guarded series branch reads the series file, once. *)
Lemma iframe_series_log env title source season episode log :
  snd (try_catch (iframe_series title source season episode) iframe_failed env log)
  = (log ++ ["series.json"])%list.
Proof.
  unfold try_catch. rewrite iframe_series_eq.
  destruct (find (same_name title) (collection env "series.json")) as [show|];
    [|reflexivity].
  assert (Hfirst :
    snd (let (o, log') :=
           iframe_first_episode show source env (log ++ ["series.json"])%list in
         match o with
         | Returned a => (Returned a, log')
         | Thrown e => iframe_failed e env log'
         end) = (log ++ ["series.json"])%list).
  { pose proof (iframe_first_episode_log show source env (log ++ ["series.json"])%list) as H.
    destruct (iframe_first_episode show source env (log ++ ["series.json"])%list)
      as [[r|e] log']; cbn in H |- *; exact H. }
  destruct (if (JS.truthy season && JS.truthy episode)%bool
            then find_episode show season episode else None) as [ep|];
    [|exact Hfirst].
  destruct (Episode.sources ep); [reflexivity|exact Hfirst].
Qed.

(** Counterexample to C1 as stated: the title matches a stored movie that
    has no [sources], and the resolver goes on to read the series file
    and answers from the series of the same name. *)
Lemma iframe_sourceless_movie_reads_series :
  find (same_name "alpha") (collection Sample.env "movies.json")
  = Some Sample.alpha_movie
  /\ Title.sources Sample.alpha_movie = None
  /\ run (app (GET_iframe (Some "alpha") None None None)) Sample.env
     = (Returned (episode_answer Sample.alpha_show Sample.pilot
                    [("source1", "https://cdn.example/s1e1")] "primary"),
        ["movies.json"; "series.json"]).
Proof. repeat split; reflexivity. Qed.

(** C1, amended: for a request with a non-empty title that matches a
    movie by case-insensitive equality of names, if the first such movie
    has a [sources] object the resolver answers from that movie and from
    the movie file alone; if it has none, the resolver reads the series
    file and answers as the series branch does. *)
Theorem iframe_movie_with_sources_answers_first
  (env : Env) (title : string) (source season episode : option string)
  (movie : Title.t) :
  JS.truthy (Some title) = true ->
  find (same_name title) (collection env "movies.json") = Some movie ->
  (forall sources,
      Title.sources movie = Some sources ->
      run (app (GET_iframe (Some title) source season episode)) env
      = (Returned (movie_answer movie sources (or_primary source)),
         ["movies.json"]))
  /\ (Title.sources movie = None ->
      run (app (GET_iframe (Some title) source season episode)) env
      = try_catch (iframe_series title (or_primary source) season episode)
                  iframe_failed env ["movies.json"]
      /\ snd (run (app (GET_iframe (Some title) source season episode)) env)
         = ["movies.json"; "series.json"]).
Proof.
  intros Htitle Hmovie. unfold run. cbn [app].
  rewrite get_api_iframe_eq, Hmovie by assumption. split.
  - intros sources Hsources. now rewrite Hsources.
  - intros Hnone. rewrite Hnone. split; [reflexivity|].
    apply iframe_series_log.
Qed.

Lemma iframe_movie_with_sources_answers_first_witness :
  JS.truthy (Some "INCENDIES") = true
  /\ find (same_name "INCENDIES") (collection Sample.env "movies.json")
     = Some Sample.incendies
  /\ run (app (GET_iframe (Some "INCENDIES") None None None)) Sample.env
     = (Returned (movie_answer Sample.incendies
                    [("source1", "https://cdn.example/incendies");
                     ("source2", "https://mirror.example/incendies")]
                    "primary"),
        ["movies.json"]).
Proof.
  split; [reflexivity|]. split; [reflexivity|].
  apply (iframe_movie_with_sources_answers_first
           Sample.env "INCENDIES" None None None Sample.incendies);
    reflexivity.
Defined.

(** C4, at an input where the code departs from it: the title names the
    series Beta and no movie, the episode list of Beta is not empty, and
    either no season and episode are given or the pair given matches no
    stored episode, so that the source is to be taken from the first
    stored episode.  That episode has no [sources]: the fallback reads a
    slot of it without the test that the movie and the matched episode
    get, the read throws, and the answer is the 500 envelope. *)
Theorem iframe_first_episode_without_sources_fails :
  find (same_name "beta") (collection Sample.env "movies.json") = None
  /\ find (same_name "beta") (collection Sample.env "series.json")
     = Some Sample.beta_show
  /\ Title.episodes Sample.beta_show = Some [Sample.teaser; Sample.second]
  /\ Episode.sources Sample.teaser = None
  /\ find_episode Sample.beta_show (Some "9") (Some "9") = None
  /\ run (app (GET_iframe (Some "beta") None None None)) Sample.env
     = (Returned
          (json 500 false
             (Failure "Failed to get iframe source"
                (Some "Cannot read properties of undefined (reading 'source1')"))),
        ["movies.json"; "series.json"])
  /\ run (app (GET_iframe (Some "beta") None (Some "9") (Some "9"))) Sample.env
     = (Returned
          (json 500 false
             (Failure "Failed to get iframe source"
                (Some "Cannot read properties of undefined (reading 'source1')"))),
        ["movies.json"; "series.json"]).
Proof. repeat split; reflexivity. Qed.

Lemma iframe_of_absent_slot (sources : Sources) (source : string) :
  get sources (sourceKey source) = None ->
  iframe_of sources source = get sources "source1".
Proof. intros H. unfold iframe_of, JS.or_else. now rewrite H. Qed.

Lemma find_episode_stored show season episode ep :
  find_episode show season episode = Some ep ->
  exists episodes, Title.episodes show = Some episodes /\ In ep episodes.
Proof.
  unfold find_episode. destruct (Title.episodes show) as [episodes|];
    [|discriminate].
  intros H. exists episodes. split; [reflexivity|].
  now apply find_some in H.
Qed.

(** A successful answer of the first-episode fallback comes from the
    [sources] of the first stored episode. *)
Lemma iframe_first_episode_inv env show source log log' t ty se ep et url available :
  iframe_first_episode show source env log
  = (Returned (json 200 true (Iframe t ty se ep et url available)), log') ->
  exists firstEp rest sources,
    Title.episodes show = Some (firstEp :: rest)
    /\ Episode.sources firstEp = Some sources
    /\ available = Object_keys sources
    /\ url = iframe_of sources source.
Proof.
  unfold iframe_first_episode, content_not_found, ret, throw.
  destruct (Title.episodes show) as [[|firstEp rest]|]; try discriminate.
  destruct (Episode.sources firstEp) as [sources|] eqn:Hsources; [|discriminate].
  intros H. inversion H; subst.
  exists firstEp, rest, sources. repeat split. exact Hsources.
Qed.

(** Every successful answer of the resolver carries the URL that
    [iframe_of] picks in a stored [sources] object. *)
Lemma get_api_iframe_inv env title source season episode t ty se ep et url available :
  fst (run (get_api_iframe title source season episode) env)
  = Returned (json 200 true (Iframe t ty se ep et url available)) ->
  exists sources,
    stored_sources env sources
    /\ available = Object_keys sources
    /\ url = iframe_of sources (or_primary source).
Proof.
  unfold run. destruct title as [title|]; [|discriminate].
  destruct (JS.truthy (Some title)) eqn:Htitle;
    [|unfold get_api_iframe; rewrite Htitle; discriminate].
  rewrite get_api_iframe_eq by assumption.
  assert (Hseries :
    fst (try_catch (iframe_series title (or_primary source) season episode)
                   iframe_failed env ([] ++ ["movies.json"])%list)
    = Returned (json 200 true (Iframe t ty se ep et url available)) ->
    exists sources,
      stored_sources env sources
      /\ available = Object_keys sources
      /\ url = iframe_of sources (or_primary source)).
  { unfold try_catch. rewrite iframe_series_eq.
    destruct (find (same_name title) (collection env "series.json")) as [show|] eqn:Hshow;
      [|discriminate].
    apply find_some in Hshow. destruct Hshow as [Hshow _].
    assert (Hfirst : forall log,
      fst (let (o, log') := iframe_first_episode show (or_primary source) env log in
           match o with
           | Returned a => (Returned a, log')
           | Thrown e => iframe_failed e env log'
           end)
      = Returned (json 200 true (Iframe t ty se ep et url available)) ->
      exists sources,
        stored_sources env sources
        /\ available = Object_keys sources
        /\ url = iframe_of sources (or_primary source)).
    { intros log.
      destruct (iframe_first_episode show (or_primary source) env log)
        as [[r|e] log'] eqn:Hrun; [|discriminate].
      cbn [fst]. intros Hr. inversion Hr; subst r.
      apply iframe_first_episode_inv in Hrun.
      destruct Hrun as (firstEp & rest & sources & Heps & Hsrc & Hav & Hurl).
      exists sources. split; [|now split].
      right. exists show, (firstEp :: rest), firstEp.
      repeat split; try assumption. now left. }
    destruct (if (JS.truthy season && JS.truthy episode)%bool
              then find_episode show season episode else None) as [found|] eqn:Hfound;
      [|apply Hfirst].
    destruct (Episode.sources found) as [sources|] eqn:Hsrc; [|apply Hfirst].
    cbn [fst]. intros Hr. inversion Hr; subst.
    exists sources. split; [|now split].
    destruct (JS.truthy season && JS.truthy episode)%bool; [|discriminate].
    apply find_episode_stored in Hfound. destruct Hfound as (episodes & Heps & Hin).
    right. now exists show, episodes, found. }
  destruct (find (same_name title) (collection env "movies.json")) as [movie|] eqn:Hmovie;
    [|exact Hseries].
  destruct (Title.sources movie) as [sources|] eqn:Hsrc; [|exact Hseries].
  cbn [fst]. intros Hr. inversion Hr; subst.
  exists sources. split; [|now split].
  left. exists movie. split; [|assumption].
  now apply find_some in Hmovie.
Qed.

(** C3: the selector [primary] names the slot [source1], [secondary]
    names [source2], [tertiary] names [source3] and every other value
    names [source1]; every successful answer of the resolver, on each of
    its three paths, carries the URL that [sources[slot] || sources.source1]
    picks in the [sources] of a stored movie or episode, so that whenever
    the named slot is absent from them the URL is their [source1]; and a
    known movie resolved with [source=secondary] yields its [source2] when
    that slot is present and its [source1] otherwise.  Presence is read
    as the program reads it, through [||]: a slot that is missing, or
    that holds the empty string, is not present. *)
Theorem source_selector_resolves_slot :
  sourceKey "primary" = "source1"
  /\ sourceKey "secondary" = "source2"
  /\ sourceKey "tertiary" = "source3"
  /\ (forall source,
         source <> "primary" -> source <> "secondary" -> source <> "tertiary" ->
         sourceKey source = "source1")
  /\ (forall env title source season episode t ty se ep et url available,
         fst (run (app (GET_iframe title source season episode)) env)
         = Returned (json 200 true (Iframe t ty se ep et url available)) ->
         exists sources,
           stored_sources env sources
           /\ available = Object_keys sources
           /\ url = JS.or_else (get sources (sourceKey (or_primary source)))
                               (get sources "source1")
           /\ (get sources (sourceKey (or_primary source)) = None ->
               url = get sources "source1"))
  /\ (forall env title season episode movie sources,
         JS.truthy (Some title) = true ->
         find (same_name title) (collection env "movies.json") = Some movie ->
         Title.sources movie = Some sources ->
         exists url,
           fst (run (app (GET_iframe (Some title) (Some "secondary") season episode)) env)
           = Returned (json 200 true
                         (Iframe (Title.name movie) "movie" None None None
                            url (Object_keys sources)))
           /\ (JS.truthy (get sources "source2") = true ->
               url = get sources "source2")
           /\ (JS.truthy (get sources "source2") = false ->
               url = get sources "source1")).
Proof.
  split; [reflexivity|]. split; [reflexivity|]. split; [reflexivity|].
  split; [|split].
  - intros source H1 H2 H3. unfold sourceKey.
    destruct (String.eqb_spec source "primary"); [contradiction|].
    destruct (String.eqb_spec source "secondary"); [contradiction|].
    destruct (String.eqb_spec source "tertiary"); [contradiction|].
    reflexivity.
  - intros env title source season episode t ty se ep et url available Hrun.
    cbn [app] in Hrun. apply get_api_iframe_inv in Hrun.
    destruct Hrun as (sources & Hstored & Hav & Hurl).
    exists sources. repeat split; try assumption.
    intros Habsent. rewrite Hurl. now apply iframe_of_absent_slot.
  - intros env title season episode movie sources Htitle Hmovie Hsources.
    exists (iframe_of sources "secondary"). unfold run. cbn [app].
    rewrite get_api_iframe_eq, Hmovie, Hsources by assumption.
    split; [reflexivity|].
    unfold iframe_of, JS.or_else. cbn [sourceKey String.eqb Ascii.eqb Bool.eqb].
    split; intros H; now rewrite H.
Qed.

Lemma source_selector_resolves_slot_witness :
  JS.truthy (Some "incendies") = true
  /\ find (same_name "incendies") (collection Sample.env "movies.json")
     = Some Sample.incendies
  /\ exists url,
      fst (run (app (GET_iframe (Some "incendies") (Some "secondary") None None))
               Sample.env)
      = Returned (json 200 true
                    (Iframe "Incendies" "movie" None None None url
                       ["source1"; "source2"]))
      /\ (JS.truthy (get [("source1", "https://cdn.example/incendies");
                          ("source2", "https://mirror.example/incendies")]
                         "source2") = true ->
          url = Some "https://mirror.example/incendies")
      /\ (JS.truthy (get [("source1", "https://cdn.example/incendies");
                          ("source2", "https://mirror.example/incendies")]
                         "source2") = false ->
          url = Some "https://cdn.example/incendies").
Proof.
  split; [reflexivity|]. split; [reflexivity|].
  apply (proj2 (proj2 (proj2 (proj2 (proj2 source_selector_resolves_slot))))
           Sample.env "incendies" None None Sample.incendies
           [("source1", "https://cdn.example/incendies");
            ("source2", "https://mirror.example/incendies")]);
    reflexivity.
Defined.

(** A slot that holds the empty string is skipped by [||], like a
    missing one. *)
Example blank_slot_is_skipped :
  iframe_of Sample.blank_slot "secondary" = Some "https://cdn.example/a".
Proof. reflexivity. Qed.

(** *** Statistics *)

(** [parseFloat(r || 0)] is the value the specification gives to the
    rating [r]. *)
Lemma parseFloat_rating_or_0_eq (r : option Rating) :
  parseFloat_rating_or_0 r = rating_value r.
Proof.
  destruct r as [[x|s]|]; [destruct x|destruct s|]; reflexivity.
Qed.

Lemma average_rating_eq (movies : list Title.t) :
  average_rating movies
  = JS.toFixed1 (JS.fdiv (sum_of_ratings movies)
                         (JS.of_Z (Z.of_nat (List.length movies)))).
Proof.
  unfold average_rating, sum_of_ratings. rewrite fold_ratings_eq.
  do 3 f_equal. apply map_ext. intros m. apply parseFloat_rating_or_0_eq.
Qed.

(** The average of a collection of one record is its rating, printed
    with one decimal. *)
Lemma average_rating_single (m : Title.t) (r : Rating) :
  Title.rating m = Some r ->
  average_rating [m]
  = JS.toFixed1 (JS.fdiv (JS.fadd (JS.of_Z 0) (parseFloat_rating_or_0 (Some r)))
                         (JS.of_Z 1)).
Proof. intros H. unfold average_rating. cbn [fold_left List.length]. now rewrite H. Qed.

(** The average of a collection depends on its ratings alone. *)
Lemma average_rating_ext (movies movies' : list Title.t) :
  map Title.rating movies = map Title.rating movies' ->
  average_rating movies = average_rating movies'.
Proof.
  intros H. rewrite !average_rating_eq. unfold sum_of_ratings.
  rewrite <- (length_map Title.rating movies), <- (length_map Title.rating movies').
  rewrite <- !(map_map Title.rating rating_value). now rewrite H.
Qed.

(** C6: [GET /api/stats] reports, for each collection, the sum of the
    ratings divided by the number of records and printed with one
    decimal, where the sum is accumulated from the left and each rating
    counts for its value as the specification words it: a text for what
    [parseFloat] reads in it, a number for itself, an absent rating for 0.
    With one movie rated 9 and one series rated 7 the two averages are
    ["9.0"] and ["7.0"]; with the movies rated ["8.4"] and not at all, and
    the series rated ["7.5"], 8 and not at all, they are ["4.2"] and
    ["5.2"]; and on an empty collection the division is 0/0, so that the
    reported average is the text ["NaN"], which is not a numeral. *)
Theorem stats_average_rating :
  (forall movies,
      average_rating movies
      = JS.toFixed1 (JS.fdiv (sum_of_ratings movies)
                             (JS.of_Z (Z.of_nat (List.length movies)))))
  /\ (forall env,
         exists totalEpisodes genres,
           run (app GET_stats) env
           = (Returned
                (json 200 true
                   (Stats (List.length (collection env "movies.json"))
                      (List.length (collection env "series.json"))
                      totalEpisodes (List.length genres) genres
                      (average_rating (collection env "movies.json"))
                      (average_rating (collection env "series.json")))),
              ["movies.json"; "series.json"]))
  /\ (forall env m s,
         collection env "movies.json" = [m] ->
         collection env "series.json" = [s] ->
         Title.rating m = Some (RNum (JS.of_Z 9)) ->
         Title.rating s = Some (RNum (JS.of_Z 7)) ->
         exists totalEpisodes genres,
           run (app GET_stats) env
           = (Returned
                (json 200 true
                   (Stats 1 1 totalEpisodes (List.length genres) genres
                      "9.0" "7.0")),
              ["movies.json"; "series.json"]))
  /\ (forall env m m' s s' s'',
         collection env "movies.json" = [m; m'] ->
         collection env "series.json" = [s; s'; s''] ->
         Title.rating m = Some (RStr "8.4") ->
         Title.rating m' = None ->
         Title.rating s = Some (RStr "7.5") ->
         Title.rating s' = Some (RNum (JS.of_Z 8)) ->
         Title.rating s'' = None ->
         exists totalEpisodes genres,
           run (app GET_stats) env
           = (Returned
                (json 200 true
                   (Stats 2 3 totalEpisodes (List.length genres) genres
                      "4.2" "5.2")),
              ["movies.json"; "series.json"]))
  /\ (forall s, s <> "" -> rating_value (Some (RStr s)) = JS.parseFloat s)
  /\ rating_value (Some (RStr "8.4"))
     = S754_finite false 4728779608739021 (-49)
  /\ rating_value None = JS.of_Z 0
  /\ JS.fdiv (sum_of_ratings []) (JS.of_Z 0) = JS.NaN
  /\ average_rating [] = "NaN"
  /\ JS.parseFloat (average_rating []) = JS.NaN.
Proof.
  split; [exact average_rating_eq|].
  split; [|split; [|split; [|split; [|repeat split]]]].
  - intros env. unfold run. cbn [app]. rewrite get_api_stats_eq.
    do 2 eexists. reflexivity.
  - intros env m s Hmovies Hseries Hm Hs. unfold run. cbn [app].
    rewrite get_api_stats_eq, Hmovies, Hseries.
    rewrite (average_rating_single m _ Hm), (average_rating_single s _ Hs).
    replace (JS.toFixed1
               (JS.fdiv (JS.fadd (JS.of_Z 0)
                           (parseFloat_rating_or_0 (Some (RNum (JS.of_Z 9)))))
                        (JS.of_Z 1)))
      with "9.0" by (vm_compute; reflexivity).
    replace (JS.toFixed1
               (JS.fdiv (JS.fadd (JS.of_Z 0)
                           (parseFloat_rating_or_0 (Some (RNum (JS.of_Z 7)))))
                        (JS.of_Z 1)))
      with "7.0" by (vm_compute; reflexivity).
    do 2 eexists. reflexivity.
  - intros env m m' s s' s'' Hmovies Hseries Hm Hm' Hs Hs' Hs''.
    unfold run. cbn [app]. rewrite get_api_stats_eq, Hmovies, Hseries.
    set (rated := fun r => Title.mk "" "" "" r "" "" None None).
    rewrite (average_rating_ext [m; m'] [rated (Some (RStr "8.4")); rated None])
      by (cbn [map]; now rewrite Hm, Hm').
    rewrite (average_rating_ext [s; s'; s'']
               [rated (Some (RStr "7.5")); rated (Some (RNum (JS.of_Z 8)));
                rated None])
      by (cbn [map]; now rewrite Hs, Hs', Hs'').
    replace (average_rating [rated (Some (RStr "8.4")); rated None])
      with "4.2" by (vm_compute; reflexivity).
    replace (average_rating
               [rated (Some (RStr "7.5")); rated (Some (RNum (JS.of_Z 8)));
                rated None])
      with "5.2" by (vm_compute; reflexivity).
    do 2 eexists. reflexivity.
  - intros s Hs. destruct s; [contradiction|reflexivity].
Qed.

Lemma stats_average_rating_witness :
  collection Sample.rated_env "movies.json" = [Sample.alpha_movie]
  /\ collection Sample.rated_env "series.json" = [Sample.alpha_show]
  /\ Title.rating Sample.alpha_movie = Some (RNum (JS.of_Z 9))
  /\ Title.rating Sample.alpha_show = Some (RNum (JS.of_Z 7))
  /\ exists totalEpisodes genres,
      run (app GET_stats) Sample.rated_env
      = (Returned
           (json 200 true
              (Stats 1 1 totalEpisodes (List.length genres) genres "9.0" "7.0")),
         ["movies.json"; "series.json"]).
Proof.
  repeat (split; [reflexivity|]).
  apply (proj1 (proj2 (proj2 stats_average_rating))
           Sample.rated_env Sample.alpha_movie Sample.alpha_show);
    reflexivity.
Defined.

(** The statistics of the sample with one movie rated 9 and one series
    rated 7. *)
Example stats_of_rated_sample :
  run (app GET_stats) Sample.rated_env
  = (Returned (json 200 true
                 (Stats 1 1 2 2 ["Adventure"; "Drama"] "9.0" "7.0")),
     ["movies.json"; "series.json"]).
Proof. vm_compute. reflexivity. Qed.

(** The statistics when neither file can be used. *)
Example stats_of_broken_sample :
  run (app GET_stats) Sample.broken_env
  = (Returned (json 200 true (Stats 0 0 0 0 [] "NaN" "NaN")),
     ["movies.json"; "series.json"]).
Proof. vm_compute. reflexivity. Qed.

(** ** The handlers at work on the sample *)

Example movies_matching_war :
  run (app (GET_movies (Some "WAR") (Some "all") (Some "5") None)) Sample.env
  = (Returned (json 200 true (Page [Sample.incendies] 1 (Some 5) (Some 0) false)),
     ["movies.json"]).
Proof. vm_compute. reflexivity. Qed.

Example search_second_page :
  run (app (GET_search (Some "a") None None (Some "2") (Some "2"))) Sample.env
  = (Returned
       (json 200 true
          (SearchPage [tagged Sample.alpha_show "series";
                       tagged Sample.beta_show "series"]
             5 (Some 2) (Some 2) true "a")),
     ["movies.json"; "series.json"]).
Proof. vm_compute. reflexivity. Qed.

Example iframe_secondary_of_incendies :
  run (app (GET_iframe (Some "incendies") (Some "secondary") None None)) Sample.env
  = (Returned
       (json 200 true
          (Iframe "Incendies" "movie" None None None
             (Some "https://mirror.example/incendies") ["source1"; "source2"])),
     ["movies.json"]).
Proof. vm_compute. reflexivity. Qed.

Example trending_of_three :
  run (app (GET_trending (Some "all") (Some "3"))) Sample.env
  = (Returned
       (json 200 true
          (Trending [tagged Sample.alpha_show "series";
                     tagged Sample.alpha_movie "movie"])),
     ["movies.json"; "series.json"]).
Proof. vm_compute. reflexivity. Qed.

Example genres_of_sample :
  run (app GET_genres) Sample.env
  = (Returned
       (json 200 true
          (Genres ["Adventure"; "Comedy"; "Drama"; "Sci-Fi"; "War"])),
     ["movies.json"; "series.json"]).
Proof. vm_compute. reflexivity. Qed.

Example toFixed1_rounds_half_up :
  JS.toFixed1 (JS.parseFloat "8.25") = "8.3"
  /\ JS.toFixed1 (JS.parseFloat "8.35") = "8.3"
  /\ JS.toFixed1 (JS.parseFloat "-0.01") = "-0.0"
  /\ JS.toFixed1 (JS.parseFloat "1e21") = "1e+21".
Proof. repeat split; vm_compute; reflexivity. Qed.

(** No genre of the sample contains [all]: the literal ['all'] lists every
    movie, while ['All'], which is not the literal, filters them out. *)
Example genre_all_is_case_sensitive :
  run (app (GET_movies None (Some "all") None None)) Sample.env
  = (Returned
       (json 200 true
          (Page [Sample.incendies; Sample.alpha_movie] 2 (Some 20) (Some 0) false)),
     ["movies.json"])
  /\ run (app (GET_movies None (Some "All") None None)) Sample.env
     = (Returned (json 200 true (Page [] 0 (Some 20) (Some 0) false)),
        ["movies.json"]).
Proof. split; vm_compute; reflexivity. Qed.

(** ** Further properties of the routes *)

(** *** Lookup by name *)

Lemma find_first_match {A : Type} (p : A -> bool) (before : list A) (x : A)
  (rest : list A) :
  (forall y, In y before -> p y = false) -> p x = true ->
  find p (before ++ x :: rest) = Some x.
Proof.
  intros Hbefore Hx. induction before as [|y before IH]; cbn.
  - now rewrite Hx.
  - rewrite (Hbefore y) by now left.
    apply IH. intros z Hz. apply Hbefore. now right.
Qed.

Lemma find_not_found {A : Type} (p : A -> bool) (l : list A) :
  (forall y, In y l -> p y = false) -> find p l = None.
Proof.
  intros H. induction l as [|y l IH]; cbn; [reflexivity|].
  rewrite (H y) by now left. apply IH. intros z Hz. apply H. now right.
Qed.

Lemma same_name_fold (name name' : string) (m : Title.t) :
  JS.toLowerCase name = JS.toLowerCase name' ->
  same_name name m = same_name name' m.
Proof. intros H. unfold same_name. now rewrite H. Qed.

Lemma find_same_name_fold (name name' : string) (l : list Title.t) :
  JS.toLowerCase name = JS.toLowerCase name' ->
  find (same_name name) l = find (same_name name') l.
Proof.
  intros H. induction l as [|m l IH]; cbn; [reflexivity|].
  now rewrite (same_name_fold name name' m H), IH.
Qed.

(** X1: [GET /api/movies/:name] and [GET /api/series/:name] answer with
    the first stored record whose name, put in lower case, is the
    parameter put in lower case, with the 404 envelope when no record is
    such, and alike for two parameters that have the same lower case;
    each reads its own file, once.  Lower case is that of
    [toLowerCase], which folds the capitals beyond ASCII as well: a
    capital E with acute accent has the lower case of the small one,
    while the multiplication sign is left as it is. *)
Theorem lookup_by_name_is_first_match_up_to_case
  (env : Env) (route : string -> Request) (filename missing : string) :
  In (route, filename, missing) lookups ->
  (forall name before movie rest,
      collection env filename = (before ++ movie :: rest)%list ->
      (forall m, In m before ->
                 JS.toLowerCase (Title.name m) <> JS.toLowerCase name) ->
      JS.toLowerCase (Title.name movie) = JS.toLowerCase name ->
      run (app (route name)) env
      = (Returned (json 200 true (One movie)), [filename]))
  /\ (forall name,
         (forall m, In m (collection env filename) ->
                    JS.toLowerCase (Title.name m) <> JS.toLowerCase name) ->
         run (app (route name)) env
         = (Returned (json 404 false (Failure missing None)), [filename]))
  /\ (forall name name',
         JS.toLowerCase name = JS.toLowerCase name' ->
         run (app (route name)) env = run (app (route name')) env)
  /\ JS.toLowerCase (String (ascii_of_nat 201) "clat")
     = String (ascii_of_nat 233) "clat"
  /\ JS.toLowerCase (String (ascii_of_nat 233) "clat")
     = String (ascii_of_nat 233) "clat"
  /\ JS.toLowerCase (String (ascii_of_nat 215) "")
     = String (ascii_of_nat 215) "".
Proof.
  intros Hroute.
  assert (Heq : forall name,
    run (app (route name)) env
    = (Returned
         match find (same_name name) (collection env filename) with
         | None => json 404 false (Failure missing None)
         | Some movie => json 200 true (One movie)
         end, [filename])).
  { intros name. unfold run.
    destruct Hroute as [H|[H|[]]]; inversion H; subst; cbn [app];
      [unfold get_api_movies_name|unfold get_api_series_name];
      now rewrite one_title_eq. }
  split; [|split; [|split; [|repeat split]]].
  - intros name before movie rest Hfile Hbefore Hmovie.
    rewrite Heq, Hfile, find_first_match; [reflexivity| |].
    + intros m Hm. unfold same_name. apply String.eqb_neq. now apply Hbefore.
    + unfold same_name. now apply String.eqb_eq.
  - intros name Hnone. rewrite Heq, find_not_found; [reflexivity|].
    intros m Hm. unfold same_name. apply String.eqb_neq. now apply Hnone.
  - intros name name' Hfold.
    now rewrite !Heq, (find_same_name_fold name name' _ Hfold).
Qed.

Lemma lookup_by_name_is_first_match_up_to_case_witness :
  In (GET_series_name, "series.json", "Series not found") lookups
  /\ JS.toLowerCase "BETA" = JS.toLowerCase "beta"
  /\ run (app (GET_series_name "BETA")) Sample.env
     = run (app (GET_series_name "beta")) Sample.env.
Proof.
  split; [right; left; reflexivity|]. split; [reflexivity|].
  apply (lookup_by_name_is_first_match_up_to_case
           Sample.env GET_series_name "series.json" "Series not found");
    [right; left; reflexivity|reflexivity].
Defined.

(** *** The episodes of a series *)

Lemma filter_and {A : Type} (p q : A -> bool) (l : list A) :
  filter p (filter q l) = filter (fun x => (q x && p x)%bool) l.
Proof.
  induction l as [|x l IH]; cbn; [reflexivity|].
  destruct (q x); cbn; [destruct (p x)|]; now rewrite IH.
Qed.

Lemma filter_none {A : Type} (p : A -> bool) (l : list A) :
  (forall x, p x = false) -> filter p l = [].
Proof.
  intros H. induction l as [|x l IH]; cbn; [reflexivity|]. now rewrite H.
Qed.

Lemma filter_all {A : Type} (l : list A) : filter (fun _ => true) l = l.
Proof. induction l as [|x l IH]; cbn; [reflexivity|now rewrite IH]. Qed.

(** X2: for a stored series, [GET /api/series/:name/episodes] lists, in
    stored order, exactly the stored episodes whose season equals the
    parsed [season] when one is given and whose number equals the parsed
    [episode] when one is given (all of them when neither is given, none
    for a series without episode list); a given parameter that is not a
    number yields the empty list, with status 200; and a name no series
    has yields the 404 envelope. *)
Theorem episodes_are_filtered_by_season_and_number
  (env : Env) (name : string) (season episode : option string) :
  (forall show,
      find (same_name name) (collection env "series.json") = Some show ->
      exists episodes,
        run (app (GET_series_name_episodes name season episode)) env
        = (Returned
             (json 200 true
                (Episodes episodes
                   (SeriesInfo.mk (Title.name show) (Title.description show)
                      (Title.genre show) (Title.rating show)
                      (Title.releaseDate show) (Title.image show)))),
           ["series.json"])
        /\ episodes
           = filter (fun ep =>
                       (negb (JS.truthy season)
                        || JS.strict_eq (Episode.season ep) (parseInt_param season))
                       && (negb (JS.truthy episode)
                           || JS.strict_eq (Episode.episode ep)
                                (parseInt_param episode)))%bool
                    (stored_episodes show)
        /\ (forall ep,
               In ep episodes <->
               In ep (stored_episodes show)
               /\ (JS.truthy season = true ->
                   parseInt_param season = Some (Episode.season ep))
               /\ (JS.truthy episode = true ->
                   parseInt_param episode = Some (Episode.episode ep)))
        /\ (JS.truthy season = false -> JS.truthy episode = false ->
            episodes = stored_episodes show)
        /\ ((JS.truthy season = true /\ parseInt_param season = None)
            \/ (JS.truthy episode = true /\ parseInt_param episode = None) ->
            episodes = []))
  /\ (find (same_name name) (collection env "series.json") = None ->
      run (app (GET_series_name_episodes name season episode)) env
      = (Returned (json 404 false (Failure "Series not found" None)),
         ["series.json"])).
Proof.
  unfold run. cbn [app]. rewrite get_api_series_name_episodes_eq.
  split; [|intros H; now rewrite H].
  intros show Hshow. rewrite Hshow. cbv zeta. fold (stored_episodes show).
  set (keep := fun ep =>
         ((negb (JS.truthy season)
           || JS.strict_eq (Episode.season ep) (parseInt_param season))
          && (negb (JS.truthy episode)
              || JS.strict_eq (Episode.episode ep) (parseInt_param episode)))%bool).
  assert (Hstrict : forall a p, JS.strict_eq a p = true <-> p = Some a).
  { intros a [y|]; cbn; [|split; discriminate].
    rewrite Z.eqb_eq. split; [now intros ->|now intros [= ->]]. }
  assert (Hlist :
    (if JS.truthy episode
     then filter (fun ep => JS.strict_eq (Episode.episode ep)
                              (parseInt_param episode))
                 (if JS.truthy season
                  then filter (fun ep => JS.strict_eq (Episode.season ep)
                                           (parseInt_param season))
                              (stored_episodes show)
                  else stored_episodes show)
     else (if JS.truthy season
           then filter (fun ep => JS.strict_eq (Episode.season ep)
                                    (parseInt_param season))
                       (stored_episodes show)
           else stored_episodes show))
    = filter keep (stored_episodes show)).
  { subst keep.
    destruct (JS.truthy season), (JS.truthy episode); cbn [negb orb andb].
    - rewrite filter_and. apply filter_ext. intros ep. reflexivity.
    - apply filter_ext. intros ep. now rewrite andb_true_r.
    - apply filter_ext. intros ep. reflexivity.
    - symmetry. apply filter_all. }
  exists (filter keep (stored_episodes show)).
  split; [now rewrite Hlist|].
  split; [reflexivity|]. split; [|split].
  - intros ep. rewrite filter_In. subst keep. cbn beta.
    rewrite andb_true_iff, !orb_true_iff, !negb_true_iff, !Hstrict.
    split.
    + intros (Hin & Hs & He). repeat split; try assumption.
      * intros Ht. destruct Hs as [Hs|Hs]; [congruence|assumption].
      * intros Ht. destruct He as [He|He]; [congruence|assumption].
    + intros (Hin & Hs & He). repeat split; try assumption.
      * destruct (JS.truthy season); [right; now apply Hs|now left].
      * destruct (JS.truthy episode); [right; now apply He|now left].
  - intros Hs He. subst keep. rewrite Hs, He. cbn. apply filter_all.
  - intros Hnan. subst keep. apply filter_none. intros ep.
    destruct Hnan as [[Ht Hp]|[Ht Hp]]; rewrite Ht, Hp; cbn;
      [reflexivity|apply andb_false_r].
Qed.

Lemma episodes_are_filtered_by_season_and_number_witness :
  find (same_name "gamma") (collection Sample.env "series.json")
  = Some Sample.gamma_show
  /\ exists episodes,
      run (app (GET_series_name_episodes "gamma" (Some "1") (Some "x"))) Sample.env
      = (Returned
           (json 200 true
              (Episodes episodes
                 (SeriesInfo.mk "Gamma" "Rays of a distant star" "Sci-Fi, Drama"
                    (Some (RStr "6.5")) "2022" "gamma.jpg"))),
         ["series.json"])
      /\ episodes = [].
Proof.
  split; [reflexivity|].
  destruct (proj1 (episodes_are_filtered_by_season_and_number
                     Sample.env "gamma" (Some "1") (Some "x"))
                  Sample.gamma_show eq_refl)
    as (episodes & Hrun & _ & _ & _ & Hnan).
  exists episodes. split; [exact Hrun|].
  apply Hnan. right. split; reflexivity.
Defined.

(** *** Every route answers *)

(** The guarded series branch always returns a coherent answer. *)
Lemma iframe_series_returns env title source season episode log :
  exists r,
    try_catch (iframe_series title source season episode) iframe_failed env log
    = (Returned r, (log ++ ["series.json"])%list)
    /\ coherent r.
Proof.
  assert (Hcoh200 : forall b, coherent (json 200 true b))
    by (intros b; split; reflexivity).
  assert (Hcoh : forall st b, st <> 200 -> coherent (json st false b)).
  { intros st b Hst. split; cbn; [discriminate|contradiction]. }
  unfold try_catch. rewrite iframe_series_eq.
  destruct (find (same_name title) (collection env "series.json")) as [show|].
  2: { eexists. split; [reflexivity|]. apply Hcoh. discriminate. }
  assert (Hfirst : exists r,
    (let (o, log') :=
       iframe_first_episode show source env (log ++ ["series.json"])%list in
     match o with
     | Returned a => (Returned a, log')
     | Thrown e => iframe_failed e env log'
     end) = (Returned r, (log ++ ["series.json"])%list) /\ coherent r).
  { unfold iframe_first_episode, content_not_found, iframe_failed, ret, throw.
    destruct (Title.episodes show) as [[|firstEp rest]|].
    - eexists. split; [reflexivity|]. apply Hcoh. discriminate.
    - destruct (Episode.sources firstEp); eexists; (split; [reflexivity|]);
        [apply Hcoh200|apply Hcoh; discriminate].
    - eexists. split; [reflexivity|]. apply Hcoh. discriminate. }
  destruct (if (JS.truthy season && JS.truthy episode)%bool
            then find_episode show season episode else None) as [ep|];
    [|exact Hfirst].
  destruct (Episode.sources ep); [|exact Hfirst].
  eexists. split; [reflexivity|]. apply Hcoh200.
Qed.

(** X3: whatever the request and the state of the data files, the route
    returns an envelope and never lets an exception escape; the envelope's
    [success] is true exactly when its status is 200; and the route reads
    nothing but [movies.json] and [series.json], each at most once and in
    this order. *)
Theorem every_route_answers_coherently (req : Request) (env : Env) :
  exists r log,
    run (app req) env = (Returned r, log)
    /\ coherent r
    /\ (log = [] \/ log = ["movies.json"] \/ log = ["series.json"]
        \/ log = ["movies.json"; "series.json"]).
Proof.
  assert (Hcoh200 : forall b, coherent (json 200 true b))
    by (intros b; split; reflexivity).
  assert (Hcoh : forall st b, st <> 200 -> coherent (json st false b)).
  { intros st b Hst. split; cbn; [discriminate|contradiction]. }
  assert (Hfiles : forall type,
    files_for type = [] \/ files_for type = ["movies.json"]
    \/ files_for type = ["series.json"]
    \/ files_for type = ["movies.json"; "series.json"]).
  { intros type. unfold files_for.
    destruct (selects type "movie"), (selects type "series"); cbn; tauto. }
  unfold run. destruct req; cbn [app].
  - unfold get_api_movies. rewrite list_titles_eq.
    do 2 eexists. split; [reflexivity|]. split; [apply Hcoh200|tauto].
  - unfold get_api_movies_name. rewrite one_title_eq.
    do 2 eexists. split; [reflexivity|]. split; [|tauto].
    destruct (find _ _); [apply Hcoh200|apply Hcoh; discriminate].
  - unfold get_api_series. rewrite list_titles_eq.
    do 2 eexists. split; [reflexivity|]. split; [apply Hcoh200|tauto].
  - unfold get_api_series_name. rewrite one_title_eq.
    do 2 eexists. split; [reflexivity|]. split; [|tauto].
    destruct (find _ _); [apply Hcoh200|apply Hcoh; discriminate].
  - rewrite get_api_series_name_episodes_eq.
    do 2 eexists. split; [reflexivity|]. split; [|tauto].
    destruct (find _ _); [apply Hcoh200|apply Hcoh; discriminate].
  - destruct (JS.truthy q) eqn:Hq.
    + destruct q as [qs|]; [|discriminate].
      rewrite get_api_search_eq by assumption.
      do 2 eexists. split; [reflexivity|]. split; [apply Hcoh200|apply Hfiles].
    + rewrite get_api_search_missing by assumption.
      do 2 eexists. split; [reflexivity|]. split; [|tauto].
      apply Hcoh. discriminate.
  - destruct title as [t|].
    2: { do 2 eexists. split; [reflexivity|]. split; [|tauto].
         apply Hcoh. discriminate. }
    destruct (JS.truthy (Some t)) eqn:Ht.
    2: { unfold get_api_iframe. rewrite Ht.
         do 2 eexists. split; [reflexivity|]. split; [|tauto].
         apply Hcoh. discriminate. }
    rewrite get_api_iframe_eq by assumption.
    destruct (iframe_series_returns env t (or_primary source) season episode
                ([] ++ ["movies.json"])%list) as (r & Hr & Hcr).
    destruct (find (same_name t) (collection env "movies.json")) as [movie|].
    + destruct (Title.sources movie).
      * do 2 eexists. split; [reflexivity|]. split; [apply Hcoh200|tauto].
      * exists r. eexists. split; [exact Hr|]. split; [exact Hcr|]. cbn. tauto.
    + exists r. eexists. split; [exact Hr|]. split; [exact Hcr|]. cbn. tauto.
  - rewrite get_api_trending_gen.
    do 2 eexists. split; [reflexivity|]. split; [apply Hcoh200|apply Hfiles].
  - rewrite get_api_stats_eq.
    do 2 eexists. split; [reflexivity|]. split; [apply Hcoh200|tauto].
  - rewrite get_api_genres_eq.
    do 2 eexists. split; [reflexivity|]. split; [apply Hcoh200|tauto].
  - do 2 eexists. split; [reflexivity|]. split; [apply Hcoh200|tauto].
  - do 2 eexists. split; [reflexivity|]. split; [|tauto].
    apply Hcoh. discriminate.
Qed.

(** *** The universal search *)

Lemma in_firstn {A : Type} (n : nat) (l : list A) (x : A) :
  In x (firstn n l) -> In x l.
Proof.
  intros H. rewrite <- (firstn_skipn n l). apply in_or_app. now left.
Qed.

Lemma in_skipn {A : Type} (n : nat) (l : list A) (x : A) :
  In x (skipn n l) -> In x l.
Proof.
  intros H. rewrite <- (firstn_skipn n l). apply in_or_app. now right.
Qed.

Lemma subsequence_refl {A : Type} (l : list A) : subsequence l l.
Proof. induction l; constructor; assumption. Qed.

Lemma subsequence_empty {A : Type} (l : list A) : subsequence [] l.
Proof. induction l; constructor; assumption. Qed.

Lemma subsequence_trans {A : Type} (l1 l2 l3 : list A) :
  subsequence l1 l2 -> subsequence l2 l3 -> subsequence l1 l3.
Proof.
  intros H12 H23. revert l1 H12.
  induction H23 as [|x l2 l3 H23 IH|x l2 l3 H23 IH]; intros l1 H12.
  - exact H12.
  - constructor. now apply IH.
  - inversion H12; subst; constructor; now apply IH.
Qed.

Lemma subsequence_filter {A : Type} (p : A -> bool) (l : list A) :
  subsequence (filter p l) l.
Proof.
  induction l as [|x l IH]; cbn; [constructor|].
  destruct (p x); constructor; assumption.
Qed.

Lemma subsequence_firstn {A : Type} (n : nat) (l : list A) :
  subsequence (firstn n l) l.
Proof.
  revert n. induction l as [|x l IH]; intros [|n]; cbn;
    try constructor; solve [apply subsequence_empty | apply IH].
Qed.

Lemma subsequence_skipn {A : Type} (n : nat) (l : list A) :
  subsequence (skipn n l) l.
Proof.
  revert n. induction l as [|x l IH]; intros [|n]; cbn.
  - constructor.
  - constructor.
  - apply subsequence_refl.
  - constructor. apply IH.
Qed.

Lemma subsequence_genre_filter (genre : option string) (movies : list Title.t) :
  subsequence (genre_filter (fun m => m) genre movies) movies.
Proof.
  unfold genre_filter. destruct genre as [g|]; [|apply subsequence_refl].
  destruct (JS.truthy (Some g) && negb (g =? "all")%string)%bool;
    [apply subsequence_filter|apply subsequence_refl].
Qed.

Lemma slice_incl {A : Type} (l : list A) (start end_ : option Z) (x : A) :
  In x (JS.slice l start end_) -> In x l.
Proof.
  unfold JS.slice. intros H.
  apply in_firstn in H. now apply in_skipn in H.
Qed.

(** A slice of two lists put together is a slice of the first followed by
    a slice of the second. *)
Lemma slice_app {A : Type} (l1 l2 : list A) (start end_ : option Z) :
  exists n1 k1 n2 k2,
    JS.slice (l1 ++ l2)%list start end_
    = (firstn n1 (skipn k1 l1) ++ firstn n2 (skipn k2 l2))%list.
Proof.
  unfold JS.slice. rewrite skipn_app, firstn_app. now do 4 eexists.
Qed.

Lemma genre_filter_tagged (genre : option string) (kind : string)
  (movies : list Title.t) :
  genre_filter record genre (map (fun movie => tagged movie kind) movies)
  = map (fun movie => tagged movie kind) (genre_filter (fun m => m) genre movies).
Proof.
  unfold genre_filter. destruct genre as [g|]; [|reflexivity].
  destruct (JS.truthy (Some g) && negb (g =? "all")%string)%bool; [|reflexivity].
  induction movies as [|m movies IH]; cbn; [reflexivity|].
  destruct (matches_genre g m); cbn; now rewrite IH.
Qed.

Lemma genre_filter_app {A : Type} (title_of : A -> Title.t)
  (genre : option string) (l1 l2 : list A) :
  genre_filter title_of genre (l1 ++ l2)%list
  = (genre_filter title_of genre l1 ++ genre_filter title_of genre l2)%list.
Proof.
  unfold genre_filter. destruct genre as [g|]; [|reflexivity].
  destruct (JS.truthy (Some g) && negb (g =? "all")%string)%bool; [|reflexivity].
  apply filter_app.
Qed.

Lemma genre_filter_In (genre : option string) (movies : list Title.t)
  (m : Title.t) :
  In m (genre_filter (fun m => m) genre movies) <->
  In m movies
  /\ (forall g, genre = Some g -> genre_active genre = true ->
                matches_genre g m = true).
Proof.
  unfold genre_filter, genre_active. destruct genre as [g|].
  - destruct (JS.truthy (Some g) && negb (g =? "all")%string)%bool.
    + rewrite filter_In. split.
      * intros [Hin Hm]. split; [assumption|]. now intros g' [= <-] _.
      * intros [Hin Hm]. split; [assumption|]. now apply Hm.
    + split; [|tauto]. intros Hin. split; [assumption|]. discriminate.
  - split; [|tauto]. intros Hin. split; [assumption|]. discriminate.
Qed.

Lemma search_filter_In (search : option string) (movies : list Title.t)
  (m : Title.t) :
  In m (search_filter search movies) <->
  In m movies
  /\ (forall s, search = Some s -> JS.truthy search = true ->
                matches_search (JS.toLowerCase s) m = true).
Proof.
  unfold search_filter. destruct search as [s|].
  - destruct (JS.truthy (Some s)).
    + rewrite filter_In. split.
      * intros [Hin Hm]. split; [assumption|]. now intros s' [= <-] _.
      * intros [Hin Hm]. split; [assumption|]. now apply Hm.
    + split; [|tauto]. intros Hin. split; [assumption|]. discriminate.
  - split; [|tauto]. intros Hin. split; [assumption|]. discriminate.
Qed.

(** The filtered results of the universal search, collection by
    collection. *)
Lemma filtered_results_eq env q type genre :
  filtered_results env q type genre
  = (map (fun movie => tagged movie "movie")
         (if selects type "movie"
          then genre_filter (fun m => m) genre
                 (filter (matches_search (JS.toLowerCase q))
                         (collection env "movies.json"))
          else [])
     ++ map (fun movie => tagged movie "series")
          (if selects type "series"
           then genre_filter (fun m => m) genre
                  (filter (matches_search (JS.toLowerCase q))
                          (collection env "series.json"))
           else []))%list.
Proof.
  unfold filtered_results, search_matches. rewrite genre_filter_app.
  assert (Hnil : genre_filter record genre [] = []).
  { unfold genre_filter. destruct genre as [g|]; [|reflexivity].
    now destruct (JS.truthy (Some g) && negb (g =? "all")%string)%bool. }
  destruct (selects type "movie"), (selects type "series");
    rewrite ?genre_filter_tagged, ?Hnil; reflexivity.
Qed.

(** The shape of a page of the universal search. *)
Lemma search_page_shape
  (env : Env) (q : string) (type genre limit offset : option string) :
  JS.truthy (Some q) = true ->
  exists movies series total hasMore,
    run (app (GET_search (Some q) type genre limit offset)) env
    = (Returned
         (json 200 true
            (SearchPage
               (map (fun m => tagged m "movie") movies
                ++ map (fun m => tagged m "series") series)%list
               total (JS.parseInt_default 20 limit) (JS.parseInt_default 0 offset)
               hasMore q)),
       files_for type)
    /\ (forall kind filename items,
           In (kind, filename, items)
              [("movie", "movies.json", movies); ("series", "series.json", series)] ->
           forall m,
             In m items ->
             selects type kind = true
             /\ In m (collection env filename)
             /\ matches_search (JS.toLowerCase q) m = true
             /\ (forall g, genre = Some g -> genre_active genre = true ->
                           matches_genre g m = true))
    /\ subsequence movies (collection env "movies.json")
    /\ subsequence series (collection env "series.json").
Proof.
  intros Hq. unfold run. cbn [app]. rewrite get_api_search_eq by assumption.
  rewrite filtered_results_eq.
  set (ms := if selects type "movie" then _ else _).
  set (ss := if selects type "series" then _ else _).
  destruct (slice_app (map (fun m => tagged m "movie") ms)
                      (map (fun m => tagged m "series") ss)
                      (JS.parseInt_default 0 offset)
                      (JS.add (JS.parseInt_default 0 offset)
                              (JS.parseInt_default 20 limit)))
    as (n1 & k1 & n2 & k2 & Hslice).
  rewrite Hslice, !skipn_map, !firstn_map.
  exists (firstn n1 (skipn k1 ms)), (firstn n2 (skipn k2 ss)).
  do 2 eexists. split; [reflexivity|].
  assert (Hsound : forall kind filename items n k,
    items = (if selects type kind
             then genre_filter (fun m => m) genre
                    (filter (matches_search (JS.toLowerCase q))
                            (collection env filename))
             else []) ->
    forall m, In m (firstn n (skipn k items)) ->
      selects type kind = true
      /\ In m (collection env filename)
      /\ matches_search (JS.toLowerCase q) m = true
      /\ (forall g, genre = Some g -> genre_active genre = true ->
                    matches_genre g m = true)).
  { intros kind filename items n k Hitems m Hin.
    apply in_firstn, in_skipn in Hin. subst items.
    destruct (selects type kind); [|contradiction].
    apply genre_filter_In in Hin. destruct Hin as [Hin Hgenre].
    apply filter_In in Hin. destruct Hin as [Hin Hsearch].
    now repeat split. }
  assert (Horder : forall kind filename n k,
    subsequence
      (firstn n (skipn k
         (if selects type kind
          then genre_filter (fun m => m) genre
                 (filter (matches_search (JS.toLowerCase q))
                         (collection env filename))
          else [])))
      (collection env filename)).
  { intros kind filename n k.
    eapply subsequence_trans; [apply subsequence_firstn|].
    eapply subsequence_trans; [apply subsequence_skipn|].
    destruct (selects type kind); [|apply subsequence_empty].
    eapply subsequence_trans;
      [apply subsequence_genre_filter|apply subsequence_filter]. }
  split; [|split; apply Horder].
  intros kind filename items [H|[H|[]]] m Hin; inversion H; subst;
    eapply Hsound; try eassumption; reflexivity.
Qed.

(** X4: every item of a page of [GET /api/search] is a stored record of
    the collection its tag names, selected by [type], whose name,
    description or genre contains the query up to case, and whose genre
    contains the genre term when the genre filter is active; the items
    tagged [movie] come before the items tagged [series], each group in
    stored order (it is its file with records left out); and the files
    read are those [type] selects. *)
Theorem search_page_is_sound_and_movies_first
  (env : Env) (q : string) (type genre limit offset : option string) :
  JS.truthy (Some q) = true ->
  exists movies series total hasMore,
    run (app (GET_search (Some q) type genre limit offset)) env
    = (Returned
         (json 200 true
            (SearchPage
               (map (fun m => tagged m "movie") movies
                ++ map (fun m => tagged m "series") series)%list
               total (JS.parseInt_default 20 limit) (JS.parseInt_default 0 offset)
               hasMore q)),
       files_for type)
    /\ (forall kind filename items,
           In (kind, filename, items)
              [("movie", "movies.json", movies); ("series", "series.json", series)] ->
           forall m,
             In m items ->
             selects type kind = true
             /\ In m (collection env filename)
             /\ matches_search (JS.toLowerCase q) m = true
             /\ (forall g, genre = Some g -> genre_active genre = true ->
                           matches_genre g m = true))
    /\ subsequence movies (collection env "movies.json")
    /\ subsequence series (collection env "series.json").
Proof.
  intros Hq.
  destruct (search_page_shape env q type genre limit offset Hq)
    as (movies & series & total & hasMore & Hrun & Hsound & Horder).
  exists movies, series, total, hasMore.
  split; [exact Hrun|]. split; [exact Hsound|exact Horder].
Qed.

Lemma search_page_is_sound_and_movies_first_witness :
  JS.truthy (Some "a") = true
  /\ exists movies series total hasMore,
      run (app (GET_search (Some "a") (Some "series") None None None)) Sample.env
      = (Returned
           (json 200 true
              (SearchPage
                 (map (fun m => tagged m "movie") movies
                  ++ map (fun m => tagged m "series") series)%list
                 total (Some 20) (Some 0) hasMore "a")),
         ["series.json"]).
Proof.
  split; [reflexivity|].
  destruct (search_page_is_sound_and_movies_first
              Sample.env "a" (Some "series") None None None eq_refl)
    as (movies & series & total & hasMore & Hrun & _).
  exists movies, series, total, hasMore. exact Hrun.
Defined.

Lemma selects_other (t kind : string) :
  t <> "" -> t <> kind -> t <> "all" -> selects (Some t) kind = false.
Proof.
  intros H0 Hk Hall. unfold selects, JS.truthy.
  apply String.eqb_neq in H0, Hk, Hall. now rewrite H0, Hk, Hall.
Qed.

(** X5: the [type] parameter of [GET /api/search] selects the files that
    are read: both when it is absent, empty or ['all']; [movies.json]
    alone for ['movie'], and then every item is tagged [movie];
    [series.json] alone for ['series'], and then every item is tagged
    [series]; and no file at all for any other value, which is answered
    with status 200 and an empty result. *)
Theorem search_type_selects_the_files
  (env : Env) (q : string) (type genre limit offset : option string) :
  JS.truthy (Some q) = true ->
  exists items total hasMore,
    run (app (GET_search (Some q) type genre limit offset)) env
    = (Returned
         (json 200 true
            (SearchPage items total (JS.parseInt_default 20 limit)
               (JS.parseInt_default 0 offset) hasMore q)),
       files_for type)
    /\ (type = None \/ type = Some "" \/ type = Some "all" ->
        files_for type = ["movies.json"; "series.json"])
    /\ (forall kind filename,
           In (kind, filename) kinds -> type = Some kind ->
           files_for type = [filename]
           /\ forall item, In item items -> exists m, item = tagged m kind)
    /\ (forall t,
           type = Some t ->
           t <> "" -> t <> "movie" -> t <> "series" -> t <> "all" ->
           files_for type = [] /\ items = [] /\ total = 0%nat).
Proof.
  intros Hq.
  destruct (search_page_shape env q type genre limit offset Hq)
    as (movies & series & total & hasMore & Hrun & Hsound & _).
  exists (map (fun m => tagged m "movie") movies
          ++ map (fun m => tagged m "series") series)%list, total, hasMore.
  split; [exact Hrun|]. split; [|split].
  - intros [->|[->| ->]]; reflexivity.
  - intros kind filename [H|[H|[]]] ->; inversion H; subst.
    + split; [reflexivity|]. intros item Hin.
      apply in_app_or in Hin. destruct Hin as [Hin|Hin];
        apply in_map_iff in Hin; destruct Hin as (m & <- & Hm); [now exists m|].
      destruct (Hsound "series" "series.json" series
                       (or_intror (or_introl eq_refl)) m Hm) as [Hsel _].
      discriminate.
    + split; [reflexivity|]. intros item Hin.
      apply in_app_or in Hin. destruct Hin as [Hin|Hin];
        apply in_map_iff in Hin; destruct Hin as (m & <- & Hm); [|now exists m].
      destruct (Hsound "movie" "movies.json" movies (or_introl eq_refl) m Hm)
        as [Hsel _].
      discriminate.
  - intros t -> H0 Hm Hs Hall.
    assert (Hnone : forall kind filename items,
      In (kind, filename, items)
         [("movie", "movies.json", movies); ("series", "series.json", series)] ->
      items = []).
    { intros kind filename items Hin.
      destruct items as [|m items]; [reflexivity|].
      destruct (Hsound kind filename (m :: items) Hin m (or_introl eq_refl))
        as [Hsel _].
      destruct Hin as [H|[H|[]]]; inversion H; subst;
        rewrite selects_other in Hsel by assumption; discriminate. }
    assert (Hmovies : movies = [])
      by (eapply Hnone; left; reflexivity).
    assert (Hseries : series = [])
      by (eapply Hnone; right; left; reflexivity).
    subst movies series.
    assert (Hfiles : files_for (Some t) = []).
    { unfold files_for. now rewrite !selects_other by assumption. }
    split; [exact Hfiles|]. split; [reflexivity|].
    unfold run in Hrun. cbn [app] in Hrun.
    rewrite get_api_search_eq, filtered_results_eq in Hrun by assumption.
    rewrite !selects_other in Hrun by assumption.
    cbn [map List.app List.length] in Hrun.
    now inversion Hrun.
Qed.

Lemma search_type_selects_the_files_witness :
  JS.truthy (Some "a") = true
  /\ exists items total hasMore,
      run (app (GET_search (Some "a") (Some "film") None None None)) Sample.env
      = (Returned
           (json 200 true (SearchPage items total (Some 20) (Some 0) hasMore "a")),
         [])
      /\ items = [] /\ total = 0%nat.
Proof.
  split; [reflexivity|].
  destruct (search_type_selects_the_files
              Sample.env "a" (Some "film") None None None eq_refl)
    as (items & total & hasMore & Hrun & _ & _ & Hother).
  destruct (Hother "film" eq_refl) as (Hfiles & Hitems & Htotal);
    try discriminate.
  exists items, total, hasMore. rewrite Hfiles in Hrun. now repeat split.
Defined.

(** *** The listings *)

Lemma listing_eq env route filename search genre limit offset :
  In (route, filename) listings ->
  run (app (route search genre limit offset)) env
  = (Returned
       (json 200 true
          (Page
             (JS.slice (filtered_titles env filename search genre)
                (JS.parseInt_default 0 offset)
                (JS.add (JS.parseInt_default 0 offset) (JS.parseInt_default 20 limit)))
             (List.length (filtered_titles env filename search genre))
             (JS.parseInt_default 20 limit) (JS.parseInt_default 0 offset)
             (JS.lt (JS.add (JS.parseInt_default 0 offset)
                            (JS.parseInt_default 20 limit))
                    (Z.of_nat (List.length (filtered_titles env filename search genre)))))),
     [filename]).
Proof.
  intros [H|[H|[]]]; inversion H; subst; unfold run; cbn [app];
    [unfold get_api_movies|unfold get_api_series]; now rewrite list_titles_eq.
Qed.

Lemma filtered_titles_In env filename search genre m :
  In m (filtered_titles env filename search genre) <->
  In m (collection env filename) /\ passes search genre m.
Proof.
  unfold filtered_titles, passes.
  rewrite genre_filter_In, search_filter_In. tauto.
Qed.

(** X6: every title on a page of [GET /api/movies] or [GET /api/series]
    is a stored record of the file that passes the search filter and the
    genre filter when they are active, whatever [limit] and [offset] are;
    [total] counts exactly the stored records that pass them; and when no
    filter is active (each parameter absent or empty, or the genre
    ['all']) the filtered collection is the file itself, in stored
    order. *)
Theorem listing_is_sound_and_total_is_exact
  (env : Env) (route : option string -> option string -> option string ->
                       option string -> Request)
  (filename : string) (search genre limit offset : option string) :
  In (route, filename) listings ->
  exists page total hasMore,
    run (app (route search genre limit offset)) env
    = (Returned
         (json 200 true
            (Page page total (JS.parseInt_default 20 limit)
               (JS.parseInt_default 0 offset) hasMore)),
       [filename])
    /\ (forall m, In m page ->
                  In m (collection env filename) /\ passes search genre m)
    /\ (exists passing,
           total = List.length passing
           /\ (forall m, In m passing <->
                         In m (collection env filename) /\ passes search genre m)
           /\ (JS.truthy search = false -> genre_active genre = false ->
               passing = collection env filename))
    /\ (total <= List.length (collection env filename))%nat.
Proof.
  intros Hroute. rewrite (listing_eq env route filename) by assumption.
  do 3 eexists. split; [reflexivity|]. split; [|split].
  - intros m Hin. apply slice_incl in Hin. now apply filtered_titles_In.
  - exists (filtered_titles env filename search genre).
    split; [reflexivity|]. split; [intros m; apply filtered_titles_In|].
    intros Hs Hg. unfold filtered_titles, search_filter, genre_filter.
    unfold genre_active in Hg.
    destruct search as [s|]; [rewrite Hs|];
      (destruct genre as [g|]; [rewrite Hg|]); reflexivity.
  - unfold filtered_titles, search_filter, genre_filter.
    assert (Hle : forall (p : Title.t -> bool) l,
               (List.length (filter p l) <= List.length l)%nat)
      by (intros p l; apply filter_length_le).
    destruct search as [s|]; [destruct (JS.truthy (Some s))|];
      (destruct genre as [g|];
       [destruct (JS.truthy (Some g) && negb (g =? "all")%string)%bool|]);
      try apply Nat.le_refl; try apply Hle;
      eapply Nat.le_trans; apply Hle.
Qed.

Lemma listing_is_sound_and_total_is_exact_witness :
  In (GET_series, "series.json") listings
  /\ exists page total hasMore,
      run (app (GET_series (Some "drama") (Some "sci") (Some "-1") None)) Sample.env
      = (Returned (json 200 true (Page page total (Some (-1)) (Some 0) hasMore)),
         ["series.json"])
      /\ (total <= List.length (collection Sample.env "series.json"))%nat.
Proof.
  split; [right; left; reflexivity|].
  destruct (listing_is_sound_and_total_is_exact
              Sample.env GET_series "series.json"
              (Some "drama") (Some "sci") (Some "-1") None
              (or_intror (or_introl eq_refl)))
    as (page & total & hasMore & Hrun & _ & _ & Hle).
  exists page, total, hasMore. split; [exact Hrun|exact Hle].
Defined.

Lemma filter_none_in {A : Type} (p : A -> bool) (l : list A) :
  (forall x, In x l -> p x = false) -> filter p l = [].
Proof.
  intros H. induction l as [|x l IH]; cbn; [reflexivity|].
  rewrite (H x) by now left. apply IH. intros y Hy. apply H. now right.
Qed.

Lemma truthy_fold (s s' : string) :
  JS.toLowerCase s = JS.toLowerCase s' ->
  JS.truthy (Some s) = JS.truthy (Some s').
Proof. destruct s, s'; cbn; intros H; try reflexivity; discriminate. Qed.

(** X7: the search term, the genre term and the title given to the
    resolver are matched without regard to the case of ASCII letters: two
    requests to a listing whose terms differ in case only (neither genre
    being the literal ['all'], which is compared as it is) get the same
    answer, and so do two requests to [GET /api/iframe] whose titles
    differ in case only. *)
Theorem terms_are_matched_up_to_case
  (env : Env) (s s' g g' t t' : string)
  (limit offset source season episode : option string) :
  JS.toLowerCase s = JS.toLowerCase s' ->
  JS.toLowerCase g = JS.toLowerCase g' ->
  JS.toLowerCase t = JS.toLowerCase t' ->
  g <> "all" -> g' <> "all" ->
  (forall route filename,
      In (route, filename) listings ->
      run (app (route (Some s) (Some g) limit offset)) env
      = run (app (route (Some s') (Some g') limit offset)) env)
  /\ run (app (GET_iframe (Some t) source season episode)) env
     = run (app (GET_iframe (Some t') source season episode)) env.
Proof.
  intros Hs Hg Ht Hall Hall'. split.
  - intros route filename Hroute.
    rewrite !(listing_eq env route filename) by assumption.
    assert (Hsame : filtered_titles env filename (Some s) (Some g)
                    = filtered_titles env filename (Some s') (Some g')).
    { unfold filtered_titles, search_filter, genre_filter.
      rewrite (truthy_fold s s' Hs), (truthy_fold g g' Hg), Hs.
      apply String.eqb_neq in Hall, Hall'. rewrite Hall, Hall'.
      unfold matches_genre. now rewrite Hg. }
    now rewrite Hsame.
  - unfold run. cbn [app].
    destruct (JS.truthy (Some t)) eqn:Htruthy.
    + rewrite !get_api_iframe_eq
        by (try rewrite <- (truthy_fold t t' Ht); assumption).
      rewrite <- (find_same_name_fold t t' _ Ht).
      assert (Hseries : forall log,
        try_catch (iframe_series t (or_primary source) season episode)
                  iframe_failed env log
        = try_catch (iframe_series t' (or_primary source) season episode)
                    iframe_failed env log).
      { intros log. unfold try_catch. rewrite !iframe_series_eq.
        now rewrite <- (find_same_name_fold t t' _ Ht). }
      now rewrite Hseries.
    + unfold get_api_iframe. now rewrite <- (truthy_fold t t' Ht), Htruthy.
Qed.

Lemma terms_are_matched_up_to_case_witness :
  JS.toLowerCase "WAR" = JS.toLowerCase "war"
  /\ JS.toLowerCase "Drama" = JS.toLowerCase "dRAMA"
  /\ JS.toLowerCase "ALPHA" = JS.toLowerCase "alpha"
  /\ "Drama" <> "all" /\ "dRAMA" <> "all"
  /\ run (app (GET_iframe (Some "ALPHA") None (Some "1") (Some "2"))) Sample.env
     = run (app (GET_iframe (Some "alpha") None (Some "1") (Some "2"))) Sample.env.
Proof.
  split; [reflexivity|]. split; [reflexivity|]. split; [reflexivity|].
  split; [discriminate|]. split; [discriminate|].
  apply (terms_are_matched_up_to_case
           Sample.env "WAR" "war" "Drama" "dRAMA" "ALPHA" "alpha"
           None None None (Some "1") (Some "2"));
    solve [reflexivity|discriminate].
Defined.

(** X8: a search term that occurs in no stored name, description or
    genre yields an empty result with [total] 0 and status 200, on the
    two listings and on the universal search; for natural [limit] and
    [offset], [hasMore] is false as well. *)
Theorem search_without_match_is_empty
  (env : Env) (q : string) (type genre limit offset : option string) :
  JS.truthy (Some q) = true ->
  (forall filename m,
      In m (collection env filename) ->
      matches_search (JS.toLowerCase q) m = false) ->
  exists hasMore,
    (forall route filename,
        In (route, filename) listings ->
        run (app (route (Some q) genre limit offset)) env
        = (Returned
             (json 200 true
                (Page [] 0 (JS.parseInt_default 20 limit)
                   (JS.parseInt_default 0 offset) hasMore)),
           [filename]))
    /\ run (app (GET_search (Some q) type genre limit offset)) env
       = (Returned
            (json 200 true
               (SearchPage [] 0 (JS.parseInt_default 20 limit)
                  (JS.parseInt_default 0 offset) hasMore q)),
          files_for type)
    /\ (forall l o,
           JS.parseInt_default 20 limit = Some l ->
           JS.parseInt_default 0 offset = Some o ->
           0 <= l -> 0 <= o -> hasMore = false).
Proof.
  intros Hq Hnone.
  assert (Hfilter : forall filename,
    filter (matches_search (JS.toLowerCase q)) (collection env filename) = []).
  { intros filename. apply filter_none_in. apply Hnone. }
  exists (JS.lt (JS.add (JS.parseInt_default 0 offset)
                        (JS.parseInt_default 20 limit)) 0).
  split; [|split].
  - intros route filename Hroute.
    rewrite (listing_eq env route filename) by assumption.
    assert (Hempty : filtered_titles env filename (Some q) genre = []).
    { unfold filtered_titles, search_filter. rewrite Hq, Hfilter.
      unfold genre_filter. destruct genre as [g|]; [|reflexivity].
      now destruct (JS.truthy (Some g) && negb (g =? "all")%string)%bool. }
    now rewrite Hempty, slice_nil.
  - unfold run. cbn [app]. rewrite get_api_search_eq by assumption.
    rewrite filtered_results_eq, !Hfilter.
    assert (Hnil : genre_filter (fun m : Title.t => m) genre [] = []).
    { unfold genre_filter. destruct genre as [g|]; [|reflexivity].
      now destruct (JS.truthy (Some g) && negb (g =? "all")%string)%bool. }
    rewrite Hnil.
    destruct (selects type "movie"), (selects type "series"); cbn [map List.app];
      now rewrite slice_nil.
  - intros l o -> -> Hl Ho. cbn. apply Z.ltb_ge. lia.
Qed.

Lemma search_without_match_is_empty_witness :
  JS.truthy (Some "zzz") = true
  /\ (forall filename m,
         In m (collection Sample.env filename) ->
         matches_search (JS.toLowerCase "zzz") m = false)
  /\ exists hasMore,
      run (app (GET_search (Some "zzz") None None None None)) Sample.env
      = (Returned (json 200 true (SearchPage [] 0 (Some 20) (Some 0) hasMore "zzz")),
         ["movies.json"; "series.json"]).
Proof.
  assert (Hnone : forall filename m,
    In m (collection Sample.env filename) ->
    matches_search (JS.toLowerCase "zzz") m = false).
  { intros filename m. unfold collection, Sample.env, Sample.directory. cbn [data].
    destruct (filename =? "movies.json")%string.
    - intros [<-|[<-|[]]]; reflexivity.
    - destruct (filename =? "series.json")%string.
      + intros [<-|[<-|[<-|[]]]]; reflexivity.
      + intros []. }
  split; [reflexivity|]. split; [exact Hnone|].
  destruct (search_without_match_is_empty
              Sample.env "zzz" None None None None eq_refl Hnone)
    as (hasMore & _ & Hrun & _).
  exists hasMore. exact Hrun.
Defined.

(** *** Pages *)

Lemma page_of_app {A : Type} (l : list A) (o n1 n2 : nat) :
  (page_of l o n1 ++ page_of l (o + n1) n2)%list = page_of l o (n1 + n2).
Proof.
  unfold page_of. rewrite (Nat.add_comm o n1), <- skipn_skipn.
  generalize (skipn o l). clear l o. intros l. revert l.
  induction n1 as [|n1 IH]; intros l; [reflexivity|].
  destruct l as [|x l]; cbn.
  - now rewrite firstn_nil.
  - now rewrite IH.
Qed.

(** X9: on a listing, for natural bounds, the page at [offset] of
    [limit1] records followed by the page at [offset + limit1] of [limit2]
    records is the page at [offset] of [limit1 + limit2] records: paging
    through a listing neither skips nor repeats a record. *)
Theorem consecutive_pages_concatenate
  (env : Env) (route : option string -> option string -> option string ->
                       option string -> Request)
  (filename : string) (search genre : option string)
  (offset1 offset2 limit1 limit2 limit12 : option string) (o l1 l2 : Z) :
  In (route, filename) listings ->
  JS.parseInt_default 0 offset1 = Some o ->
  JS.parseInt_default 0 offset2 = Some (o + l1) ->
  JS.parseInt_default 20 limit1 = Some l1 ->
  JS.parseInt_default 20 limit2 = Some l2 ->
  JS.parseInt_default 20 limit12 = Some (l1 + l2) ->
  0 <= o -> 0 <= l1 -> 0 <= l2 ->
  (listed (run (app (route search genre limit1 offset1)) env)
   ++ listed (run (app (route search genre limit2 offset2)) env))%list
  = listed (run (app (route search genre limit12 offset1)) env).
Proof.
  intros Hroute Ho1 Ho2 Hl1 Hl2 Hl12 Ho Hl1' Hl2'.
  rewrite !(listing_eq env route filename) by assumption.
  unfold listed. cbn [fst]. rewrite Ho1, Ho2, Hl1, Hl2, Hl12. cbn [JS.add].
  rewrite !slice_page by lia.
  rewrite !Z2Nat.inj_add by lia. apply page_of_app.
Qed.

Lemma consecutive_pages_concatenate_witness :
  In (GET_series, "series.json") listings
  /\ JS.parseInt_default 0 (Some "1") = Some 1
  /\ JS.parseInt_default 0 (Some "2") = Some (1 + 1)
  /\ JS.parseInt_default 20 (Some "1") = Some 1
  /\ JS.parseInt_default 20 (Some "5") = Some 5
  /\ JS.parseInt_default 20 (Some "6") = Some (1 + 5)
  /\ (listed (run (app (GET_series None None (Some "1") (Some "1"))) Sample.env)
      ++ listed (run (app (GET_series None None (Some "5") (Some "2"))) Sample.env))%list
     = listed (run (app (GET_series None None (Some "6") (Some "1"))) Sample.env).
Proof.
  split; [right; left; reflexivity|].
  repeat (split; [reflexivity|]).
  apply (consecutive_pages_concatenate
           Sample.env GET_series "series.json" None None
           (Some "1") (Some "2") (Some "1") (Some "5") (Some "6") 1 1 5);
    solve [right; left; reflexivity|reflexivity|lia].
Defined.

(** X10: on a listing, for natural bounds, [hasMore] is true exactly when
    stored records of the filtered collection remain beyond the page,
    that is when [offset] plus the length of the page is below [total]; an
    [offset] at or beyond [total] yields an empty page with [hasMore]
    false, while [total] is still reported. *)
Theorem hasMore_tells_what_remains
  (env : Env) (route : option string -> option string -> option string ->
                       option string -> Request)
  (filename : string) (search genre limit offset : option string) (o l : Z) :
  In (route, filename) listings ->
  JS.parseInt_default 0 offset = Some o ->
  JS.parseInt_default 20 limit = Some l ->
  0 <= o -> 0 <= l ->
  exists page total hasMore,
    run (app (route search genre limit offset)) env
    = (Returned (json 200 true (Page page total (Some l) (Some o) hasMore)),
       [filename])
    /\ (hasMore = true <-> o + Z.of_nat (List.length page) < Z.of_nat total)
    /\ (Z.of_nat total <= o -> page = [] /\ hasMore = false)
    /\ (hasMore = false ->
        Z.to_nat o + List.length page
        = Nat.max (Z.to_nat o) total)%nat.
Proof.
  intros Hroute Ho Hl Ho' Hl'.
  rewrite (listing_eq env route filename), Ho, Hl by assumption.
  cbn [JS.add]. rewrite slice_page by assumption.
  set (F := filtered_titles env filename search genre).
  do 3 eexists. split; [reflexivity|].
  assert (Hlen : List.length (page_of F (Z.to_nat o) (Z.to_nat l))
                 = Nat.min (Z.to_nat l) (List.length F - Z.to_nat o))
    by (unfold page_of; now rewrite length_firstn, length_skipn).
  cbn [JS.lt]. rewrite Z.ltb_lt, Z.ltb_ge, Hlen.
  split; [lia|]. split; [|lia].
  intros Hbeyond. split; [|lia].
  unfold page_of. rewrite skipn_all2 by lia. apply firstn_nil.
Qed.

Lemma hasMore_tells_what_remains_witness :
  In (GET_movies, "movies.json") listings
  /\ JS.parseInt_default 0 (Some "7") = Some 7
  /\ JS.parseInt_default 20 None = Some 20
  /\ exists page total hasMore,
      run (app (GET_movies None None None (Some "7"))) Sample.env
      = (Returned (json 200 true (Page page total (Some 20) (Some 7) hasMore)),
         ["movies.json"])
      /\ (Z.of_nat total <= 7 -> page = [] /\ hasMore = false).
Proof.
  split; [left; reflexivity|]. split; [reflexivity|]. split; [reflexivity|].
  destruct (hasMore_tells_what_remains
              Sample.env GET_movies "movies.json" None None None (Some "7") 7 20
              (or_introl eq_refl) eq_refl eq_refl)
    as (page & total & hasMore & Hrun & _ & Hbeyond & _); [lia|lia|].
  exists page, total, hasMore. split; [exact Hrun|exact Hbeyond].
Defined.

(** X11: a [limit] or an [offset] that is given but is not a number is
    not rejected: the listings and the universal search answer 200 with
    an empty page and [hasMore] false, and still report [total]. *)
Theorem unparsable_bounds_give_an_empty_page
  (env : Env) (search genre limit offset type : option string) (q : string) :
  JS.parseInt_default 20 limit = None \/ JS.parseInt_default 0 offset = None ->
  (forall route filename,
      In (route, filename) listings ->
      run (app (route search genre limit offset)) env
      = (Returned
           (json 200 true
              (Page [] (List.length (filtered_titles env filename search genre))
                 (JS.parseInt_default 20 limit) (JS.parseInt_default 0 offset)
                 false)),
         [filename]))
  /\ (JS.truthy (Some q) = true ->
      run (app (GET_search (Some q) type genre limit offset)) env
      = (Returned
           (json 200 true
              (SearchPage [] (List.length (filtered_results env q type genre))
                 (JS.parseInt_default 20 limit) (JS.parseInt_default 0 offset)
                 false q)),
         files_for type)).
Proof.
  intros Hnan.
  assert (Hslice : forall (A : Type) (l : list A),
    JS.slice l (JS.parseInt_default 0 offset)
      (JS.add (JS.parseInt_default 0 offset) (JS.parseInt_default 20 limit)) = []).
  { intros A l. unfold JS.slice, JS.relative_index.
    assert (Hend : JS.toIntegerOrInfinity
                     (JS.add (JS.parseInt_default 0 offset)
                             (JS.parseInt_default 20 limit)) = 0).
    { destruct Hnan as [H|H]; rewrite H;
        [destruct (JS.parseInt_default 0 offset)|]; reflexivity. }
    rewrite Hend. cbn [Z.ltb Z.compare].
    set (len := Z.of_nat (List.length l)).
    set (k := if JS.toIntegerOrInfinity (JS.parseInt_default 0 offset) <? 0
              then Z.max (len + JS.toIntegerOrInfinity (JS.parseInt_default 0 offset)) 0
              else Z.min (JS.toIntegerOrInfinity (JS.parseInt_default 0 offset)) len).
    assert (Hk : 0 <= k).
    { subst k len. destruct (Z.ltb_spec
        (JS.toIntegerOrInfinity (JS.parseInt_default 0 offset)) 0); lia. }
    replace (Z.to_nat (Z.min 0 len - k)) with 0%nat by lia. reflexivity. }
  assert (Hmore : forall n,
    JS.lt (JS.add (JS.parseInt_default 0 offset) (JS.parseInt_default 20 limit)) n
    = false).
  { intros n. destruct Hnan as [H|H]; rewrite H;
      [destruct (JS.parseInt_default 0 offset)|]; reflexivity. }
  split.
  - intros route filename Hroute.
    now rewrite (listing_eq env route filename), Hslice, Hmore by assumption.
  - intros Hq. unfold run. cbn [app].
    now rewrite get_api_search_eq, Hslice, Hmore by assumption.
Qed.

Lemma unparsable_bounds_give_an_empty_page_witness :
  (JS.parseInt_default 20 (Some "ten") = None
   \/ JS.parseInt_default 0 (@None string) = None)
  /\ run (app (GET_movies None None (Some "ten") None)) Sample.env
     = (Returned
          (json 200 true
             (Page [] (List.length (filtered_titles Sample.env "movies.json" None None))
                None (Some 0) false)),
        ["movies.json"]).
Proof.
  split; [left; reflexivity|].
  apply (proj1 (unparsable_bounds_give_an_empty_page
                  Sample.env None None (Some "ten") None None "x"
                  (or_introl eq_refl))
               GET_movies "movies.json").
  left. reflexivity.
Defined.

(** *** The resolver, case by case *)

(** X12: when [season] and [episode] are both given and parse to
    numbers, the resolver (no movie answering first) looks at the first
    stored episode of the series that has this season and this number,
    and answers with it when it has [sources]: with its season, number
    and title, and the URL its [sources] give for the selector.  An
    episode stored after it is not looked at, whether it has the same
    numbers or not. *)
Theorem iframe_answers_the_requested_episode
  (env : Env) (title : string) (source season episode : option string)
  (show : Title.t) (before : list Episode.t) (ep : Episode.t)
  (rest : list Episode.t) (sources : Sources) (s n : Z) :
  JS.truthy (Some title) = true ->
  movie_branch_passes env title ->
  find (same_name title) (collection env "series.json") = Some show ->
  JS.truthy season = true -> JS.truthy episode = true ->
  parseInt_param season = Some s ->
  parseInt_param episode = Some n ->
  Title.episodes show = Some (before ++ ep :: rest)%list ->
  (forall e, In e before -> Episode.season e <> s \/ Episode.episode e <> n) ->
  Episode.season ep = s ->
  Episode.episode ep = n ->
  Episode.sources ep = Some sources ->
  run (app (GET_iframe (Some title) source season episode)) env
  = (Returned (episode_answer show ep sources (or_primary source)),
     ["movies.json"; "series.json"]).
Proof.
  intros Htitle Hmovie Hshow Hs He Hseason Hepisode Heps Hbefore Hes Hen Hsources.
  assert (Hep : find_episode show season episode = Some ep).
  { unfold find_episode. rewrite Heps, Hseason, Hepisode.
    apply find_first_match.
    - intros e Hin. unfold JS.strict_eq.
      destruct (Hbefore e Hin) as [H|H]; apply Z.eqb_neq in H; rewrite H;
        [reflexivity|apply andb_false_r].
    - unfold JS.strict_eq. apply andb_true_iff. split; now apply Z.eqb_eq. }
  assert (Hrun :
    run (app (GET_iframe (Some title) source season episode)) env
    = try_catch (iframe_series title (or_primary source) season episode)
                iframe_failed env ["movies.json"]).
  { unfold run. cbn [app]. rewrite get_api_iframe_eq by assumption.
    unfold movie_branch_passes in Hmovie.
    destruct (find (same_name title) (collection env "movies.json")) as [movie|];
      [now rewrite Hmovie|reflexivity]. }
  rewrite Hrun. unfold try_catch.
  rewrite iframe_series_eq, Hshow, Hs, He. cbn [andb].
  now rewrite Hep, Hsources.
Qed.

Lemma iframe_answers_the_requested_episode_witness :
  JS.truthy (Some "gamma") = true
  /\ movie_branch_passes Sample.env "gamma"
  /\ find (same_name "gamma") (collection Sample.env "series.json")
     = Some Sample.gamma_show
  /\ parseInt_param (Some "1") = Some 1
  /\ parseInt_param (Some "2") = Some 2
  /\ Title.episodes Sample.gamma_show = Some ([Sample.pilot] ++ Sample.second :: [])%list
  /\ (forall e, In e [Sample.pilot] ->
                Episode.season e <> 1 \/ Episode.episode e <> 2)
  /\ run (app (GET_iframe (Some "gamma") (Some "secondary") (Some "1") (Some "2")))
         Sample.env
     = (Returned
          (episode_answer Sample.gamma_show Sample.second
             [("source1", "https://cdn.example/s1e2");
              ("source2", "https://mirror.example/s1e2")] "secondary"),
        ["movies.json"; "series.json"]).
Proof.
  assert (Hbefore : forall e, In e [Sample.pilot] ->
                              Episode.season e <> 1 \/ Episode.episode e <> 2).
  { intros e [<-|[]]. right. discriminate. }
  split; [reflexivity|]. split; [exact I|].
  repeat (split; [reflexivity|]). split; [exact Hbefore|].
  apply (iframe_answers_the_requested_episode
           Sample.env "gamma" (Some "secondary") (Some "1") (Some "2")
           Sample.gamma_show [Sample.pilot] Sample.second []
           [("source1", "https://cdn.example/s1e2");
            ("source2", "https://mirror.example/s1e2")] 1 2);
    solve [reflexivity|exact I|exact Hbefore].
Defined.

(** X13: when the requested episode exists but its record has no
    [sources], the resolver does not answer 404: it falls back to the
    first stored episode of the series and answers with that one (its
    season, number, title and URL), provided the first episode has
    [sources]. *)
Theorem iframe_sourceless_episode_falls_back_to_first
  (env : Env) (title : string) (source season episode : option string)
  (show : Title.t) (ep firstEp : Episode.t) (rest : list Episode.t)
  (sources : Sources) :
  JS.truthy (Some title) = true ->
  movie_branch_passes env title ->
  find (same_name title) (collection env "series.json") = Some show ->
  JS.truthy season = true -> JS.truthy episode = true ->
  find_episode show season episode = Some ep ->
  Episode.sources ep = None ->
  Title.episodes show = Some (firstEp :: rest) ->
  Episode.sources firstEp = Some sources ->
  run (app (GET_iframe (Some title) source season episode)) env
  = (Returned (episode_answer show firstEp sources (or_primary source)),
     ["movies.json"; "series.json"]).
Proof.
  intros Htitle Hmovie Hshow Hs He Hep Hnone Heps Hsources.
  unfold run. cbn [app]. rewrite get_api_iframe_eq by assumption.
  assert (Hseries :
    try_catch (iframe_series title (or_primary source) season episode)
              iframe_failed env ([] ++ ["movies.json"])%list
    = (Returned (episode_answer show firstEp sources (or_primary source)),
       ["movies.json"; "series.json"])).
  { unfold try_catch. rewrite iframe_series_eq, Hshow, Hs, He. cbn [andb].
    rewrite Hep, Hnone.
    unfold iframe_first_episode. now rewrite Heps, Hsources. }
  unfold movie_branch_passes in Hmovie.
  destruct (find (same_name title) (collection env "movies.json")) as [movie|];
    [now rewrite Hmovie|assumption].
Qed.

Lemma iframe_sourceless_episode_falls_back_to_first_witness :
  JS.truthy (Some "delta") = true
  /\ movie_branch_passes Sample.delta_env "delta"
  /\ find (same_name "delta") (collection Sample.delta_env "series.json")
     = Some Sample.delta_show
  /\ find_episode Sample.delta_show (Some "0") (Some "0") = Some Sample.teaser
  /\ Episode.sources Sample.teaser = None
  /\ run (app (GET_iframe (Some "delta") None (Some "0") (Some "0"))) Sample.delta_env
     = (Returned
          (episode_answer Sample.delta_show Sample.pilot
             [("source1", "https://cdn.example/s1e1")] "primary"),
        ["movies.json"; "series.json"]).
Proof.
  split; [reflexivity|]. split; [exact I|]. split; [reflexivity|].
  split; [reflexivity|]. split; [reflexivity|].
  apply (iframe_sourceless_episode_falls_back_to_first
           Sample.delta_env "delta" None (Some "0") (Some "0")
           Sample.delta_show Sample.teaser Sample.pilot [Sample.teaser]
           [("source1", "https://cdn.example/s1e1")]);
    solve [reflexivity|exact I].
Defined.

(** X21: when no movie answers and the series the title names stores at
    least one episode, a request that gives no season and episode, or a
    pair that matches no stored episode, is answered from the first
    stored episode: with its season, number, title and the URL its
    [sources] give for the selector when it has [sources], and with the
    500 envelope ['Failed to get iframe source'] when it has none, the
    message naming the slot whose read failed. *)
Theorem iframe_fallback_takes_the_first_episode
  (env : Env) (title : string) (source season episode : option string)
  (show : Title.t) (firstEp : Episode.t) (rest : list Episode.t) :
  JS.truthy (Some title) = true ->
  movie_branch_passes env title ->
  find (same_name title) (collection env "series.json") = Some show ->
  Title.episodes show = Some (firstEp :: rest) ->
  (JS.truthy season && JS.truthy episode)%bool = false
  \/ find_episode show season episode = None ->
  run (app (GET_iframe (Some title) source season episode)) env
  = (Returned
       match Episode.sources firstEp with
       | Some sources => episode_answer show firstEp sources (or_primary source)
       | None =>
           json 500 false
             (Failure "Failed to get iframe source"
                (Some ("Cannot read properties of undefined (reading '"
                       ++ sourceKey (or_primary source) ++ "')")))
       end,
     ["movies.json"; "series.json"]).
Proof.
  intros Htitle Hmovie Hshow Heps Hmiss. unfold run. cbn [app].
  rewrite get_api_iframe_eq by assumption.
  assert (Hep : (if (JS.truthy season && JS.truthy episode)%bool
                 then find_episode show season episode else None) = None).
  { destruct Hmiss as [H|H]; rewrite H; [reflexivity|].
    now destruct (JS.truthy season && JS.truthy episode)%bool. }
  assert (Hseries :
    try_catch (iframe_series title (or_primary source) season episode)
              iframe_failed env ([] ++ ["movies.json"])%list
    = (Returned
         match Episode.sources firstEp with
         | Some sources => episode_answer show firstEp sources (or_primary source)
         | None =>
             json 500 false
               (Failure "Failed to get iframe source"
                  (Some ("Cannot read properties of undefined (reading '"
                         ++ sourceKey (or_primary source) ++ "')")))
         end,
       ["movies.json"; "series.json"])).
  { unfold try_catch. rewrite iframe_series_eq, Hshow, Hep.
    unfold iframe_first_episode. rewrite Heps.
    destruct (Episode.sources firstEp); reflexivity. }
  unfold movie_branch_passes in Hmovie.
  destruct (find (same_name title) (collection env "movies.json")) as [movie|];
    [now rewrite Hmovie|assumption].
Qed.

Lemma iframe_fallback_takes_the_first_episode_witness :
  JS.truthy (Some "gamma") = true
  /\ movie_branch_passes Sample.env "gamma"
  /\ find (same_name "gamma") (collection Sample.env "series.json")
     = Some Sample.gamma_show
  /\ Title.episodes Sample.gamma_show = Some [Sample.pilot; Sample.second]
  /\ find_episode Sample.gamma_show (Some "4") (Some "2") = None
  /\ run (app (GET_iframe (Some "gamma") (Some "secondary") (Some "4") (Some "2")))
         Sample.env
     = (Returned (episode_answer Sample.gamma_show Sample.pilot
                    [("source1", "https://cdn.example/s1e1")] "secondary"),
        ["movies.json"; "series.json"]).
Proof.
  split; [reflexivity|]. split; [exact I|].
  repeat (split; [reflexivity|]).
  apply (iframe_fallback_takes_the_first_episode
           Sample.env "gamma" (Some "secondary") (Some "4") (Some "2")
           Sample.gamma_show Sample.pilot [Sample.second]);
    [reflexivity|exact I|reflexivity|reflexivity|right; reflexivity].
Defined.

(** X14: for a non-empty title, the resolver answers 404 ['Content not
    found'] exactly when no movie answers first (none has the name, or
    the first that has it carries no [sources]) and either no series has
    the name or the first that has it stores no episode. *)
Theorem iframe_not_found_exactly_when
  (env : Env) (title : string) (source season episode : option string) :
  JS.truthy (Some title) = true ->
  fst (run (app (GET_iframe (Some title) source season episode)) env)
  = Returned content_not_found
  <-> movie_branch_passes env title
      /\ match find (same_name title) (collection env "series.json") with
         | Some show => stored_episodes show = []
         | None => True
         end.
Proof.
  intros Htitle. unfold run. cbn [app].
  rewrite get_api_iframe_eq by assumption.
  assert (Hseries : forall log,
    fst (try_catch (iframe_series title (or_primary source) season episode)
                   iframe_failed env log)
    = Returned content_not_found
    <-> match find (same_name title) (collection env "series.json") with
        | Some show => stored_episodes show = []
        | None => True
        end).
  { intros log. unfold try_catch. rewrite iframe_series_eq.
    destruct (find (same_name title) (collection env "series.json")) as [show|];
      [|split; [trivial|reflexivity]].
    unfold find_episode, stored_episodes, iframe_first_episode.
    destruct (Title.episodes show) as [[|firstEp rest]|].
    - destruct (JS.truthy season && JS.truthy episode)%bool;
        split; reflexivity.
    - split; [|discriminate]. intros H. exfalso.
      destruct (if (JS.truthy season && JS.truthy episode)%bool
                then find _ (firstEp :: rest) else None) as [ep|].
      + destruct (Episode.sources ep); [discriminate|].
        destruct (Episode.sources firstEp); discriminate.
      + destruct (Episode.sources firstEp); discriminate.
    - destruct (JS.truthy season && JS.truthy episode)%bool;
        split; reflexivity. }
  unfold movie_branch_passes.
  destruct (find (same_name title) (collection env "movies.json")) as [movie|].
  - destruct (Title.sources movie) as [sources|].
    + split; [discriminate|]. intros [H _]. discriminate.
    + rewrite Hseries. tauto.
  - rewrite Hseries. tauto.
Qed.

Lemma iframe_not_found_exactly_when_witness :
  JS.truthy (Some "omega") = true
  /\ (fst (run (app (GET_iframe (Some "omega") None None None)) Sample.env)
      = Returned content_not_found
      <-> movie_branch_passes Sample.env "omega"
          /\ match find (same_name "omega") (collection Sample.env "series.json") with
             | Some show => stored_episodes show = []
             | None => True
             end).
Proof.
  split; [reflexivity|].
  apply (iframe_not_found_exactly_when Sample.env "omega" None None None).
  reflexivity.
Defined.

(** *** Trending, one kind at a time *)

(** X15: with [type] ['movie'] or ['series'], [GET /api/trending] reads
    the file of that kind alone and returns [limit/2] items, not [limit],
    or the whole collection when it holds fewer: the answer is made of
    stored records of that file, none taken more often than the file
    holds it, all tagged with the kind; and when the records of the file
    are all rated, no record left out is rated above one that is
    returned. *)
Theorem trending_of_one_kind_is_half_a_page
  (env : Env) (kind filename : string) (limit : option string) (n : Z) :
  In (kind, filename) kinds ->
  JS.parseInt_default 20 limit = Some n ->
  0 <= n ->
  (forall l, Permutation l (sort_random env l)) ->
  exists items,
    run (app (GET_trending (Some kind) limit)) env
    = (Returned (json 200 true (Trending items)), [filename])
    /\ List.length items
       = Nat.min (Z.to_nat (n / 2)) (List.length (collection env filename))
    /\ Z.of_nat (List.length items) <= n / 2
    /\ (exists rest,
           Permutation (map record items ++ rest)%list (collection env filename)
           /\ (forallb rated (collection env filename) = true ->
               forall x y, In x (map record items) -> In y rest ->
                           rated_above y x = false))
    /\ (forall item,
           In item items ->
           type item = kind /\ In (record item) (collection env filename)).
Proof.
  intros Hkind Hn Hpos Hshuffle.
  set (sorted := JS.sort by_rating_desc (collection env filename)).
  set (half := map (fun movie => tagged movie kind)
                   (firstn (Z.to_nat (n / 2)) sorted)).
  assert (Hsorted : Permutation (collection env filename) sorted)
    by apply sort_by_perm.
  assert (Hpool :
    (half_page env "movies.json" "movie" (Some kind) limit
     ++ half_page env "series.json" "series" (Some kind) limit)%list = half
    /\ files_for (Some kind) = [filename]).
  { destruct Hkind as [H|[H|[]]]; inversion H; subst.
    - rewrite (half_page_eq env "movies.json" "movie" _ _ n)
        by (reflexivity || assumption).
      unfold half_page, files_for. cbn. now rewrite app_nil_r.
    - rewrite (half_page_eq env "series.json" "series" _ _ n)
        by (reflexivity || assumption).
      unfold half_page, files_for. now cbn. }
  destruct Hpool as [Hpool Hfiles].
  assert (Hhalf : List.length half
                  = Nat.min (Z.to_nat (n / 2)) (List.length (collection env filename))).
  { unfold half. rewrite length_map, length_firstn.
    now rewrite (Permutation_length Hsorted). }
  assert (Hdiv : 0 <= n / 2) by (apply Z.div_pos; lia).
  pose proof (Permutation_length (Hshuffle half)) as Hplen.
  assert (Hrec : Permutation (map record (sort_random env half))
                             (firstn (Z.to_nat (n / 2)) sorted)).
  { eapply Permutation_trans;
      [apply Permutation_map, Permutation_sym, Hshuffle|].
    unfold half. rewrite map_map. cbn [record]. now rewrite map_id. }
  exists (sort_random env half).
  split; [|split; [|split; [|split]]].
  - unfold run. cbn [app]. rewrite get_api_trending_gen, Hpool, Hfiles, Hn.
    rewrite slice_whole; [reflexivity|].
    pose proof (Z.mul_div_le n 2). lia.
  - lia.
  - lia.
  - exists (skipn (Z.to_nat (n / 2)) sorted). split.
    + eapply Permutation_trans; [apply Permutation_app_tail, Hrec|].
      rewrite firstn_skipn. now apply Permutation_sym.
    + intros Hrated x y Hx Hy.
      apply (Permutation_in _ Hrec) in Hx.
      apply (strongly_sorted_split (fun a b => rated_above b a = false)
                                   sorted (Z.to_nat (n / 2)));
        [|assumption|assumption].
      apply sort_by_rating_desc. apply Forall_forall, forallb_forall, Hrated.
  - intros item Hin.
    apply (Permutation_in _ (Permutation_sym (Hshuffle _))) in Hin.
    unfold half in Hin. apply in_map_iff in Hin.
    destruct Hin as (m & <- & Hm). split; [reflexivity|].
    apply in_firstn in Hm.
    now apply (Permutation_in _ (Permutation_sym Hsorted)).
Qed.

Lemma trending_of_one_kind_is_half_a_page_witness :
  In ("series", "series.json") kinds
  /\ JS.parseInt_default 20 (Some "4") = Some 4
  /\ 0 <= 4
  /\ (forall l, Permutation l (sort_random Sample.env l))
  /\ exists items,
      run (app (GET_trending (Some "series") (Some "4"))) Sample.env
      = (Returned (json 200 true (Trending items)), ["series.json"])
      /\ List.length items = 2%nat.
Proof.
  split; [right; left; reflexivity|]. split; [reflexivity|]. split; [lia|].
  split; [intros l; apply Permutation_rev|].
  destruct (trending_of_one_kind_is_half_a_page
              Sample.env "series" "series.json" (Some "4") 4
              (or_intror (or_introl eq_refl)) eq_refl)
    as (items & Hrun & Hlen & _); [lia|intros l; apply Permutation_rev|].
  exists items. split; [exact Hrun|exact Hlen].
Defined.

(** X16: [GET /api/trending] returns nothing when [limit] is 0 or 1,
    since each collection contributes [limit/2] records, and nothing when
    [limit] is given but is not a number; the status is 200 in each
    case. *)
Theorem trending_needs_a_limit_of_two
  (env : Env) (type limit : option string) :
  (forall l, Permutation l (sort_random env l)) ->
  JS.parseInt_default 20 limit = None
  \/ JS.parseInt_default 20 limit = Some 0
  \/ JS.parseInt_default 20 limit = Some 1 ->
  run (app (GET_trending type limit)) env
  = (Returned (json 200 true (Trending [])), files_for type).
Proof.
  intros Hshuffle Hlimit. unfold run. cbn [app]. rewrite get_api_trending_gen.
  assert (Hhalf : forall f k, half_page env f k type limit = []).
  { intros f k. unfold half_page. destruct (selects type k); [|reflexivity].
    assert (Hslice : forall l : list Title.t,
      JS.slice l (Some 0) (JS.half (JS.parseInt_default 20 limit)) = []).
    { intros l. destruct Hlimit as [H|[H|H]]; rewrite H; cbn [JS.half option_map].
      - unfold JS.slice, JS.relative_index. cbn. now rewrite Z.min_l by lia.
      - now rewrite slice_prefix by (cbn; lia).
      - now rewrite slice_prefix by (cbn; lia). }
    now rewrite Hslice. }
  rewrite !Hhalf. cbn [List.app].
  assert (Hnil : sort_random env [] = [])
    by (apply Permutation_nil, Hshuffle).
  rewrite Hnil. now rewrite slice_nil.
Qed.

Lemma trending_needs_a_limit_of_two_witness :
  (forall l, Permutation l (sort_random Sample.env l))
  /\ (JS.parseInt_default 20 (Some "1") = None
      \/ JS.parseInt_default 20 (Some "1") = Some 0
      \/ JS.parseInt_default 20 (Some "1") = Some 1)
  /\ run (app (GET_trending None (Some "1"))) Sample.env
     = (Returned (json 200 true (Trending [])), ["movies.json"; "series.json"]).
Proof.
  split; [intros l; apply Permutation_rev|].
  split; [right; right; reflexivity|].
  apply (trending_needs_a_limit_of_two Sample.env None (Some "1"));
    [intros l; apply Permutation_rev|right; right; reflexivity].
Defined.

(** What a collection of rated records contributes to the trending
    pool: as many records as the half of the limit allows, none of the
    records left out being rated above one that is taken. *)
Lemma half_page_of_rated env filename kind type limit n :
  selects type kind = true ->
  JS.parseInt_default 20 limit = Some n ->
  0 <= n ->
  Forall (fun m => rated m = true) (collection env filename) ->
  exists taken left,
    half_page env filename kind type limit
    = map (fun movie => tagged movie kind) taken
    /\ Permutation (taken ++ left)%list (collection env filename)
    /\ List.length taken
       = Nat.min (Z.to_nat (n / 2)) (List.length (collection env filename))
    /\ (forall x y, In x taken -> In y left -> rated_above y x = false).
Proof.
  intros Hsel Hn Hpos Hrated.
  set (sorted := JS.sort by_rating_desc (collection env filename)).
  assert (Hperm : Permutation (collection env filename) sorted)
    by apply sort_by_perm.
  exists (firstn (Z.to_nat (n / 2)) sorted), (skipn (Z.to_nat (n / 2)) sorted).
  split; [now apply half_page_eq|]. split; [|split].
  - rewrite firstn_skipn. now apply Permutation_sym.
  - now rewrite length_firstn, (Permutation_length Hperm).
  - apply (strongly_sorted_split (fun a b => rated_above b a = false)).
    now apply sort_by_rating_desc.
Qed.

(** X22: on collections whose records are all rated, [GET /api/trending]
    with [type] absent or ['all'] returns the highest-rated: the answer
    is a rearrangement of [limit/2] movies and [limit/2] series (all of
    them when the file holds fewer), tagged with their kind, hence at
    most [limit] items, and no movie left out is rated above a movie that
    is returned, nor a series left out above a series that is returned.
    The order on ratings is that of the numbers they denote. *)
Theorem trending_of_rated_collections_is_highest_rated
  (env : Env) (type limit : option string) (n : Z) :
  type = None \/ type = Some "all" ->
  JS.parseInt_default 20 limit = Some n ->
  0 <= n ->
  (forall l, Permutation l (sort_random env l)) ->
  forallb rated (collection env "movies.json") = true ->
  forallb rated (collection env "series.json") = true ->
  exists items movies movies_left series series_left,
    run (app (GET_trending type limit)) env
    = (Returned (json 200 true (Trending items)), ["movies.json"; "series.json"])
    /\ Z.of_nat (List.length items) <= n
    /\ Permutation items
         (map (fun m => tagged m "movie") movies
          ++ map (fun m => tagged m "series") series)%list
    /\ Permutation (movies ++ movies_left)%list (collection env "movies.json")
    /\ Permutation (series ++ series_left)%list (collection env "series.json")
    /\ List.length movies
       = Nat.min (Z.to_nat (n / 2)) (List.length (collection env "movies.json"))
    /\ List.length series
       = Nat.min (Z.to_nat (n / 2)) (List.length (collection env "series.json"))
    /\ (forall x y, In x movies -> In y movies_left -> rated_above y x = false)
    /\ (forall x y, In x series -> In y series_left -> rated_above y x = false).
Proof.
  intros Htype Hn Hpos Hshuffle Hmovies Hseries.
  assert (Hsel : forall kind, selects type kind = true)
    by (intros kind; destruct Htype; subst type;
        [reflexivity|unfold selects; apply orb_true_r]).
  assert (Hfiles : files_for type = ["movies.json"; "series.json"])
    by (unfold files_for; now rewrite !Hsel).
  assert (Hall : forall l, forallb rated l = true ->
                           Forall (fun m => rated m = true) l)
    by (intros l H; apply Forall_forall, forallb_forall, H).
  destruct (half_page_of_rated env "movies.json" "movie" type limit n
              (Hsel _) Hn Hpos (Hall _ Hmovies))
    as (movies & movies_left & Em & Pm & Lm & Tm).
  destruct (half_page_of_rated env "series.json" "series" type limit n
              (Hsel _) Hn Hpos (Hall _ Hseries))
    as (series & series_left & Es & Ps & Ls & Ts).
  set (pool := (map (fun m => tagged m "movie") movies
                ++ map (fun m => tagged m "series") series)%list).
  assert (Hpool : Z.of_nat (List.length pool) <= n).
  { subst pool. rewrite length_app, !length_map, Lm, Ls.
    assert (0 <= n / 2) by (apply Z.div_pos; lia).
    pose proof (Z.mul_div_le n 2). lia. }
  pose proof (Permutation_length (Hshuffle pool)) as Hlen.
  exists (sort_random env pool), movies, movies_left, series, series_left.
  split; [|split; [|split; [|repeat split; assumption]]].
  - unfold run. cbn [app]. rewrite get_api_trending_gen, Em, Es, Hfiles, Hn.
    fold pool. rewrite slice_whole; [reflexivity|lia].
  - lia.
  - apply Permutation_sym, Hshuffle.
Qed.

Lemma trending_of_rated_collections_is_highest_rated_witness :
  (@None string = None \/ @None string = Some "all")
  /\ JS.parseInt_default 20 (Some "4") = Some 4
  /\ 0 <= 4
  /\ (forall l, Permutation l (sort_random Sample.ranked_env l))
  /\ forallb rated (collection Sample.ranked_env "movies.json") = true
  /\ forallb rated (collection Sample.ranked_env "series.json") = true
  /\ exists items movies movies_left series series_left,
      run (app (GET_trending None (Some "4"))) Sample.ranked_env
      = (Returned (json 200 true (Trending items)), ["movies.json"; "series.json"])
      /\ Z.of_nat (List.length items) <= 4
      /\ Permutation items
           (map (fun m => tagged m "movie") movies
            ++ map (fun m => tagged m "series") series)%list
      /\ Permutation (movies ++ movies_left)%list
           (collection Sample.ranked_env "movies.json")
      /\ Permutation (series ++ series_left)%list
           (collection Sample.ranked_env "series.json")
      /\ List.length movies
         = Nat.min (Z.to_nat (4 / 2))
                   (List.length (collection Sample.ranked_env "movies.json"))
      /\ List.length series
         = Nat.min (Z.to_nat (4 / 2))
                   (List.length (collection Sample.ranked_env "series.json"))
      /\ (forall x y, In x movies -> In y movies_left -> rated_above y x = false)
      /\ (forall x y, In x series -> In y series_left -> rated_above y x = false).
Proof.
  split; [left; reflexivity|]. split; [reflexivity|]. split; [lia|].
  split; [intros l; apply Permutation_rev|].
  split; [vm_compute; reflexivity|]. split; [vm_compute; reflexivity|].
  apply (trending_of_rated_collections_is_highest_rated
           Sample.ranked_env None (Some "4") 4);
    [left; reflexivity|reflexivity|lia|intros l; apply Permutation_rev
    |vm_compute; reflexivity|vm_compute; reflexivity].
Defined.

(** The trending answer on the rated sample, when the coin-flipping sort
    happens to reverse: Alpha and Incendies of the movies, Delta and
    Alpha of the series. *)
Example trending_of_ranked_sample :
  run (app (GET_trending None (Some "4"))) Sample.ranked_env
  = (Returned
       (json 200 true
          (Trending [tagged Sample.alpha_show "series";
                     tagged Sample.delta_show "series";
                     tagged Sample.incendies "movie";
                     tagged Sample.alpha_movie "movie"])),
     ["movies.json"; "series.json"]).
Proof. vm_compute. reflexivity. Qed.

(** *** Statistics and genres *)

(** The accumulation of a [Set] keeps distinct elements apart and holds
    what it held and what it is given. *)
Lemma set_accumulate (l seen : list string) :
  NoDup seen ->
  NoDup (fold_left
           (fun seen x => if existsb (String.eqb x) seen then seen
                          else (seen ++ [x])%list) l seen)
  /\ (forall x,
         In x (fold_left
                 (fun seen x => if existsb (String.eqb x) seen then seen
                                else (seen ++ [x])%list) l seen)
         <-> In x seen \/ In x l).
Proof.
  revert seen. induction l as [|y l IH]; intros seen Hseen; cbn [fold_left].
  - split; [assumption|]. intros x. cbn. tauto.
  - destruct (existsb (String.eqb y) seen) eqn:Hy.
    + destruct (IH seen Hseen) as [Hnd Hin]. split; [assumption|].
      intros x. rewrite Hin. cbn. split; [tauto|].
      intros [H|[<-|H]]; try tauto. left.
      apply existsb_exists in Hy. destruct Hy as (z & Hz & Heq).
      apply String.eqb_eq in Heq. now subst.
    + assert (Hfresh : ~ In y seen).
      { intros Hin. apply Bool.not_true_iff_false in Hy. apply Hy.
        apply existsb_exists. exists y. split; [assumption|apply String.eqb_refl]. }
      assert (Hnd' : NoDup (seen ++ [y])%list).
      { apply NoDup_app; [assumption|repeat constructor; intros []|].
        intros z Hz [<-|[]]. contradiction. }
      destruct (IH (seen ++ [y])%list Hnd') as [Hnd Hin]. split; [assumption|].
      intros x. rewrite Hin, in_app_iff. cbn. tauto.
Qed.

Lemma Set_values_spec (l : list string) :
  NoDup (JS.Set_values l) /\ (forall x, In x (JS.Set_values l) <-> In x l).
Proof.
  destruct (set_accumulate l [] (NoDup_nil _)) as [Hnd Hin].
  split; [exact Hnd|]. intros x. unfold JS.Set_values. rewrite Hin. cbn. tauto.
Qed.

Lemma genre_tags_In (movies : list Title.t) (g : string) :
  In g (genre_tags movies) <-> exists m, In m movies /\ In g (tags_of m).
Proof. unfold genre_tags, tags_of. apply in_flat_map. Qed.

Lemma fold_episode_count (series : list Title.t) (total : nat) :
  fold_left
    (fun total show =>
       (total + match Title.episodes show with
                | Some episodes => List.length episodes
                | None => 0
                end)%nat)
    series total
  = (total + list_sum (map episode_count series))%nat.
Proof.
  revert total. induction series as [|show series IH]; intros total;
    cbn [fold_left map list_sum fold_right].
  - lia.
  - rewrite IH. fold (list_sum (map episode_count series)).
    unfold episode_count at 2. destruct (Title.episodes show); lia.
Qed.

(** X17: [GET /api/stats] counts the records of each file and the
    episodes of all series together (a series without episode list
    counting for none), and lists every genre tag once: the list has no
    duplicate and holds exactly the trimmed, comma-separated pieces of
    the genre strings of the stored movies and series, [totalGenres]
    being its length; a title whose genre string is empty contributes the
    empty tag. *)
Theorem stats_count_records_and_distinct_tags (env : Env) :
  exists genres,
    run (app GET_stats) env
    = (Returned
         (json 200 true
            (Stats (List.length (collection env "movies.json"))
               (List.length (collection env "series.json"))
               (list_sum (map episode_count (collection env "series.json")))
               (List.length genres) genres
               (average_rating (collection env "movies.json"))
               (average_rating (collection env "series.json")))),
       ["movies.json"; "series.json"])
    /\ NoDup genres
    /\ (forall g,
           In g genres <->
           exists m,
             (In m (collection env "movies.json")
              \/ In m (collection env "series.json"))
             /\ In g (tags_of m))
    /\ (forall m,
           In m (collection env "movies.json")
           \/ In m (collection env "series.json") ->
           Title.genre m = "" -> In "" genres).
Proof.
  set (tags := (genre_tags (collection env "movies.json")
                ++ genre_tags (collection env "series.json"))%list).
  destruct (Set_values_spec tags) as [Hnd Hin].
  assert (Htags : forall g,
    In g (JS.Set_values tags) <->
    exists m,
      (In m (collection env "movies.json") \/ In m (collection env "series.json"))
      /\ In g (tags_of m)).
  { intros g. rewrite Hin. subst tags. rewrite in_app_iff, !genre_tags_In.
    split.
    - intros [(m & Hm & Hg)|(m & Hm & Hg)]; exists m; tauto.
    - intros (m & [Hm|Hm] & Hg); [left|right]; now exists m. }
  exists (JS.Set_values tags).
  split; [|split; [exact Hnd|split; [exact Htags|]]].
  - unfold run. cbn [app]. rewrite get_api_stats_eq, fold_episode_count.
    reflexivity.
  - intros m Hm Hgenre. apply Htags. exists m. split; [assumption|].
    unfold tags_of. rewrite Hgenre. now left.
Qed.

Lemma sorted_distinct_is_strict (l : list string) :
  Sorted (fun a b => String.ltb b a = false) l -> NoDup l ->
  Sorted (fun a b => String.ltb a b = true) l.
Proof.
  induction l as [|a l IH]; intros Hs Hnd; [constructor|].
  inversion Hs as [|? ? Hs' Hhd]; subst.
  inversion Hnd as [|? ? Hnotin Hnd']; subst.
  constructor; [now apply IH|].
  destruct l as [|b l]; constructor.
  inversion Hhd as [|? ? Hba]; subst.
  unfold String.ltb in *. rewrite String.compare_antisym.
  destruct (String.compare b a) eqn:Hcmp; cbn; try reflexivity; try discriminate.
  apply String.compare_eq_iff in Hcmp. subst. exfalso. apply Hnotin. now left.
Qed.

(** X18: [GET /api/genres] returns the genre tags of [GET /api/stats] in
    strictly ascending order of code units: every tag is below the next
    one, so that none is repeated, and the tags are those of the
    statistics, rearranged. *)
Theorem genres_are_strictly_ascending (env : Env) :
  exists genres,
    run (app GET_genres) env
    = (Returned (json 200 true (Genres genres)), ["movies.json"; "series.json"])
    /\ Sorted (fun a b => String.ltb a b = true) genres
    /\ NoDup genres
    /\ (forall tm ts te tg tags am asr,
           fst (run (app GET_stats) env)
           = Returned (json 200 true (Stats tm ts te tg tags am asr)) ->
           Permutation tags genres).
Proof.
  set (tags := JS.Set_values
                 (genre_tags (collection env "movies.json")
                  ++ genre_tags (collection env "series.json"))%list).
  assert (Hperm : Permutation tags (JS.sort_strings tags))
    by apply sort_by_perm.
  assert (Hnd : NoDup (JS.sort_strings tags)).
  { eapply Permutation_NoDup; [exact Hperm|]. apply Set_values_spec. }
  exists (JS.sort_strings tags). split; [|split; [|split]].
  - unfold run. cbn [app]. now rewrite get_api_genres_eq.
  - apply sorted_distinct_is_strict; [|exact Hnd].
    unfold JS.sort_strings. apply sort_by_sorted.
    intros a b. unfold String.ltb. rewrite (String.compare_antisym a b).
    now destruct (String.compare b a).
  - exact Hnd.
  - intros tm ts te tg tags' am asr. unfold run. cbn [app].
    rewrite get_api_stats_eq. cbn [fst]. intros H. inversion H; subst.
    exact Hperm.
Qed.

Lemma sum_from_nan (ratings : list JS.Number) :
  sum_from JS.NaN ratings = JS.NaN.
Proof. induction ratings as [|r ratings IH]; [reflexivity|]. exact IH. Qed.

Lemma sum_from_poisoned (ratings : list JS.Number) (acc : JS.Number) :
  In JS.NaN ratings -> sum_from acc ratings = JS.NaN.
Proof.
  revert acc. induction ratings as [|r ratings IH]; intros acc; [intros []|].
  intros [->|Hin]; cbn [sum_from].
  - replace (JS.fadd acc JS.NaN) with JS.NaN by now destruct acc.
    apply sum_from_nan.
  - now apply IH.
Qed.

(** X19: one rating that does not parse as a number spoils the average
    of its collection: as soon as a stored record has a truthy rating
    that [parseFloat] reads as NaN (a text such as ["N/A"]), the average
    [GET /api/stats] reports for that collection is the text ["NaN"],
    whatever the other ratings are. *)
Theorem one_unparsable_rating_spoils_the_average
  (env : Env) (filename : string) (m : Title.t) :
  In m (collection env filename) ->
  parseFloat_rating_or_0 (Title.rating m) = JS.NaN ->
  average_rating (collection env filename) = "NaN"
  /\ exists tm ts te tg genres am asr,
      run (app GET_stats) env
      = (Returned (json 200 true (Stats tm ts te tg genres am asr)),
         ["movies.json"; "series.json"])
      /\ (filename = "movies.json" -> am = "NaN")
      /\ (filename = "series.json" -> asr = "NaN").
Proof.
  intros Hin Hnan.
  assert (Havg : average_rating (collection env filename) = "NaN").
  { rewrite average_rating_eq. unfold sum_of_ratings.
    rewrite sum_from_poisoned; [reflexivity|].
    rewrite <- Hnan, parseFloat_rating_or_0_eq.
    now apply in_map with (f := fun m => rating_value (Title.rating m)). }
  split; [exact Havg|].
  unfold run. cbn [app]. rewrite get_api_stats_eq.
  do 7 eexists. split; [reflexivity|].
  split; intros ->; exact Havg.
Qed.

Lemma one_unparsable_rating_spoils_the_average_witness :
  In (Title.mk "Omega" "" "" (Some (RStr "N/A")) "" "" None None)
     (collection
        (with_file Sample.env "movies.json"
           (Holds [Sample.incendies;
                   Title.mk "Omega" "" "" (Some (RStr "N/A")) "" "" None None]))
        "movies.json")
  /\ parseFloat_rating_or_0 (Some (RStr "N/A")) = JS.NaN
  /\ average_rating
       (collection
          (with_file Sample.env "movies.json"
             (Holds [Sample.incendies;
                     Title.mk "Omega" "" "" (Some (RStr "N/A")) "" "" None None]))
          "movies.json")
     = "NaN".
Proof.
  split; [right; left; reflexivity|]. split; [reflexivity|].
  apply (one_unparsable_rating_spoils_the_average
           (with_file Sample.env "movies.json"
              (Holds [Sample.incendies;
                      Title.mk "Omega" "" "" (Some (RStr "N/A")) "" "" None None]))
           "movies.json"
           (Title.mk "Omega" "" "" (Some (RStr "N/A")) "" "" None None));
    [right; left; reflexivity|reflexivity].
Defined.

(** *** The universal search against the listings *)

Lemma slice_map {A B : Type} (f : A -> B) (l : list A) (start end_ : option Z) :
  JS.slice (map f l) start end_ = map f (JS.slice l start end_).
Proof.
  unfold JS.slice. now rewrite length_map, skipn_map, firstn_map.
Qed.

(** X20: restricted to one kind by [type], the universal search agrees
    with the listing of that kind searched for the same term: for the
    same genre, [limit] and [offset] it returns the same records in the
    same order, each tagged with the kind, with the same [total] and the
    same [hasMore]. *)
Theorem search_of_one_kind_agrees_with_its_listing
  (env : Env) (q kind filename : string)
  (route : option string -> option string -> option string -> option string
           -> Request)
  (genre limit offset : option string) :
  JS.truthy (Some q) = true ->
  In (kind, filename, route)
     [("movie", "movies.json", GET_movies); ("series", "series.json", GET_series)] ->
  exists page total hasMore,
    run (app (route (Some q) genre limit offset)) env
    = (Returned
         (json 200 true
            (Page page total (JS.parseInt_default 20 limit)
               (JS.parseInt_default 0 offset) hasMore)),
       [filename])
    /\ run (app (GET_search (Some q) (Some kind) genre limit offset)) env
       = (Returned
            (json 200 true
               (SearchPage (map (fun m => tagged m kind) page) total
                  (JS.parseInt_default 20 limit) (JS.parseInt_default 0 offset)
                  hasMore q)),
          [filename]).
Proof.
  intros Hq Hkind.
  assert (Hresults :
    filtered_results env q (Some kind) genre
    = map (fun m => tagged m kind) (filtered_titles env filename (Some q) genre)
    /\ files_for (Some kind) = [filename]
    /\ In (route, filename) listings).
  { rewrite filtered_results_eq. unfold filtered_titles, search_filter.
    rewrite Hq.
    destruct Hkind as [H|[H|[]]]; inversion H; subst; cbn.
    - rewrite app_nil_r. repeat split. now left.
    - repeat split. right. now left. }
  destruct Hresults as (Hresults & Hfiles & Hroute).
  rewrite (listing_eq env route filename) by assumption.
  do 3 eexists. split; [reflexivity|].
  unfold run. cbn [app]. rewrite get_api_search_eq by assumption.
  now rewrite Hresults, Hfiles, slice_map, length_map.
Qed.

Lemma search_of_one_kind_agrees_with_its_listing_witness :
  JS.truthy (Some "DRAMA") = true
  /\ In ("series", "series.json", GET_series)
        [("movie", "movies.json", GET_movies); ("series", "series.json", GET_series)]
  /\ exists page total hasMore,
      run (app (GET_series (Some "DRAMA") None (Some "1") None)) Sample.env
      = (Returned (json 200 true (Page page total (Some 1) (Some 0) hasMore)),
         ["series.json"])
      /\ run (app (GET_search (Some "DRAMA") (Some "series") None (Some "1") None))
             Sample.env
         = (Returned
              (json 200 true
                 (SearchPage (map (fun m => tagged m "series") page) total
                    (Some 1) (Some 0) hasMore "DRAMA")),
            ["series.json"]).
Proof.
  split; [reflexivity|]. split; [right; left; reflexivity|].
  apply (search_of_one_kind_agrees_with_its_listing
           Sample.env "DRAMA" "series" "series.json" GET_series
           None (Some "1") None);
    [reflexivity|right; left; reflexivity].
Defined.

Lemma stats_count_records_and_distinct_tags_witness :
  exists genres,
    run (app GET_stats) Sample.env
    = (Returned
         (json 200 true
            (Stats 2 3 6 (List.length genres) genres
               (average_rating (collection Sample.env "movies.json"))
               (average_rating (collection Sample.env "series.json")))),
       ["movies.json"; "series.json"])
    /\ NoDup genres.
Proof.
  destruct (stats_count_records_and_distinct_tags Sample.env)
    as (genres & Hrun & Hnd & _).
  exists genres. split; [exact Hrun|exact Hnd].
Defined.

Lemma genres_are_strictly_ascending_witness :
  exists genres,
    run (app GET_genres) Sample.env
    = (Returned (json 200 true (Genres genres)), ["movies.json"; "series.json"])
    /\ Sorted (fun a b => String.ltb a b = true) genres.
Proof.
  destruct (genres_are_strictly_ascending Sample.env)
    as (genres & Hrun & Hsorted & _).
  exists genres. split; [exact Hrun|exact Hsorted].
Defined.
